(** * TotesMessenger: a shallow embedding of totes.py and its properties

    The bot polls reddit for new submissions that point at reddit threads,
    records the linked thread (a Source) and the linking thread (a Link) in
    a SQLite store, and posts or edits one reply on the Source listing the
    Links.  This file embeds [src/totes.py] (with the constants of
    [src/settings.py]) as Rocq functions and proves properties of them.

    Conventions of the embedding:
    - Python [str] is [string] (bytes; text is taken to be ASCII where
      [lower] matters), [None]-able attributes are [option];
    - exceptions are values of [exn]; code that can raise, log, touch the
      store or call reddit runs in the monad [M], which threads a [world]
      (store, trace of effects, clock reads) and keeps it when it raises;
    - an object (Source, Link, Notification) is a record, and a method
      that changes it returns the changed record; a method that raises
      returns none, and the one change a raise leaves behind on an object,
      the handle that the property [submission] assigns before the read
      that fails, has a name of its own: [Source.unloaded];
    - what the process cannot control (reddit's answers, the system clock,
      the process environment) is a parameter: [Reddit] and [Env]. *)

From Stdlib Require Import String Ascii List Bool Arith NArith Lia QArith.
From Stdlib Require Import Sorting.Sorted Sorting.Permutation DecimalString.
Import ListNotations.

Local Close Scope Q_scope.
Local Close Scope Z_scope.
Local Open Scope nat_scope.
Local Open Scope list_scope.
Local Open Scope string_scope.

Set Implicit Arguments.

(** ** Python strings *)

Module Py.

Definition lower_ascii (c : ascii) : ascii :=
  if (("A" <=? c) && (c <=? "Z"))%char
  then ascii_of_nat (nat_of_ascii c + 32)
  else c.

(** [str.lower()] on ASCII text. *)
Fixpoint lower (s : string) : string :=
  match s with
  | EmptyString => EmptyString
  | String c s' => String (lower_ascii c) (lower s')
  end.

(** [s[:n]] *)
Fixpoint take (n : nat) (s : string) : string :=
  match n, s with
  | S n', String c s' => String c (take n' s')
  | _, _ => EmptyString
  end.

(** [s[n:]] *)
Fixpoint drop (n : nat) (s : string) : string :=
  match n, s with
  | S n', String _ s' => drop n' s'
  | _, _ => s
  end.

(** [s.startswith(p)] *)
Definition startswith (p s : string) : bool := String.prefix p s.

(** Truth value of a [str]-or-[None] attribute. *)
Definition truthy (o : option string) : bool :=
  match o with
  | Some (String _ _) => true
  | _ => false
  end.

(** [sep.join(parts)] *)
Definition join (sep : string) (parts : list string) : string :=
  String.concat sep parts.

(** [str(n)] for a non-negative [int]. *)
Definition str_nat (n : nat) : string :=
  NilEmpty.string_of_uint (Nat.to_uint n).

(** [str(b)] for a [bool]. *)
Definition str_bool (b : bool) : string := if b then "True" else "False".

End Py.

(** ** The regular expression of [PATH_REGEX]

    A pattern is run the way Python's backtracking matcher runs it: every
    sub-pattern yields its candidate matches in the order they are tried
    (greedy: longest first), and [re.match] takes the first complete one. *)

Module Re.

(** A literal: the rest of the input after [p], if the input starts with [p]. *)
Fixpoint lit (p s : string) : option string :=
  match p, s with
  | EmptyString, _ => Some s
  | String a p', String b s' => if Ascii.eqb a b then lit p' s' else None
  | String _ _, EmptyString => None
  end.

(** The longest prefix of [s] made of characters of the class [f]. *)
Fixpoint span (f : ascii -> bool) (s : string) : string * string :=
  match s with
  | EmptyString => (EmptyString, EmptyString)
  | String a s' =>
      if f a then let (r, t) := span f s' in (String a r, t)
      else (EmptyString, s)
  end.

(** Lengths tried by a greedy repetition [{lo,top}]: [top], ..., [lo]. *)
Definition lengths (lo top : nat) : list nat := rev (seq lo (S top - lo)).

(** [class{lo,hi}] (or [class{lo,}] when [hi] is [None]), greedy. *)
Definition greedy (f : ascii -> bool) (lo : nat) (hi : option nat)
           (s : string) : list (string * string) :=
  let (run, rest) := span f s in
  let top := match hi with
             | Some h => Nat.min h (String.length run)
             | None => String.length run
             end in
  map (fun k => (Py.take k run, Py.drop k run ++ rest)) (lengths lo top).

(** [(g)?], greedy: the group's matches first, then the empty match. *)
Definition optional (A : Type) (g : string -> list (A * string))
           (s : string) : list (option A * string) :=
  (map (fun '(a, t) => (Some a, t)) (g s) ++ [(None, s)])%list.

(** [[^/]] *)
Definition not_slash (c : ascii) : bool := negb (Ascii.eqb c "/").

(** [[a-z0-9]] *)
Definition lower_alnum (c : ascii) : bool :=
  ((("a" <=? c) && (c <=? "z")) || (("0" <=? c) && (c <=? "9")))%char.

End Re.

(** [(/[^/]+/([a-z0-9]{6,8}))?] without the [?]: yields group 4. *)
Definition PATH_REGEX_comment (s : string) : list (string * string) :=
  match Re.lit "/" s with
  | None => []
  | Some s1 =>
      flat_map (fun '(_, s2) =>
        match Re.lit "/" s2 with
        | None => []
        | Some s3 => Re.greedy Re.lower_alnum 6 (Some 8) s3
        end) (Re.greedy Re.not_slash 1 None s1)
  end.

(** [^/r/([^/]+)/comments/([a-z0-9]{6,8})(/[^/]+/([a-z0-9]{6,8}))?]:
    all matches at the start of [s], in backtracking order, each with the
    groups 1, 2 and 4 (group 4 is [None] when the optional part is empty). *)
Definition PATH_REGEX (s : string)
  : list (string * string * option string) :=
  match Re.lit "/r/" s with
  | None => []
  | Some s1 =>
      flat_map (fun '(subreddit, s2) =>
        match Re.lit "/comments/" s2 with
        | None => []
        | Some s3 =>
            flat_map (fun '(post, s4) =>
              map (fun '(comment, _) => (subreddit, post, comment))
                  (Re.optional PATH_REGEX_comment s4))
              (Re.greedy Re.lower_alnum 6 (Some 8) s3)
        end) (Re.greedy Re.not_slash 1 None s1)
  end.

(** [PATH_REGEX.match(path)]: the first match, if any. *)
Definition PATH_REGEX_match (path : string)
  : option (string * string * option string) :=
  hd_error (PATH_REGEX path).

(** ** Exceptions *)

Inductive exn : Type :=
| NotAComment (msg : string)
| SubmissionNotFound (id : string)
| APIException
| ClientException
| PRAWException
| RequestException
| NameError (name : string)
| IntegrityError
| Exception (msg : string).

(** [RECOVERABLE_EXC]: [RecoverableException] and its two subclasses, and
    praw's exceptions. *)
Definition RECOVERABLE_EXC (e : exn) : bool :=
  match e with
  | NotAComment _ | SubmissionNotFound _
  | APIException | ClientException | PRAWException => true
  | RequestException | NameError _ | IntegrityError | Exception _ => false
  end.

Definition class_name (e : exn) : string :=
  match e with
  | NotAComment _ => "NotAComment"
  | SubmissionNotFound _ => "SubmissionNotFound"
  | APIException => "APIException"
  | ClientException => "ClientException"
  | PRAWException => "PRAWException"
  | RequestException => "RequestException"
  | NameError _ => "NameError"
  | IntegrityError => "IntegrityError"
  | Exception _ => "Exception"
  end.

Inductive res (A : Type) : Type :=
| Val (a : A)
| Raise (e : exn).
Arguments Raise {A} e.

(** [Source._parse_path] *)
Definition _parse_path (path : string) : res (string * string) :=
  match PATH_REGEX_match path with
  | Some (subreddit, post, comment) =>
      let id := if Py.truthy comment
                then "t1_" ++ match comment with Some c => c | None => "" end
                else "t3_" ++ post in
      Val (id, subreddit)
  | None =>
      Raise (NotAComment ("Source " ++ path ++ " is not a comment or post."))
  end.

(** ** The path pattern, in words

    [/r/{subreddit}/comments/{postId}[/{anything}/{commentId}]]: a segment
    is a non-empty run without a slash, an identifier is 6 to 8 characters
    of [a-z0-9]. *)

Fixpoint all_in (f : ascii -> bool) (s : string) : bool :=
  match s with
  | EmptyString => true
  | String c s' => f c && all_in f s'
  end.

Definition stops (f : ascii -> bool) (s : string) : Prop :=
  match s with
  | EmptyString => True
  | String c _ => f c = false
  end.

Definition segment (s : string) : Prop :=
  s <> "" /\ all_in Re.not_slash s = true.

Definition ident (s : string) : Prop :=
  6 <= String.length s <= 8 /\ all_in Re.lower_alnum s = true.

(** An identifier taken greedily: it is full, or what follows cannot
    extend it. *)
Definition longest (i rest : string) : Prop :=
  String.length i = 8 \/ stops Re.lower_alnum rest.

Definition comment_tail (rest : string) : Prop :=
  exists any c rest',
    rest = "/" ++ any ++ "/" ++ c ++ rest' /\ segment any /\ ident c.

(** [PathShape path subreddit post comment]: the path, read left to
    right, with its comment identifier if it has the comment part. *)
Inductive PathShape (path : string) : string -> string -> option string -> Prop :=
| shape_comment (sub post any c rest : string) :
    path = "/r/" ++ sub ++ "/comments/" ++ post ++ "/" ++ any ++ "/" ++ c ++ rest ->
    segment sub -> ident post -> segment any -> ident c -> longest c rest ->
    PathShape path sub post (Some c)
| shape_post (sub post rest : string) :
    path = "/r/" ++ sub ++ "/comments/" ++ post ++ rest ->
    segment sub -> ident post -> longest post rest -> ~ comment_tail rest ->
    PathShape path sub post None.

(** What the first match of the optional group comes to. *)
Definition first_comment (s : string) : option string :=
  match Re.lit "/" s with
  | None => None
  | Some s1 =>
      let (any, r1) := Re.span Re.not_slash s1 in
      if (1 <=? String.length any)%nat then
        match Re.lit "/" r1 with
        | None => None
        | Some s3 =>
            let (run, _) := Re.span Re.lower_alnum s3 in
            if (6 <=? String.length run)%nat
            then Some (Py.take (Nat.min 8 (String.length run)) run)
            else None
        end
      else None
  end.

(** What [PATH_REGEX.match] comes to: the subreddit and the identifiers
    are found whole, and no shorter alternative is ever the first. *)
Definition first_match (path : string) : option (string * string * option string) :=
  match Re.lit "/r/" path with
  | None => None
  | Some s1 =>
      let (sub, r1) := Re.span Re.not_slash s1 in
      if (1 <=? String.length sub)%nat then
        match Re.lit "/comments/" r1 with
        | None => None
        | Some s3 =>
            let (run, r3) := Re.span Re.lower_alnum s3 in
            if (6 <=? String.length run)%nat then
              let top := Nat.min 8 (String.length run) in
              Some (sub, Py.take top run, first_comment (Py.drop top run ++ r3))
            else None
        end
      else None
  end.



(** ** settings.py *)

Definition POST_TIME : Q := inject_Z (2 * 60).

(** ** Reddit, as the client shows it *)

(** A comment fetched by [reddit.comment(id)]: it has no [title]. *)
Record Comment : Type := {
  c_name : string;
  c_author : option string;      (* [author.name]; [None]: deleted *)
  c_archived : bool
}.

(** A submission: an item of the feed, or [reddit.submission(id)]. *)
Record Submission : Type := {
  s_name : string;
  s_author : option string;
  s_title : string;
  s_archived : bool;
  s_url : string;
  s_created_utc : Q;
  s_display_name : string;       (* [subreddit.display_name] *)
  s_permalink : string
}.

Inductive Thing : Type :=
| TComment (c : Comment)
| TSubmission (s : Submission).

Definition thing_name (t : Thing) : string :=
  match t with TComment c => c_name c | TSubmission s => s_name s end.

Definition thing_author (t : Thing) : option string :=
  match t with TComment c => c_author c | TSubmission s => s_author s end.

Definition thing_archived (t : Thing) : bool :=
  match t with TComment c => c_archived c | TSubmission s => s_archived s end.

(** [Some] exactly when [hasattr(thing, 'title')]. *)
Definition thing_title (t : Thing) : option string :=
  match t with TComment _ => None | TSubmission s => Some (s_title s) end.

(** What [reddit.comment(id)] and [reddit.submission(id)] return: a handle
    that loads its data when an attribute is first read.  [Fetched]: the
    data is loaded.  [Unfetched]: it is not, as after a load that raised;
    the next read of an attribute tries again. *)
Inductive Handle : Type :=
| Fetched (thing : Thing)
| Unfetched.

(** ** Effects: what a run leaves behind, in order *)

Inductive event : Type :=
| Log (level msg : string)
| Select (table : string) (key : option string)
| Execute (table id : string)           (* an INSERT or UPDATE *)
| Commit
| Rollback
| Fetch (is_comment : bool) (base36 : string)
| Replied (parent body name : string)   (* a new comment [name] exists *)
| Edited (base36 body : string)
| HttpGet (url : string)
| Close.

(** The client's answers.  A thing that no longer resolves is [None]: the
    client raises [PRAWException] when an attribute of its handle is read.
    A reply is posted under the parent's full name, which the handle has
    without loading.  Posting and editing may fail with one of praw's
    exceptions; the answer may depend on everything done so far. *)
Record Reddit : Type := {
  get_comment : string -> option Comment;        (* [reddit.comment(id)] *)
  get_submission : string -> option Submission;  (* [reddit.submission(id)] *)
  domain_new : list Submission;
  reply_to : list event -> string -> string -> res string;
  edit_comment : list event -> string -> string -> res unit
}.

(** The process environment and the names the module finds at run time. *)
Record Env : Type := {
  TEST : bool;
  DEBUG : bool;
  np : option (string -> string);     (* the global [np], if bound *)
  urlparse_path : string -> string;   (* [urlparse(u).path] *)
  clock : nat -> Q;                   (* the n-th reading of the clock *)
  requests_get : string -> bool       (* [false]: [RequestException] *)
}.

(** [totes.py] calls [np(permalink)] in [_render_comment] but neither
    defines nor imports a name [np]: in the module as written the name is
    unbound. *)
Definition module_np : option (string -> string) := None.

(** ** The store *)

Module Db.

Record pref_row : Type := {
  p_name : string;
  p_skip_source : bool;
  p_skip_link : bool
}.

Record source_row : Type := {
  sr_id : string;
  sr_reply : option string;
  sr_subreddit : string;
  sr_author : option string;
  sr_title : option string;
  sr_skip : bool;
  sr_t : Q                      (* DEFAULT CURRENT_TIMESTAMP *)
}.

Record link_row : Type := {
  lr_id : string;
  lr_source : string;
  lr_permalink : string;
  lr_subreddit : string;
  lr_skip : bool;
  lr_author : string;
  lr_title : string;
  lr_t : Q
}.

(** Rows are kept in rowid order. *)
Record tables : Type := {
  users : list pref_row;
  subreddits : list pref_row;
  sources : list source_row;
  links : list link_row
}.

Definition with_sources (t : tables) (rows : list source_row) : tables :=
  {| users := users t; subreddits := subreddits t;
     sources := rows; links := links t |}.

Definition with_links (t : tables) (rows : list link_row) : tables :=
  {| users := users t; subreddits := subreddits t;
     sources := sources t; links := rows |}.

(** [SELECT ... FROM sources WHERE id=? LIMIT 1] *)
Definition find_source (id : string) (t : tables) : option source_row :=
  find (fun r => sr_id r =? id) (sources t).

(** [SELECT ... FROM links WHERE id=? LIMIT 1] *)
Definition find_link (id : string) (t : tables) : option link_row :=
  find (fun r => lr_id r =? id) (links t).

(** [SELECT * FROM <prefs> WHERE name = ? AND <flag> = 1 LIMIT 1] has a
    row.  [name = NULL] selects nothing. *)
Definition flagged (flag : pref_row -> bool) (name : option string)
           (rows : list pref_row) : bool :=
  match name with
  | None => false
  | Some n => existsb (fun r => (p_name r =? n) && flag r) rows
  end.

(** [reply TEXT UNIQUE]: another row already holds this non-NULL reply. *)
Definition reply_taken (id : string) (reply : option string)
           (t : tables) : bool :=
  match reply with
  | None => false
  | Some x =>
      existsb (fun r => negb (sr_id r =? id) &&
                        match sr_reply r with
                        | Some y => y =? x
                        | None => false
                        end) (sources t)
  end.

(** [UPDATE sources SET reply, subreddit, author, title, skip WHERE id]:
    the timestamp column is not assigned. *)
Definition update_source (reply : option string) (subreddit : string)
           (author title : option string) (skip : bool) (id : string)
           (t : tables) : tables :=
  with_sources t
    (map (fun r => if sr_id r =? id
                   then {| sr_id := sr_id r;
                           sr_reply := reply;
                           sr_subreddit := subreddit;
                           sr_author := author;
                           sr_title := title;
                           sr_skip := skip;
                           sr_t := sr_t r |}
                   else r) (sources t)).

Definition insert_source (new : source_row) (t : tables) : tables :=
  with_sources t (sources t ++ [new])%list.

(** [UPDATE links SET source, permalink, subreddit, skip, author, title
    WHERE id] *)
Definition update_link (source permalink subreddit : string) (skip : bool)
           (author title : string) (id : string) (t : tables) : tables :=
  with_links t
    (map (fun r => if lr_id r =? id
                   then {| lr_id := lr_id r;
                           lr_source := source;
                           lr_permalink := permalink;
                           lr_subreddit := subreddit;
                           lr_skip := skip;
                           lr_author := author;
                           lr_title := title;
                           lr_t := lr_t r |}
                   else r) (links t)).

Definition insert_link (new : link_row) (t : tables) : tables :=
  with_links t (links t ++ [new])%list.

End Db.

(** [ORDER BY subreddit ASC, title ASC] on rows [(subreddit, title,
    permalink)]: text is compared byte by byte, and rows that agree on both
    columns stay in rowid order. *)
Definition row_key (x : string * string * string) : string * string :=
  let '(subreddit, title, _) := x in (subreddit, title).

Definition key_leb (a b : string * string) : bool :=
  match String.compare (fst a) (fst b) with
  | Lt => true
  | Eq => String.leb (snd a) (snd b)
  | Gt => false
  end.

Definition link_leb (x y : string * string * string) : bool :=
  key_leb (row_key x) (row_key y).

(** The order in words: the subreddit is smaller, or the subreddits are
    equal and the title is not greater. *)
Definition subreddit_then_title (x y : string * string * string) : Prop :=
  String.compare (fst (row_key x)) (fst (row_key y)) = Lt \/
  (fst (row_key x) = fst (row_key y) /\
   String.leb (snd (row_key x)) (snd (row_key y)) = true).

Fixpoint insert_row (x : string * string * string)
         (rows : list (string * string * string))
  : list (string * string * string) :=
  match rows with
  | [] => [x]
  | y :: rows' =>
      if link_leb x y then x :: rows else y :: insert_row x rows'
  end.

Fixpoint order_by (rows : list (string * string * string))
  : list (string * string * string) :=
  match rows with
  | [] => []
  | x :: rows' => insert_row x (order_by rows')
  end.

(** ** The world and the monad *)

Record world : Type := {
  db_live : Db.tables;       (* what the cursor sees *)
  db_durable : Db.tables;    (* as of the last commit *)
  trace : list event;
  ticks : nat                (* clock readings so far *)
}.

Definition M (A : Type) : Type := world -> res A * world.

Definition ret {A : Type} (a : A) : M A := fun w => (Val a, w).

Definition raise {A : Type} (e : exn) : M A := fun w => (Raise e, w).

Definition bind {A B : Type} (m : M A) (k : A -> M B) : M B :=
  fun w => match m w with
           | (Val a, w') => k a w'
           | (Raise e, w') => (Raise e, w')
           end.

Declare Scope totes_scope.
Delimit Scope totes_scope with totes.
Notation "x <- m ;; k" := (bind m (fun x => k))
  (at level 61, m at next level, right associativity) : totes_scope.
Notation "' p <- m ;; k" := (bind m (fun p => k))
  (at level 61, p pattern, m at next level, right associativity) : totes_scope.
Notation "m ;; k" := (bind m (fun _ => k))
  (at level 61, right associativity) : totes_scope.
Local Open Scope totes_scope.

(** [try: m except RECOVERABLE_EXC as e: h e] *)
Definition try_except {A : Type} (m : M A) (h : exn -> M A) : M A :=
  fun w => match m w with
           | (Raise e, w') =>
               if RECOVERABLE_EXC e then h e w' else (Raise e, w')
           | r => r
           end.

Definition lift {A : Type} (r : res A) : M A := fun w => (r, w).

Definition emit (e : event) : M unit :=
  fun w => (Val tt, {| db_live := db_live w; db_durable := db_durable w;
                       trace := (trace w ++ [e])%list; ticks := ticks w |}).

Definition read_db : M Db.tables := fun w => (Val (db_live w), w).

Definition history : M (list event) := fun w => (Val (trace w), w).

Definition write_db (f : Db.tables -> Db.tables) : M unit :=
  fun w => (Val tt, {| db_live := f (db_live w); db_durable := db_durable w;
                       trace := trace w; ticks := ticks w |}).

(** [db.commit()] *)
Definition commit : M unit :=
  fun w => (Val tt, {| db_live := db_live w; db_durable := db_live w;
                       trace := (trace w ++ [Commit])%list;
                       ticks := ticks w |}).

(** [db.rollback()] *)
Definition rollback : M unit :=
  fun w => (Val tt, {| db_live := db_durable w; db_durable := db_durable w;
                       trace := (trace w ++ [Rollback])%list;
                       ticks := ticks w |}).

(** The system clock: [datetime.now(...)], [CURRENT_TIMESTAMP]. *)
Definition read_clock (env : Env) : M Q :=
  fun w => (Val (clock env (ticks w)),
            {| db_live := db_live w; db_durable := db_durable w;
               trace := trace w; ticks := S (ticks w) |}).

(** The logger's level is DEBUG when [DEBUG] is set and INFO otherwise. *)
Definition log_debug (env : Env) (msg : string) : M unit :=
  if DEBUG env then emit (Log "DEBUG" msg) else ret tt.

Definition log_info (msg : string) : M unit := emit (Log "INFO" msg).
Definition log_warn (msg : string) : M unit := emit (Log "WARNING" msg).

(** [log.error(...)] *)
Definition log_err (msg : string) : M unit := emit (Log "ERROR" msg).

(** [log_error(e)]; the traceback text is left out. *)
Definition log_error (e : exn) : M unit :=
  log_err ("Unexpected " ++ class_name e ++ ":").

(** [str(e)].  [SubmissionNotFound.__str__] formats the builtin [id]. *)
Definition str_exn (e : exn) : string :=
  match e with
  | NotAComment msg => msg
  | SubmissionNotFound _ => "Could not find submission <built-in function id>"
  | NameError n => "name '" ++ n ++ "' is not defined"
  | Exception msg => msg
  | _ => class_name e
  end.

(** [source_exists(id)] *)
Definition source_exists (id : string) : M bool :=
  emit (Select "sources" (Some id));;
  db <- read_db;;
  ret (match Db.find_source id db with Some _ => true | None => false end).

(** [link_exists(id)] *)
Definition link_exists (id : string) : M bool :=
  emit (Select "links" (Some id));;
  db <- read_db;;
  ret (match Db.find_link id db with Some _ => true | None => false end).

(** ** class Source *)

Module Source.

Record t : Type := {
  path : string;
  id : string;
  subreddit : string;
  _submission : option Handle;
  author : option string;
  title : option string;
  reply : option string;
  skip : bool;
  is_new : bool
}.

Definition set_skip (self : t) (b : bool) : t :=
  {| path := path self; id := id self; subreddit := subreddit self;
     _submission := _submission self; author := author self;
     title := title self; reply := reply self; skip := b;
     is_new := is_new self |}.

Definition set_reply (self : t) (r : option string) : t :=
  {| path := path self; id := id self; subreddit := subreddit self;
     _submission := _submission self; author := author self;
     title := title self; reply := r; skip := skip self;
     is_new := is_new self |}.

Definition set_author (self : t) (a : option string) : t :=
  {| path := path self; id := id self; subreddit := subreddit self;
     _submission := _submission self; author := a;
     title := title self; reply := reply self; skip := skip self;
     is_new := is_new self |}.

Definition set_title (self : t) (x : option string) : t :=
  {| path := path self; id := id self; subreddit := subreddit self;
     _submission := _submission self; author := author self;
     title := x; reply := reply self; skip := skip self;
     is_new := is_new self |}.

Definition set__submission (self : t) (x : option Handle) : t :=
  {| path := path self; id := id self; subreddit := subreddit self;
     _submission := x; author := author self;
     title := title self; reply := reply self; skip := skip self;
     is_new := is_new self |}.

Definition __init__ (env : Env) (url : string) : M t :=
  let path := urlparse_path env (Py.lower url) in
  '(id, subreddit) <- lift (_parse_path path);;
  ret {| path := path; id := id; subreddit := subreddit;
         _submission := None; author := None; title := None;
         reply := None; skip := false; is_new := true |}.

Definition __eq__ (self other : t) : bool := id self =? id other.

Definition base36 (self : t) : string := Py.drop 3 (id self).

Definition is_comment (self : t) : bool := Py.startswith "t1" (id self).

Definition is_post (self : t) : bool := Py.startswith "t3" (id self).

(** What the handle made by [reddit.comment(base36)] or
    [reddit.submission(base36)] resolves to when its [name] is read;
    [None]: the read raises [PRAWException]. *)
Definition lookup (reddit : Reddit) (self : t) : option Thing :=
  if is_comment self
  then option_map TComment (get_comment reddit (base36 self))
  else option_map TSubmission (get_submission reddit (base36 self)).

(** The full name of the handle: its kind and the identifier it was made
    with. *)
Definition fullname (self : t) : string :=
  (if is_comment self then "t1_" else "t3_") ++ base36 self.

(** The object once [self._submission] is assigned and before the handle
    is loaded.  A read of [submission] that raises leaves the object so:
    the assignment comes before the read of [name]. *)
Definition unloaded (self : t) : t := set__submission self (Some Unfetched).

(** The property [submission].  A handle, once assigned, is what every
    later read returns, loaded or not; [SubmissionNotFound] is raised only
    by the read that makes the handle. *)
Definition submission (reddit : Reddit) (self : t) : M (Handle * t) :=
  match _submission self with
  | Some handle => ret (handle, self)
  | None =>
      let self := unloaded self in
      emit (Fetch (is_comment self) (base36 self));;
      match lookup reddit self with
      | Some thing =>
          ret (Fetched thing, set__submission self (Some (Fetched thing)))
      | None => raise (SubmissionNotFound (id self))
      end
  end.

(** [self.submission.<attribute>] for a data attribute ([author], [title],
    [archived]): the property, then the handle's data, which a handle that
    is not loaded fetches first. *)
Definition thing (reddit : Reddit) (self : t) : M (Thing * t) :=
  '(handle, self) <- submission reddit self;;
  match handle with
  | Fetched thing => ret (thing, self)
  | Unfetched =>
      emit (Fetch (is_comment self) (base36 self));;
      match lookup reddit self with
      | Some thing => ret (thing, set__submission self (Some (Fetched thing)))
      | None => raise PRAWException
      end
  end.

Definition check_skip (reddit : Reddit) (self : t) : M (bool * t) :=
  if skip self then ret (true, self) else
  emit (Select "users" (author self));;
  db <- read_db;;
  if Db.flagged Db.p_skip_source (author self) (Db.users db)
  then ret (true, set_skip self true) else
  emit (Select "subreddits" (Some (subreddit self)));;
  db <- read_db;;
  if Db.flagged Db.p_skip_source (Some (subreddit self)) (Db.subreddits db)
  then ret (true, set_skip self true) else
  '(thing, self) <- thing reddit self;;
  if thing_archived thing
  then ret (true, set_skip self true)
  else ret (false, self).

Definition save (env : Env) (self : t) : M unit :=
  found <- source_exists (id self);;
  emit (Execute "sources" (id self));;
  db <- read_db;;
  (if Db.reply_taken (id self) (reply self) db then raise IntegrityError
   else if found
   then write_db (Db.update_source (reply self) (subreddit self)
                    (author self) (title self) (skip self) (id self))
   else
     now <- read_clock env;;
     write_db (Db.insert_source
                 {| Db.sr_id := id self; Db.sr_reply := reply self;
                    Db.sr_subreddit := subreddit self;
                    Db.sr_author := author self;
                    Db.sr_title := title self;
                    Db.sr_skip := skip self; Db.sr_t := now |}));;
  commit.

Definition load (reddit : Reddit) (self : t) : M t :=
  emit (Select "sources" (Some (id self)));;
  db <- read_db;;
  match Db.find_source (id self) db with
  | Some row =>
      ret {| path := path self; id := Db.sr_id row;
             subreddit := Db.sr_subreddit row;
             _submission := _submission self;
             author := Db.sr_author row; title := Db.sr_title row;
             reply := Db.sr_reply row; skip := Db.sr_skip row;
             is_new := false |}
  | None =>
      self <-
        (if negb (Py.truthy (author self))
         then
           '(thing, self) <- thing reddit self;;
           match thing_author thing with
           | Some name => ret (set_author self (Some (Py.lower name)))
           | None => ret (set_author self (Some "[deleted]"))
           end
         else ret (set_author self (Some "[deleted]")));;
      '(thing, self) <- thing reddit self;;
      match thing_title thing with
      | Some x => ret (set_title self (Some x))
      | None => ret (set_title self (Some "[comment]"))
      end
  end.

End Source.

(** ** class Link *)

Module Link.

Record t : Type := {
  submission : Submission;
  id : string;
  subreddit : string;
  skip : bool;
  author : string;
  title : string;
  permalink : string;
  source : string;
  is_new : bool
}.

Definition set_skip (self : t) (b : bool) : t :=
  {| submission := submission self; id := id self;
     subreddit := subreddit self; skip := b; author := author self;
     title := title self; permalink := permalink self;
     source := source self; is_new := is_new self |}.

Definition __init__ (submission : Submission) (source : string) : t :=
  {| submission := submission;
     id := s_name submission;
     subreddit := Py.lower (s_display_name submission);
     skip := match s_author submission with Some _ => false | None => true end;
     author := match s_author submission with
               | Some name => Py.lower name
               | None => "[deleted]"
               end;
     title := s_title submission;
     permalink := s_permalink submission;
     source := source;
     is_new := true |}.

Definition check_skip (self : t) : M (bool * t) :=
  if skip self then ret (true, self) else
  emit (Select "users" (Some (author self)));;
  db <- read_db;;
  if Db.flagged Db.p_skip_link (Some (author self)) (Db.users db)
  then ret (true, set_skip self true) else
  emit (Select "subreddits" (Some (Py.lower (subreddit self))));;
  db <- read_db;;
  if Db.flagged Db.p_skip_link (Some (Py.lower (subreddit self)))
       (Db.subreddits db)
  then ret (true, set_skip self true)
  else ret (false, self).

Definition save (env : Env) (self : t) : M unit :=
  found <- link_exists (id self);;
  emit (Execute "links" (id self));;
  (if found
   then write_db (Db.update_link (source self) (permalink self)
                    (subreddit self) (skip self) (author self)
                    (title self) (id self))
   else
     now <- read_clock env;;
     write_db (Db.insert_link
                 {| Db.lr_id := id self; Db.lr_source := source self;
                    Db.lr_permalink := permalink self;
                    Db.lr_subreddit := subreddit self;
                    Db.lr_skip := skip self;
                    Db.lr_author := author self;
                    Db.lr_title := title self; Db.lr_t := now |}));;
  commit.

Definition load (self : t) : M t :=
  emit (Select "links" (Some (id self)));;
  db <- read_db;;
  match Db.find_link (id self) db with
  | Some row =>
      ret {| submission := submission self; id := Db.lr_id row;
             subreddit := Db.lr_subreddit row; skip := Db.lr_skip row;
             author := Db.lr_author row; title := Db.lr_title row;
             permalink := Db.lr_permalink row;
             source := Db.lr_source row; is_new := false |}
  | None => ret self
  end.

End Link.

(** ** class Notification *)

Definition nl : string := String (ascii_of_nat 10) EmptyString.

Module Notification.

Record t : Type := {
  source : Source.t;
  id : string;
  reply : option string;
  links : list (string * string * string)  (* subreddit, title, permalink *)
}.

Definition __init__ (source : Source.t) : t :=
  {| source := source; id := Source.id source;
     reply := Source.reply source; links := [] |}.

(** [SELECT subreddit, title, permalink] *)
Definition selected (r : Db.link_row) : string * string * string :=
  (Db.lr_subreddit r, Db.lr_title r, Db.lr_permalink r).

(** [WHERE source=? AND skip=?] with [(self.id, False)] *)
Definition where_ (id : string) (r : Db.link_row) : bool :=
  (Db.lr_source r =? id) && negb (Db.lr_skip r).

(** The rows of [SELECT subreddit, title, permalink FROM links WHERE
    source=? AND skip=? ORDER BY subreddit ASC, title ASC]. *)
Definition query (id : string) (db : Db.tables)
  : list (string * string * string) :=
  order_by (map selected (filter (where_ id) (Db.links db))).

Definition should_notify (self : t) : M (bool * t) :=
  emit (Select "links" (Some (id self)));;
  db <- read_db;;
  let self := {| source := source self; id := id self;
                 reply := reply self;
                 links := (links self ++ query (id self) db)%list |} in
  (* a row is a 3-tuple, which is true *)
  ret (existsb (fun _ => true) (links self), self).

Definition preamble : string :=
  "This thread has been linked to from another place on reddit.".

Definition footer : string :=
  nl ++
  "[](#footer)*^(If you follow any of the above links, respect the rules of reddit and don't vote.)"
  ++ nl ++
  "            ^\([Info](/r/TotesMessenger/wiki/)"
  ++ nl ++
  "            ^/"
  ++ nl ++
  "            ^[Contact](/message/compose/?to=\/r\/TotesMessenger))* [](#bot)"
  ++ nl ++
  "        ".

(** ["- [/r/{}] [{}]({})".format(subreddit, title, np(permalink))]; the
    global [np] is looked up when the call is made. *)
Definition bullet (env : Env) (row : string * string * string)
  : res string :=
  let '(subreddit, title, permalink) := row in
  match np env with
  | None => Raise (NameError "np")
  | Some f =>
      Val ("- [/r/" ++ subreddit ++ "] [" ++ title ++ "]("
           ++ f permalink ++ ")")
  end.

Fixpoint bullets (env : Env) (rows : list (string * string * string))
  : res (list string) :=
  match rows with
  | [] => Val []
  | row :: rows' =>
      match bullet env row with
      | Raise e => Raise e
      | Val b =>
          match bullets env rows' with
          | Raise e => Raise e
          | Val bs => Val (b :: bs)
          end
      end
  end.

Definition _render_comment (env : Env) (self : t) : res string :=
  match bullets env (links self) with
  | Raise e => Raise e
  | Val bs => Val (Py.join (nl ++ nl) ([preamble] ++ bs ++ [footer])%list)
  end.

Definition post_reply (env : Env) (reddit : Reddit) (self : t)
  : M (bool * t) :=
  body <- lift (_render_comment env self);;
  if TEST env then
    log_debug env (nl ++ "========== COMMENT ============" ++ nl
                   ++ "Source: " ++ Source.path (source self) ++ nl
                   ++ body ++ nl
                   ++ "========== /COMMENT ===========" ++ nl);;
    ret (true, self)
  else if Py.truthy (reply self) then
    let base36 := Py.drop 3 (match reply self with
                             | Some r => r
                             | None => ""
                             end) in
    h <- history;;
    lift (edit_comment reddit h base36 body);;
    emit (Edited base36 body);;
    ret (true, self)
  else
    (* [if self.source:] a Source object is always true *)
    '(_, src) <- Source.submission reddit (source self);;
    h <- history;;
    name <- lift (reply_to reddit h (Source.fullname src) body);;
    emit (Replied (Source.fullname src) body name);;
    let src := Source.set_reply src (Some name) in
    let self := {| source := src; id := id self; reply := Some name;
                   links := links self |} in
    Source.save env src;;
    ret (true, self).

End Notification.

(** ** class Totes *)

Module Totes.

Record t : Type := {
  limit : nat;
  snitch_url : option string;
  _setup : bool
}.

(** [sources.add(source)]: Sources are equal when their ids are, and an
    element already in the set stays.  Python leaves the iteration order
    of a set open; the model iterates in insertion order. *)
Definition set_add (source : Source.t) (sources : list Source.t)
  : list Source.t :=
  if existsb (Source.__eq__ source) sources then sources
  else (sources ++ [source])%list.

(** The handler of the two [except RECOVERABLE_EXC] clauses of the
    first loop of [run]. *)
Definition abandon {A : Type} (env : Env) (stacktrace : bool)
           (what name : string) (e : exn) : M (option A) :=
  (if stacktrace then log_error e else log_err (str_exn e));;
  rollback;;
  log_debug env ("Something wrong with " ++ what ++ ": " ++ name);;
  ret None.

(** One pass of the first loop of [run] up to [link.save()]; [None] is
    [continue]. *)
Definition resolve (env : Env) (reddit : Reddit) (submission : Submission)
  : M (option (Source.t * Link.t)) :=
  r <- try_except
         (source <- Source.__init__ env (s_url submission);;
          source <- Source.load reddit source;;
          ret (Some source))
         (abandon env (DEBUG env) "source" (s_name submission));;
  match r with
  | None => ret None
  | Some source =>
      log_debug env ("Got source: " ++ s_name submission);;
      '(_, source) <- Source.check_skip reddit source;;
      Source.save env source;;
      r <- try_except
             (link <- Link.load (Link.__init__ submission (Source.id source));;
              ret (Some link))
             (abandon env true "link" (s_name submission));;
      match r with
      | None => ret None
      | Some link =>
          log_debug env ("Got link: " ++ s_name submission);;
          '(_, link) <- Link.check_skip link;;
          Link.save env link;;
          ret (Some (source, link))
      end
  end.

(** [skip_any] as it stands before the test [any_new and not skip_any]. *)
Definition skip_any (source : Source.t) (link : Link.t) : bool :=
  let skip_any := Source.skip source || Link.skip link in
  if negb (Source.subreddit source =? "relationship_advice")
     && negb (Link.subreddit link =? "ra_automod")
  then true
  else skip_any.

Definition any_new (source : Source.t) (link : Link.t) : bool :=
  Source.is_new source || Link.is_new link.

(** The body of [for submission in submissions]. *)
Definition process (env : Env) (reddit : Reddit)
           (sources : list Source.t) (submission : Submission)
  : M (list Source.t) :=
  now <- read_clock env;;
  if Qlt_le_dec (now - s_created_utc submission) POST_TIME then
    log_debug env "Skipping, too new";;
    ret sources
  else
    r <- resolve env reddit submission;;
    match r with
    | None => ret sources
    | Some (source, link) =>
        log_debug env ("Skip any: " ++ Py.str_bool (skip_any source link));;
        log_debug env ("Any new: " ++ Py.str_bool (any_new source link));;
        if any_new source link && negb (skip_any source link)
        then ret (set_add source sources)
        else ret sources
    end.

Fixpoint for_each {A B : Type} (body : A -> B -> M A) (acc : A)
         (items : list B) : M A :=
  match items with
  | [] => ret acc
  | x :: items' => acc' <- body acc x;; for_each body acc' items'
  end.

(** The body of [for source in sources]. *)
Definition notify (env : Env) (reddit : Reddit) (_ : unit)
           (source : Source.t) : M unit :=
  '(go, notification) <-
     Notification.should_notify (Notification.__init__ source);;
  if go then
    try_except
      (Notification.post_reply env reddit notification;; ret tt)
      (fun e => log_error e;; rollback)
  else ret tt.

Definition snitch (env : Env) (self : t) : M unit :=
  if Py.truthy (snitch_url self) then
    let url := match snitch_url self with Some u => u | None => "" end in
    log_info "Snitchin'...";;
    emit (HttpGet url);;
    if requests_get env url then ret tt
    else log_warn "Couldn't snitch";; log_error RequestException
  else ret tt.

Definition run (env : Env) (reddit : Reddit) (self : t) : M unit :=
  if negb (_setup self) then raise (Exception "Totes not ready yet!!!")
  else
    log_info "Running.";;
    let submissions := firstn (limit self) (domain_new reddit) in
    log_debug env ("Got " ++ Py.str_nat (length submissions)
                   ++ " new submissions");;
    sources <- for_each (process env reddit) [] submissions;;
    for_each (notify env reddit) tt sources;;
    snitch env self;;
    log_info "Done.".

Definition setup (self : t) : M t :=
  log_info "Logged in to reddit.";;
  log_info "Totes set up.";;
  ret {| limit := limit self; snitch_url := snitch_url self;
         _setup := true |}.

Definition quit : M unit := log_info "Totes goodbye!".

End Totes.

(** The script: one [Reddit] per turn of [while True], then the keyboard
    interrupt.  [Raise e] is the process dying of [e]. *)
Definition main_loop (env : Env) (totes : Totes.t) : list Reddit -> M unit :=
  Totes.for_each
    (fun (_ : unit) (reddit : Reddit) =>
       try_except (Totes.run env reddit totes)
                  (fun e => log_error e;; rollback))
    tt.

Definition main (env : Env) (limit : nat) (snitch_url : option string)
           (cycles : list Reddit) : M unit :=
  totes <- Totes.setup {| Totes.limit := limit;
                          Totes.snitch_url := snitch_url;
                          Totes._setup := false |};;
  main_loop env totes cycles;;
  Totes.quit;;
  emit Close.

(** ** The rendering the spec describes, and what a trace shows

    The spec's rule for titles: past the cutoff on the number of links, a
    title longer than the limit is cut to the limit and gets an ellipsis. *)


Definition bullet_text (f : string -> string) (title : string -> string)
           (row : string * string * string) : string :=
  let '(subreddit, t, permalink) := row in
  "- [/r/" ++ subreddit ++ "] [" ++ title t ++ "](" ++ f permalink ++ ")".

(** The body with every title passed through [title]. *)
Definition body_with (f : string -> string) (title : string -> string)
           (rows : list (string * string * string)) : string :=
  Py.join (nl ++ nl)
          ([Notification.preamble] ++ map (bullet_text f title) rows
           ++ [Notification.footer])%list.


(** The names of the comments a trace created, and the comments it
    edited. *)
Fixpoint replies (tr : list event) : list string :=
  match tr with
  | [] => []
  | Replied _ _ name :: tr' => name :: replies tr'
  | _ :: tr' => replies tr'
  end.

Fixpoint edits (tr : list event) : list string :=
  match tr with
  | [] => []
  | Edited base36 _ :: tr' => base36 :: edits tr'
  | _ :: tr' => edits tr'
  end.


Definition load_title (thing : Thing) : string :=
  match thing with
  | TSubmission post => s_title post
  | TComment _ => "[comment]"
  end.

(** ** The helpers of the module outside the classes *)

(** [link_url(url)] *)
Definition link_url (env : Env) (url : string) : string :=
  "https://www.reddit.com" ++ urlparse_path env url.

(** [title.replace(s, new)] for a one-character [s]: every occurrence,
    left to right. *)
Fixpoint replace_char (c : ascii) (new : string) (s : string) : string :=
  match s with
  | EmptyString => EmptyString
  | String a s' =>
      if Ascii.eqb a c then new ++ replace_char c new s'
      else String a (replace_char c new s')
  end.

(** The Python literal ["\\*[]^`_~/"]: a backslash and eight more
    characters. *)
Definition escaped : string := "\*[]^`_~/".

(** [escape_title(title)]: one [replace] per character of [escaped], in
    that order. *)
Definition escape_title (title : string) : string :=
  fold_left (fun t s => replace_char s (String "\" (String s "")) t)
            (list_ascii_of_string escaped) title.

(** One of the characters of [escaped]. *)
Definition is_escaped (c : ascii) : bool :=
  existsb (Ascii.eqb c) (list_ascii_of_string escaped).

(** Escaping in one pass: a backslash before every character of
    [escaped]. *)
Fixpoint escape_once (s : string) : string :=
  match s with
  | EmptyString => EmptyString
  | String a s' =>
      if is_escaped a then String "\" (String a (escape_once s'))
      else String a (escape_once s')
  end.

(** Reading an escaped title back: a backslash stands for the character
    after it. *)
Fixpoint unescape (s : string) : string :=
  match s with
  | EmptyString => EmptyString
  | String a s' =>
      if Ascii.eqb a "\"
      then match s' with
           | EmptyString => EmptyString
           | String b s'' => String b (unescape s'')
           end
      else String a (unescape s')
  end.

(** Nothing is pending: the cursor sees what is committed. *)
Definition clean (w : world) : Prop := db_live w = db_durable w.

(** A computation keeps [P]: started where [P] holds, it ends where [P]
    holds, whether it returns or raises. *)
Definition keeps (P : world -> Prop) {A : Type} (m : M A) : Prop :=
  forall (w : world) (r : res A) (w' : world),
    P w -> m w = (r, w') -> P w'.

(** A computation that leaves both copies of the store as they are. *)
Definition reads_only {A : Type} (m : M A) : Prop :=
  forall (w : world) (r : res A) (w' : world),
    m w = (r, w') ->
    db_live w' = db_live w /\ db_durable w' = db_durable w.

(** Events that touch neither the store nor reddit: log lines and the
    beacon. *)
Definition chatter (e : event) : Prop :=
  match e with
  | Log _ _ | HttpGet _ => True
  | _ => False
  end.

(** From [w] to [w'] nothing happened but chatter. *)
Definition quietly (w w' : world) : Prop :=
  db_live w' = db_live w /\ db_durable w' = db_durable w /\
  exists events, trace w' = (trace w ++ events)%list /\
                 Forall chatter events.

(** The thing a read of [self.submission.<attribute>] gives when it does
    not raise: the data of a loaded handle, and otherwise what reddit
    answers. *)
Definition resolved (reddit : Reddit) (s : Source.t) : option Thing :=
  match Source._submission s with
  | Some (Fetched thing) => Some thing
  | _ => Source.lookup reddit s
  end.

(** ** Concrete scenarios

    The data of the examples below: a process environment, what reddit
    answers, and stores. *)

Module Scenario.

Fixpoint from_slash (s : string) : string :=
  match s with
  | EmptyString => EmptyString
  | String c s' => if Ascii.eqb c "/" then s else from_slash s'
  end.

(** The path of an absolute [https] URL without query or fragment, which
    is all the scenarios use. *)
Definition urlpath (url : string) : string :=
  match Re.lit "https://" url with
  | Some rest => from_slash rest
  | None => url
  end.

(** The module as written: [np] is unbound. *)
Definition env : Env :=
  {| TEST := false; DEBUG := false; np := module_np;
     urlparse_path := urlpath;
     clock := fun n => inject_Z (1000 + Z.of_nat n);
     requests_get := fun _ => true |}.

Definition dry_run : Env :=
  {| TEST := true; DEBUG := false; np := module_np;
     urlparse_path := urlpath;
     clock := fun n => inject_Z (1000 + Z.of_nat n);
     requests_get := fun _ => true |}.

(** The same environment with a binding for [np]. *)
Definition env_np : Env :=
  {| TEST := false; DEBUG := false;
     np := Some (fun p => "https://np.reddit.com" ++ p);
     urlparse_path := urlpath;
     clock := fun n => inject_Z (1000 + Z.of_nat n);
     requests_get := fun _ => true |}.

(** The thread that is linked to. *)
Definition thread : Submission :=
  {| s_name := "t3_abc123"; s_author := Some "Bob"; s_title := "Help";
     s_archived := false; s_url := "https://www.reddit.com/r/relationship_advice/comments/abc123/some_title/";
     s_created_utc := inject_Z 10;
     s_display_name := "relationship_advice";
     s_permalink := "/r/relationship_advice/comments/abc123/some_title/" |}.

(** A post in [/r/Other] that links to it, 900 s old at clock 1000. *)
Definition post_in_other : Submission :=
  {| s_name := "t3_link01"; s_author := Some "Alice";
     s_title := "Look at this"; s_archived := false;
     s_url := "https://www.reddit.com/r/Relationship_Advice/comments/abc123/some_title/";
     s_created_utc := inject_Z 100; s_display_name := "Other";
     s_permalink := "/r/Other/comments/link01/look/" |}.

(** A second, later post that links to the same thread. *)
Definition second_post : Submission :=
  {| s_name := "t3_link02"; s_author := Some "Carol";
     s_title := "And this"; s_archived := false;
     s_url := "https://www.reddit.com/r/relationship_advice/comments/abc123/some_title/";
     s_created_utc := inject_Z 200; s_display_name := "ra_automod";
     s_permalink := "/r/ra_automod/comments/link02/and/" |}.

(** A post made 60 s before clock 1000. *)
Definition fresh_post : Submission :=
  {| s_name := "t3_link03"; s_author := Some "Dave";
     s_title := "Just posted"; s_archived := false;
     s_url := "https://www.reddit.com/r/relationship_advice/comments/abc123/some_title/";
     s_created_utc := inject_Z 940; s_display_name := "ra_automod";
     s_permalink := "/r/ra_automod/comments/link03/just/" |}.

(** A link post whose author has deleted the account. *)
Definition deleted_post : Submission :=
  {| s_name := "t3_link04"; s_author := None;
     s_title := "Gone"; s_archived := false;
     s_url := "https://www.reddit.com/r/relationship_advice/comments/abc123/some_title/";
     s_created_utc := inject_Z 300; s_display_name := "ra_automod";
     s_permalink := "/r/ra_automod/comments/link04/gone/" |}.

Definition answers (feed : list Submission)
           (found : string -> option Submission) : Reddit :=
  {| get_comment := fun _ => None;
     get_submission := found;
     domain_new := feed;
     reply_to := fun _ _ _ => Val "t1_reply01";
     edit_comment := fun _ _ _ => Val tt |}.

(** Reddit while the thread exists. *)
Definition reddit (feed : list Submission) : Reddit :=
  answers feed (fun i => if i =? "abc123" then Some thread else None).

(** Reddit after the thread is gone. *)
Definition reddit_gone (feed : list Submission) : Reddit :=
  answers feed (fun _ => None).

Definition no_tables : Db.tables :=
  {| Db.users := []; Db.subreddits := []; Db.sources := [];
     Db.links := [] |}.

Definition at_start (db : Db.tables) : world :=
  {| db_live := db; db_durable := db; trace := []; ticks := 0 |}.

(** The Source and the Link that [post_in_other] resolves to on an empty
    store. *)
Definition source : Source.t :=
  {| Source.path := "/r/relationship_advice/comments/abc123/some_title/";
     Source.id := "t3_abc123";
     Source.subreddit := "relationship_advice";
     Source._submission := Some (Fetched (TSubmission thread));
     Source.author := Some "bob"; Source.title := Some "Help";
     Source.reply := None; Source.skip := false;
     Source.is_new := true |}.

Definition link : Link.t := Link.__init__ post_in_other "t3_abc123".

(** The same Source as the constructor leaves it, before [load]. *)
Definition fresh_source : Source.t :=
  {| Source.path := "/r/relationship_advice/comments/abc123/some_title/";
     Source.id := "t3_abc123";
     Source.subreddit := "relationship_advice";
     Source._submission := None;
     Source.author := None; Source.title := None;
     Source.reply := None; Source.skip := false;
     Source.is_new := true |}.

(** An environment whose clock stands at 1000. *)
Definition recent : Env :=
  {| TEST := false; DEBUG := true; np := module_np;
     urlparse_path := urlpath;
     clock := fun _ => inject_Z 1000;
     requests_get := fun _ => false |}.

(** A store that has seen the thread: its row, not skipped, no reply. *)
Definition seen : Db.tables :=
  {| Db.users := []; Db.subreddits := [];
     Db.sources :=
       [{| Db.sr_id := "t3_abc123"; Db.sr_reply := None;
           Db.sr_subreddit := "relationship_advice";
           Db.sr_author := Some "bob"; Db.sr_title := Some "Help";
           Db.sr_skip := false; Db.sr_t := inject_Z 500 |}];
     Db.links := [] |}.

Definition link_row (id subreddit title : string) (skip : bool)
  : Db.link_row :=
  {| Db.lr_id := id; Db.lr_source := "t3_abc123";
     Db.lr_permalink := "/r/" ++ subreddit ++ "/comments/" ++ id ++ "/";
     Db.lr_subreddit := subreddit; Db.lr_skip := skip;
     Db.lr_author := "alice"; Db.lr_title := title;
     Db.lr_t := inject_Z 600 |}.

Definition with_link_rows (rows : list Db.link_row) : Db.tables :=
  {| Db.users := []; Db.subreddits := []; Db.sources := Db.sources seen;
     Db.links := rows |}.

(** Links from subreddits b and a with titles x and y, stored in two
    orders; one more is skipped. *)
Definition links_one_way : Db.tables :=
  with_link_rows [link_row "l1" "b" "y" false; link_row "l2" "a" "y" false;
                  link_row "l3" "b" "x" false; link_row "l4" "c" "w" true;
                  link_row "l5" "a" "x" false].

Definition links_other_way : Db.tables :=
  with_link_rows [link_row "l5" "a" "x" false; link_row "l4" "c" "w" true;
                  link_row "l3" "b" "x" false; link_row "l2" "a" "y" false;
                  link_row "l1" "b" "y" false].

(** Dry run with a binding for [np]. *)
Definition dry_run_np : Env :=
  {| TEST := true; DEBUG := false;
     np := Some (fun p => "https://np.reddit.com" ++ p);
     urlparse_path := urlpath;
     clock := fun n => inject_Z (1000 + Z.of_nat n);
     requests_get := fun _ => true |}.




(** A Notification for the scenario's Source, with the given links. *)
Definition notification (rows : list (string * string * string))
  : Notification.t :=
  {| Notification.source := source; Notification.id := "t3_abc123";
     Notification.reply := None; Notification.links := rows |}.

Definition one_link : list (string * string * string) :=
  [("other", "Look at this", "/r/Other/comments/link01/look/")].

(** A thread outside [relationship_advice], a post in [ra_automod] that
    links to it, a post in [/r/Other] that links to it, and reddit while
    that thread exists. *)
Definition thread_elsewhere : Submission :=
  {| s_name := "t3_xyz789"; s_author := Some "Erin"; s_title := "A picture";
     s_archived := false;
     s_url := "https://www.reddit.com/r/pics/comments/xyz789/a_picture/";
     s_created_utc := inject_Z 20; s_display_name := "pics";
     s_permalink := "/r/pics/comments/xyz789/a_picture/" |}.

Definition post_in_ra_automod : Submission :=
  {| s_name := "t3_link05"; s_author := Some "Frank";
     s_title := "See also"; s_archived := false;
     s_url := "https://www.reddit.com/r/pics/comments/xyz789/a_picture/";
     s_created_utc := inject_Z 150; s_display_name := "ra_automod";
     s_permalink := "/r/ra_automod/comments/link05/see/" |}.

Definition other_to_elsewhere : Submission :=
  {| s_name := "t3_link06"; s_author := Some "Grace";
     s_title := "Nice one"; s_archived := false;
     s_url := "https://www.reddit.com/r/pics/comments/xyz789/a_picture/";
     s_created_utc := inject_Z 160; s_display_name := "Other";
     s_permalink := "/r/Other/comments/link06/nice/" |}.

Definition reddit_elsewhere (feed : list Submission) : Reddit :=
  answers feed (fun i => if i =? "xyz789" then Some thread_elsewhere
                         else None).

(** The Source of that thread, as a pass of the first loop leaves it on an
    empty store. *)
Definition source_elsewhere : Source.t :=
  {| Source.path := "/r/pics/comments/xyz789/a_picture/";
     Source.id := "t3_xyz789";
     Source.subreddit := "pics";
     Source._submission := Some (Fetched (TSubmission thread_elsewhere));
     Source.author := Some "erin"; Source.title := Some "A picture";
     Source.reply := None; Source.skip := false;
     Source.is_new := true |}.


Definition source_after_failure : Source.t := Source.unloaded fresh_source.


(** The Notification of a later cycle for the Source of [n]: the reply
    identifier the Source has by then, and one more link. *)
Definition second_notification (n : Notification.t) : Notification.t :=
  {| Notification.source := Notification.source n;
     Notification.id := Notification.id n;
     Notification.reply := Notification.reply n;
     Notification.links :=
       [("other", "Look at this", "/r/Other/comments/link01/look/");
        ("ra_automod", "And this", "/r/ra_automod/comments/link02/and/")] |}.

(** A Totes with the beacon configured. *)
Definition beacon : Totes.t :=
  {| Totes.limit := 25; Totes.snitch_url := Some "https://beacon.example/";
     Totes._setup := true |}.

Definition totes : Totes.t :=
  {| Totes.limit := 25; Totes.snitch_url := None; Totes._setup := true |}.

End Scenario.

(** * Properties *)

(** ** The path pattern on examples *)

Example parse_post :
  _parse_path "/r/relationship_advice/comments/abc123/some_title/"
  = Val ("t3_abc123", "relationship_advice").
Proof. reflexivity. Qed.

Example parse_comment :
  _parse_path "/r/sub/comments/abc123/some_title/def4567/"
  = Val ("t1_def4567", "sub").
Proof. reflexivity. Qed.

Example parse_long_post :
  _parse_path "/r/sub/comments/abcdefghij/title/def4567"
  = Val ("t3_abcdefgh", "sub").
Proof. reflexivity. Qed.

Example parse_user_page :
  _parse_path "/user/someone"
  = Raise (NotAComment "Source /user/someone is not a comment or post.").
Proof. reflexivity. Qed.

(** ** Running the monad *)

Ltac run_M :=
  unfold bind, ret, raise, lift, emit, read_db, write_db, commit, rollback,
    read_clock, history, log_debug, log_info, log_warn, log_err, log_error,
    try_except, source_exists, link_exists in *;
  simpl in *.

(** Case analysis on whatever the computation branches on next. *)
Ltac crunch :=
  repeat (run_M;
          match goal with
          | |- context [if ?c then _ else _] => destruct c eqn:?
          | |- context [match ?c with Some _ => _ | None => _ end] =>
              destruct c eqn:?
          | |- context [match ?c with Val _ => _ | Raise _ => _ end] =>
              destruct c eqn:?
          | |- context [let (_, _) := ?c in _] => destruct c eqn:?
          end).

(** ** The pairing rule of the first loop (C1) *)

Lemma skip_any_false (source : Source.t) (link : Link.t) :
  Totes.skip_any source link = false ->
  Source.skip source = false /\ Link.skip link = false /\
  (Source.subreddit source = "relationship_advice" \/
   Link.subreddit link = "ra_automod").
Proof.
  unfold Totes.skip_any.
  destruct (Source.subreddit source =? "relationship_advice") eqn:Hs;
    destruct (Link.subreddit link =? "ra_automod") eqn:Hl; simpl;
    try discriminate; intros H; apply orb_false_iff in H;
    destruct H as [H1 H2]; repeat split; auto;
    try (left; now apply String.eqb_eq);
    try (right; now apply String.eqb_eq).
Qed.

Lemma log_debug_run (env : Env) (msg : string) (w : world) :
  exists w', log_debug env msg w = (Val tt, w') /\
             db_live w' = db_live w /\ db_durable w' = db_durable w /\
             ticks w' = ticks w.
Proof.
  unfold log_debug. destruct (DEBUG env); run_M; eauto.
Qed.

Lemma skip_any_true (source : Source.t) (link : Link.t) :
  Totes.skip_any source link = true <->
  Source.skip source = true \/ Link.skip link = true \/
  (Source.subreddit source <> "relationship_advice" /\
   Link.subreddit link <> "ra_automod").
Proof.
  unfold Totes.skip_any.
  destruct (String.eqb_spec (Source.subreddit source) "relationship_advice")
    as [Hs|Hs];
    destruct (String.eqb_spec (Link.subreddit link) "ra_automod") as [Hl|Hl];
    simpl; rewrite ?orb_true_iff; intuition congruence.
Qed.

(** What a pass does once [resolve] has given a Source and a Link. *)
Lemma process_resolved (env : Env) (reddit : Reddit)
      (sources : list Source.t) (submission : Submission) (w w2 : world)
      (source : Source.t) (link : Link.t) :
  (POST_TIME <= clock env (ticks w) - s_created_utc submission)%Q ->
  Totes.resolve env reddit submission (snd (read_clock env w))
  = (Val (Some (source, link)), w2) ->
  exists w',
    Totes.process env reddit sources submission w
    = (Val (if Totes.any_new source link
               && negb (Totes.skip_any source link)
            then Totes.set_add source sources else sources), w') /\
    db_live w' = db_live w2 /\ db_durable w' = db_durable w2.
Proof.
  intros Old R. unfold Totes.process.
  unfold bind at 1. unfold read_clock at 1.
  destruct (Qlt_le_dec _ _) as [Young|_];
    [exfalso; exact (Qlt_not_le _ _ Young Old)|].
  unfold bind at 1. unfold read_clock in R. simpl in R. rewrite R.
  unfold bind.
  destruct (log_debug_run env
              ("Skip any: " ++ Py.str_bool (Totes.skip_any source link)) w2)
    as (w3 & E3 & L3 & D3 & _). rewrite E3.
  destruct (log_debug_run env
              ("Any new: " ++ Py.str_bool (Totes.any_new source link)) w3)
    as (w4 & E4 & L4 & D4 & _). rewrite E4.
  exists w4. split; [|split; congruence].
  destruct (Totes.any_new source link && negb (Totes.skip_any source link));
    reflexivity.
Qed.

(** C1, as the code has it.  [skip_any] is true exactly when one of the
    two skip flags is set or BOTH subreddits miss their name: the Source is
    outside [relationship_advice] and the Link is outside [ra_automod].
    A pass of the loop over a submission that is old enough and resolves
    to a Source and a Link queues the Source when something is new,
    neither is skipped and at least one of the two subreddits is the named
    one, whatever the other subreddit is, and leaves the batch as it was
    in every other case; the test itself writes nothing.  And no pass adds
    anything to the batch but the Source it has resolved, under these
    conditions. *)
Theorem C1_pairing_gate (env : Env) (reddit : Reddit) :
  (forall source link,
      Totes.skip_any source link = true <->
      Source.skip source = true \/ Link.skip link = true \/
      (Source.subreddit source <> "relationship_advice" /\
       Link.subreddit link <> "ra_automod")) /\
  (forall sources submission w source link w2,
      (POST_TIME <= clock env (ticks w) - s_created_utc submission)%Q ->
      Totes.resolve env reddit submission (snd (read_clock env w))
      = (Val (Some (source, link)), w2) ->
      exists sources' w',
        Totes.process env reddit sources submission w = (Val sources', w') /\
        db_live w' = db_live w2 /\ db_durable w' = db_durable w2 /\
        (Totes.any_new source link = true ->
         Source.skip source = false -> Link.skip link = false ->
         Source.subreddit source = "relationship_advice" \/
         Link.subreddit link = "ra_automod" ->
         sources' = Totes.set_add source sources) /\
        (Totes.any_new source link = false \/
         Source.skip source = true \/ Link.skip link = true \/
         (Source.subreddit source <> "relationship_advice" /\
          Link.subreddit link <> "ra_automod") ->
         sources' = sources)) /\
  (forall sources submission w sources' w',
      Totes.process env reddit sources submission w = (Val sources', w') ->
      sources' = sources \/
      exists source link w2,
        Totes.resolve env reddit submission (snd (read_clock env w))
        = (Val (Some (source, link)), w2) /\
        sources' = Totes.set_add source sources /\
        Totes.any_new source link = true /\
        Source.skip source = false /\ Link.skip link = false /\
        (Source.subreddit source = "relationship_advice" \/
         Link.subreddit link = "ra_automod")).
Proof.
  split; [apply skip_any_true|]. split.
  - intros sources submission w source link w2 Old R.
    destruct (@process_resolved env reddit sources submission w w2
                source link Old R) as (w' & P & L & D).
    eexists. exists w'. split; [exact P|]. split; [exact L|].
    split; [exact D|].
    pose proof (skip_any_true source link) as K.
    destruct (Totes.skip_any source link) eqn:S; simpl.
    + rewrite andb_false_r. split; [|reflexivity].
      intros _ Hs Hl Hp. exfalso.
      destruct (proj1 K eq_refl) as [X|[X|[X1 X2]]];
        [congruence|congruence|destruct Hp; contradiction].
    + rewrite andb_true_r.
      destruct (Totes.any_new source link) eqn:N; [split; [reflexivity|]|].
      * intros [X|X]; [discriminate|].
        apply K in X. discriminate.
      * split; [discriminate|reflexivity].
  - intros sources submission w sources' w' H.
    unfold Totes.process in H.
    unfold bind at 1 in H. unfold read_clock at 1 in H.
    destruct (Qlt_le_dec _ _) as [_|_].
    + unfold bind in H.
      destruct (log_debug_run env "Skipping, too new"
                  {| db_live := db_live w; db_durable := db_durable w;
                     trace := trace w; ticks := S (ticks w) |})
        as (w1 & E & _). rewrite E in H. unfold ret in H.
      left. congruence.
    + unfold bind at 1 in H.
      match type of H with
      | context [Totes.resolve env reddit submission ?w0] =>
          destruct (Totes.resolve env reddit submission w0)
            as [[[[source link]|]|e] w2] eqn:R
      end.
      * unfold bind in H.
        destruct (log_debug_run env
                    ("Skip any: "
                     ++ Py.str_bool (Totes.skip_any source link)) w2)
          as (w3 & E3 & _). rewrite E3 in H.
        destruct (log_debug_run env
                    ("Any new: "
                     ++ Py.str_bool (Totes.any_new source link)) w3)
          as (w4 & E4 & _). rewrite E4 in H.
        destruct (Totes.any_new source link) eqn:N; simpl in H;
          [|left; unfold ret in H; congruence].
        destruct (Totes.skip_any source link) eqn:K; simpl in H;
          [left; unfold ret in H; congruence|].
        right. apply skip_any_false in K. destruct K as (K1 & K2 & K3).
        unfold ret in H. injection H as <- <-.
        exists source, link, w2. repeat split; auto.
      * left. unfold ret in H. congruence.
      * discriminate.
Qed.

(** Three passes over an empty store.  A post in [/r/Other] that links
    into [relationship_advice] is queued; so is a post in [ra_automod]
    that links into [/r/pics]; a post in [/r/Other] that links into
    [/r/pics] is not. *)
Lemma C1_pairing_gate_witness :
  (exists w',
      Totes.process Scenario.env (Scenario.reddit []) []
        Scenario.post_in_other (Scenario.at_start Scenario.no_tables)
      = (Val [Scenario.source], w')) /\
  (exists w',
      Totes.process Scenario.env (Scenario.reddit_elsewhere []) []
        Scenario.post_in_ra_automod (Scenario.at_start Scenario.no_tables)
      = (Val [Scenario.source_elsewhere], w')) /\
  (exists w',
      Totes.process Scenario.env (Scenario.reddit_elsewhere []) []
        Scenario.other_to_elsewhere (Scenario.at_start Scenario.no_tables)
      = (Val [], w')).
Proof.
  pose (start := Scenario.at_start Scenario.no_tables).
  repeat split.
  - pose (out := Totes.resolve Scenario.env (Scenario.reddit [])
                   Scenario.post_in_other (snd (read_clock Scenario.env start))).
    destruct (proj1 (proj2 (C1_pairing_gate Scenario.env (Scenario.reddit [])))
                [] Scenario.post_in_other start
                Scenario.source Scenario.link (snd out))
      as (sources' & w' & P & _ & _ & Q & _).
    + vm_compute. discriminate.
    + vm_compute. reflexivity.
    + exists w'. fold start. rewrite P. f_equal. f_equal.
      apply Q; try reflexivity. left. reflexivity.
  - pose (out := Totes.resolve Scenario.env (Scenario.reddit_elsewhere [])
                   Scenario.post_in_ra_automod
                   (snd (read_clock Scenario.env start))).
    destruct (proj1 (proj2 (C1_pairing_gate Scenario.env
                              (Scenario.reddit_elsewhere [])))
                [] Scenario.post_in_ra_automod start
                Scenario.source_elsewhere
                (Link.__init__ Scenario.post_in_ra_automod "t3_xyz789")
                (snd out))
      as (sources' & w' & P & _ & _ & Q & _).
    + vm_compute. discriminate.
    + vm_compute. reflexivity.
    + exists w'. fold start. rewrite P. f_equal. f_equal.
      apply Q; try reflexivity. right. reflexivity.
  - pose (out := Totes.resolve Scenario.env (Scenario.reddit_elsewhere [])
                   Scenario.other_to_elsewhere
                   (snd (read_clock Scenario.env start))).
    destruct (proj1 (proj2 (C1_pairing_gate Scenario.env
                              (Scenario.reddit_elsewhere [])))
                [] Scenario.other_to_elsewhere start
                Scenario.source_elsewhere
                (Link.__init__ Scenario.other_to_elsewhere "t3_xyz789")
                (snd out))
      as (sources' & w' & P & _ & _ & _ & Q).
    + vm_compute. discriminate.
    + vm_compute. reflexivity.
    + exists w'. fold start. rewrite P. f_equal. f_equal.
      apply Q. right. right. right. split; vm_compute; discriminate.
Defined.

(** C1 as the spec words it fails: a post in [/r/Other] (not [ra_automod])
    that links into [relationship_advice] is resolved to a Source and a
    Link neither of which is skipped, [skip_any] stays false, and the
    Source is queued. *)
Lemma C1_counterexample :
  fst (Totes.resolve Scenario.env (Scenario.reddit []) Scenario.post_in_other
         (Scenario.at_start Scenario.no_tables))
  = Val (Some (Scenario.source, Scenario.link)) /\
  Link.subreddit Scenario.link = "other" /\
  Link.subreddit Scenario.link <> "ra_automod" /\
  Totes.skip_any Scenario.source Scenario.link = false /\
  fst (Totes.process Scenario.env (Scenario.reddit [])
         [] Scenario.post_in_other (Scenario.at_start Scenario.no_tables))
  = Val [Scenario.source].
Proof.
  repeat split; try (vm_compute; reflexivity).
  vm_compute. discriminate.
Qed.

(** ** Submissions younger than [POST_TIME] (C10) *)

(** C10: when fewer than [POST_TIME] = 120 seconds separate the clock
    reading from the submission's creation time, the pass ends at once: the
    batch of Sources and both copies of the store are as before, and the
    only effect besides the clock reading is the debug line; no SELECT, no
    write, no fetch, no reply. *)
Theorem C10_too_new_is_skipped
        (env : Env) (reddit : Reddit) (sources : list Source.t)
        (submission : Submission) (w : world) :
  (clock env (ticks w) - s_created_utc submission < POST_TIME)%Q ->
  exists w',
    Totes.process env reddit sources submission w = (Val sources, w') /\
    db_live w' = db_live w /\ db_durable w' = db_durable w /\
    trace w' = (trace w ++
                if DEBUG env then [Log "DEBUG" "Skipping, too new"] else [])%list.
Proof.
  intros Hnew. unfold Totes.process.
  unfold bind at 1. unfold read_clock at 1.
  destruct (Qlt_le_dec _ _) as [_|Hold].
  - unfold log_debug. destruct (DEBUG env); run_M.
    + eexists; repeat split.
    + eexists; repeat split. now rewrite app_nil_r.
  - exfalso. exact (Qlt_not_le _ _ Hnew Hold).
Qed.

Lemma C10_too_new_is_skipped_witness :
  exists w',
    Totes.process Scenario.env (Scenario.reddit []) [] Scenario.fresh_post
      (Scenario.at_start Scenario.no_tables) = (Val [], w') /\
    db_live w' = Scenario.no_tables /\ db_durable w' = Scenario.no_tables /\
    trace w' = [].
Proof.
  apply (C10_too_new_is_skipped Scenario.env (Scenario.reddit []) []
           Scenario.fresh_post (Scenario.at_start Scenario.no_tables)).
  vm_compute. reflexivity.
Defined.

(** ** The skip latch (C7) *)

Lemma Source_check_skip_true (reddit : Reddit) (s s' : Source.t) (w w' : world) :
  Source.check_skip reddit s w = (Val (true, s'), w') ->
  Source.skip s' = true.
Proof.
  unfold Source.check_skip, Source.submission.
  crunch; intros H; try discriminate; injection H as <- <-;
    reflexivity || assumption.
Qed.

Lemma Source_check_skip_latched (reddit : Reddit) (s : Source.t) (w : world) :
  Source.skip s = true ->
  Source.check_skip reddit s w = (Val (true, s), w).
Proof.
  intros K. unfold Source.check_skip. now rewrite K.
Qed.

Lemma Link_check_skip_true (l l' : Link.t) (w w' : world) :
  Link.check_skip l w = (Val (true, l'), w') ->
  Link.skip l' = true.
Proof.
  unfold Link.check_skip.
  crunch; intros H; try discriminate; injection H as <- <-;
    reflexivity || assumption.
Qed.

Lemma Link_check_skip_latched (l : Link.t) (w : world) :
  Link.skip l = true ->
  Link.check_skip l w = (Val (true, l), w).
Proof.
  intros K. unfold Link.check_skip. now rewrite K.
Qed.

(** C7: on a Source or Link whose [skip] is already true, [check_skip]
    returns true and leaves the instance and the world as they are (so no
    SELECT is traced and no fetch is made); and once [check_skip] has
    returned true, [skip] is true on the instance, so every later call,
    whatever the store and reddit have become, again returns true at once. *)
Theorem C7_skip_latches :
  (forall reddit (s : Source.t) w,
      Source.skip s = true ->
      Source.check_skip reddit s w = (Val (true, s), w)) /\
  (forall reddit (s s' : Source.t) w w',
      Source.check_skip reddit s w = (Val (true, s'), w') ->
      Source.skip s' = true /\
      forall reddit2 w2,
        Source.check_skip reddit2 s' w2 = (Val (true, s'), w2)) /\
  (forall (l : Link.t) w,
      Link.skip l = true ->
      Link.check_skip l w = (Val (true, l), w)) /\
  (forall (l l' : Link.t) w w',
      Link.check_skip l w = (Val (true, l'), w') ->
      Link.skip l' = true /\
      forall w2, Link.check_skip l' w2 = (Val (true, l'), w2)).
Proof.
  repeat split.
  - intros. now apply Source_check_skip_latched.
  - eapply Source_check_skip_true; eauto.
  - intros. apply Source_check_skip_latched.
    eapply Source_check_skip_true; eauto.
  - intros. now apply Link_check_skip_latched.
  - eapply Link_check_skip_true; eauto.
  - intros. apply Link_check_skip_latched.
    eapply Link_check_skip_true; eauto.
Qed.

Lemma C7_skip_latches_witness :
  Link.skip (Link.__init__ Scenario.deleted_post "t3_abc123") = true /\
  forall w2,
    Link.check_skip (Link.__init__ Scenario.deleted_post "t3_abc123") w2
    = (Val (true, Link.__init__ Scenario.deleted_post "t3_abc123"), w2).
Proof.
  apply (proj2 (proj2 (proj2 C7_skip_latches))
           (Link.__init__ Scenario.deleted_post "t3_abc123") _
           (Scenario.at_start Scenario.no_tables)
           (Scenario.at_start Scenario.no_tables)).
  reflexivity.
Defined.

(** ** [save] twice (C8) *)

Section SaveSource.

Variables (reply : option string) (subreddit : string)
          (author title : option string) (skip : bool) (id : string).

Let updated (r : Db.source_row) : Db.source_row :=
  {| Db.sr_id := Db.sr_id r; Db.sr_reply := reply;
     Db.sr_subreddit := subreddit; Db.sr_author := author;
     Db.sr_title := title; Db.sr_skip := skip; Db.sr_t := Db.sr_t r |}.

Let update := Db.update_source reply subreddit author title skip id.

Lemma find_source_update (t : Db.tables) :
  Db.find_source id (update t) = option_map updated (Db.find_source id t).
Proof.
  unfold Db.find_source, update, Db.update_source. simpl.
  induction (Db.sources t) as [|r rows IH]; simpl; [reflexivity|].
  destruct (Db.sr_id r =? id) eqn:E; simpl; rewrite E; auto.
Qed.

Lemma update_source_twice (t : Db.tables) : update (update t) = update t.
Proof.
  unfold update, Db.update_source, Db.with_sources. simpl. f_equal.
  rewrite map_map. apply map_ext. intros r.
  destruct (Db.sr_id r =? id) eqn:E; simpl; rewrite E; reflexivity.
Qed.

Lemma reply_taken_update (x : option string) (t : Db.tables) :
  Db.reply_taken id x (update t) = Db.reply_taken id x t.
Proof.
  unfold Db.reply_taken, update, Db.update_source. simpl.
  destruct x as [x|]; [|reflexivity].
  induction (Db.sources t) as [|r rows IH]; simpl; [reflexivity|].
  rewrite IH. f_equal.
  destruct (Db.sr_id r =? id) eqn:E; simpl; rewrite E; reflexivity.
Qed.

Variable ts : Q.

Let row : Db.source_row :=
  {| Db.sr_id := id; Db.sr_reply := reply; Db.sr_subreddit := subreddit;
     Db.sr_author := author; Db.sr_title := title; Db.sr_skip := skip;
     Db.sr_t := ts |}.

Lemma find_source_insert (t : Db.tables) :
  Db.find_source id t = None ->
  Db.find_source id (Db.insert_source row t) = Some row.
Proof.
  unfold Db.find_source, Db.insert_source. simpl.
  induction (Db.sources t) as [|r rows IH]; simpl.
  - now rewrite String.eqb_refl.
  - destruct (Db.sr_id r =? id); [discriminate | exact IH].
Qed.

Lemma update_source_insert (t : Db.tables) :
  Db.find_source id t = None ->
  update (Db.insert_source row t) = Db.insert_source row t.
Proof.
  unfold Db.find_source, update, Db.update_source, Db.insert_source,
    Db.with_sources. simpl. intros H. f_equal.
  induction (Db.sources t) as [|r rows IH]; simpl in *.
  - now rewrite String.eqb_refl.
  - destruct (Db.sr_id r =? id); [discriminate|]. now rewrite IH.
Qed.

Lemma reply_taken_insert (x : option string) (t : Db.tables) :
  Db.reply_taken id x (Db.insert_source row t) = Db.reply_taken id x t.
Proof.
  unfold Db.reply_taken, Db.insert_source. simpl.
  destruct x as [x|]; [|reflexivity].
  rewrite existsb_app. simpl. rewrite String.eqb_refl. simpl.
  now rewrite !orb_false_r.
Qed.

End SaveSource.

Section SaveLink.

Variables (source permalink subreddit : string) (skip : bool)
          (author title id : string).

Let updated (r : Db.link_row) : Db.link_row :=
  {| Db.lr_id := Db.lr_id r; Db.lr_source := source;
     Db.lr_permalink := permalink; Db.lr_subreddit := subreddit;
     Db.lr_skip := skip; Db.lr_author := author; Db.lr_title := title;
     Db.lr_t := Db.lr_t r |}.

Let update := Db.update_link source permalink subreddit skip author title id.

Lemma find_link_update (t : Db.tables) :
  Db.find_link id (update t) = option_map updated (Db.find_link id t).
Proof.
  unfold Db.find_link, update, Db.update_link. simpl.
  induction (Db.links t) as [|r rows IH]; simpl; [reflexivity|].
  destruct (Db.lr_id r =? id) eqn:E; simpl; rewrite E; auto.
Qed.

Lemma update_link_twice (t : Db.tables) : update (update t) = update t.
Proof.
  unfold update, Db.update_link, Db.with_links. simpl. f_equal.
  rewrite map_map. apply map_ext. intros r.
  destruct (Db.lr_id r =? id) eqn:E; simpl; rewrite E; reflexivity.
Qed.

Variable ts : Q.

Let row : Db.link_row :=
  {| Db.lr_id := id; Db.lr_source := source; Db.lr_permalink := permalink;
     Db.lr_subreddit := subreddit; Db.lr_skip := skip;
     Db.lr_author := author; Db.lr_title := title; Db.lr_t := ts |}.

Lemma find_link_insert (t : Db.tables) :
  Db.find_link id t = None ->
  Db.find_link id (Db.insert_link row t) = Some row.
Proof.
  unfold Db.find_link, Db.insert_link. simpl.
  induction (Db.links t) as [|r rows IH]; simpl.
  - now rewrite String.eqb_refl.
  - destruct (Db.lr_id r =? id); [discriminate | exact IH].
Qed.

Lemma update_link_insert (t : Db.tables) :
  Db.find_link id t = None ->
  update (Db.insert_link row t) = Db.insert_link row t.
Proof.
  unfold Db.find_link, update, Db.update_link, Db.insert_link,
    Db.with_links. simpl. intros H. f_equal.
  induction (Db.links t) as [|r rows IH]; simpl in *.
  - now rewrite String.eqb_refl.
  - destruct (Db.lr_id r =? id); [discriminate|]. now rewrite IH.
Qed.

End SaveLink.

Lemma Source_save_twice (env : Env) (s : Source.t) (w w1 : world) :
  Source.save env s w = (Val tt, w1) ->
  (exists w2, Source.save env s w1 = (Val tt, w2) /\
              db_live w2 = db_live w1 /\ db_durable w2 = db_durable w1 /\
              ticks w2 = ticks w1) /\
  (forall row, Db.find_source (Source.id s) (db_live w) = Some row ->
               exists row',
                 Db.find_source (Source.id s) (db_live w1) = Some row' /\
                 Db.sr_t row' = Db.sr_t row).
Proof.
  unfold Source.save. run_M.
  destruct (Db.reply_taken (Source.id s) (Source.reply s) (db_live w)) eqn:T;
    [discriminate|].
  destruct (Db.find_source (Source.id s) (db_live w)) as [r|] eqn:F;
    intros H; injection H as <-; simpl.
  - rewrite reply_taken_update, T, find_source_update, F. simpl.
    rewrite update_source_twice. split.
    + eexists; repeat split.
    + intros row [= <-]. eexists; split; reflexivity.
  - rewrite reply_taken_insert, T, find_source_insert by assumption. simpl.
    rewrite update_source_insert by assumption. split.
    + eexists; repeat split.
    + discriminate.
Qed.

Lemma Link_save_twice (env : Env) (l : Link.t) (w w1 : world) :
  Link.save env l w = (Val tt, w1) ->
  (exists w2, Link.save env l w1 = (Val tt, w2) /\
              db_live w2 = db_live w1 /\ db_durable w2 = db_durable w1 /\
              ticks w2 = ticks w1) /\
  (forall row, Db.find_link (Link.id l) (db_live w) = Some row ->
               exists row',
                 Db.find_link (Link.id l) (db_live w1) = Some row' /\
                 Db.lr_t row' = Db.lr_t row).
Proof.
  unfold Link.save. run_M.
  destruct (Db.find_link (Link.id l) (db_live w)) as [r|] eqn:F;
    intros H; injection H as <-; simpl.
  - rewrite find_link_update, F. simpl.
    rewrite update_link_twice. split.
    + eexists; repeat split.
    + intros row [= <-]. eexists; split; reflexivity.
  - rewrite find_link_insert by assumption. simpl.
    rewrite update_link_insert by assumption. split.
    + eexists; repeat split.
    + discriminate.
Qed.

(** C8: when [save] of a Source or Link has gone through, a second [save]
    of the same unchanged instance goes through as well and leaves both
    copies of the store (live and committed) exactly as the first left
    them, reading no clock; and a row that existed before [save] keeps its
    timestamp: the UPDATE does not assign the column. *)
Theorem C8_save_idempotent (env : Env) :
  (forall (s : Source.t) (w w1 : world),
      Source.save env s w = (Val tt, w1) ->
      (exists w2, Source.save env s w1 = (Val tt, w2) /\
                  db_live w2 = db_live w1 /\ db_durable w2 = db_durable w1 /\
                  ticks w2 = ticks w1) /\
      (forall row, Db.find_source (Source.id s) (db_live w) = Some row ->
                   exists row',
                     Db.find_source (Source.id s) (db_live w1) = Some row' /\
                     Db.sr_t row' = Db.sr_t row)) /\
  (forall (l : Link.t) (w w1 : world),
      Link.save env l w = (Val tt, w1) ->
      (exists w2, Link.save env l w1 = (Val tt, w2) /\
                  db_live w2 = db_live w1 /\ db_durable w2 = db_durable w1 /\
                  ticks w2 = ticks w1) /\
      (forall row, Db.find_link (Link.id l) (db_live w) = Some row ->
                   exists row',
                     Db.find_link (Link.id l) (db_live w1) = Some row' /\
                     Db.lr_t row' = Db.lr_t row)).
Proof.
  split; intros; [eapply Source_save_twice | eapply Link_save_twice]; eauto.
Qed.

(** Saving the scenario's Source over the store that already has its row:
    the second save changes nothing and the row keeps timestamp 500. *)
Lemma C8_save_idempotent_witness :
  let w := Scenario.at_start Scenario.seen in
  let w1 := snd (Source.save Scenario.env Scenario.source w) in
  (exists w2, Source.save Scenario.env Scenario.source w1 = (Val tt, w2) /\
              db_live w2 = db_live w1 /\ db_durable w2 = db_durable w1 /\
              ticks w2 = ticks w1) /\
  (forall row,
      Db.find_source (Source.id Scenario.source) (db_live w) = Some row ->
      exists row',
        Db.find_source (Source.id Scenario.source) (db_live w1) = Some row' /\
        Db.sr_t row' = Db.sr_t row).
Proof.
  intros w w1.
  apply (proj1 (C8_save_idempotent Scenario.env) Scenario.source w w1).
  reflexivity.
Defined.

(** ** [Source.load] (C9) *)

Lemma Source_init_fresh (env : Env) (url : string) (s : Source.t)
      (w0 w : world) :
  Source.__init__ env url w0 = (Val s, w) ->
  w = w0 /\ Source._submission s = None /\ Source.author s = None /\
  Source.title s = None /\ Source.reply s = None /\
  Source.skip s = false /\ Source.is_new s = true /\
  _parse_path (urlparse_path env (Py.lower url))
  = Val (Source.id s, Source.subreddit s).
Proof.
  unfold Source.__init__. run_M.
  destruct (_parse_path _) as [[id subreddit]|e]; [|discriminate].
  intros H. injection H as <- <-. simpl. repeat split.
Qed.



(** What [self.submission.<attribute>] does on each state of the
    object. *)
Lemma Source_thing_cases (reddit : Reddit) (s : Source.t) (w : world) :
  let fetch :=
    {| db_live := db_live w; db_durable := db_durable w;
       trace := (trace w
                 ++ [Fetch (Source.is_comment s) (Source.base36 s)])%list;
       ticks := ticks w |} in
  Source.thing reddit s w
  = match Source._submission s with
    | Some (Fetched thing) => (Val (thing, s), w)
    | Some Unfetched =>
        match Source.lookup reddit s with
        | Some thing =>
            (Val (thing, Source.set__submission s (Some (Fetched thing))),
             fetch)
        | None => (Raise PRAWException, fetch)
        end
    | None =>
        match Source.lookup reddit s with
        | Some thing =>
            (Val (thing, Source.set__submission s (Some (Fetched thing))),
             fetch)
        | None => (Raise (SubmissionNotFound (Source.id s)), fetch)
        end
    end.
Proof.
  unfold Source.thing, Source.submission, Source.unloaded, Source.lookup,
    Source.is_comment, Source.base36.
  destruct (Source._submission s) as [[thing|]|]; run_M; try reflexivity.
  - destruct (Py.startswith "t1" (Source.id s));
      [destruct (get_comment reddit _) | destruct (get_submission reddit _)];
      reflexivity.
  - destruct (Py.startswith "t1" (Source.id s));
      [destruct (get_comment reddit _) | destruct (get_submission reddit _)];
      reflexivity.
Qed.

Lemma Source_thing_resolved (reddit : Reddit) (s : Source.t) (w : world)
      (thing : Thing) :
  resolved reddit s = Some thing ->
  exists w',
    Source.thing reddit s w
    = (Val (thing, Source.set__submission s (Some (Fetched thing))), w') /\
    db_live w' = db_live w /\ db_durable w' = db_durable w /\
    ticks w' = ticks w /\
    trace w'
    = (trace w
       ++ match Source._submission s with
          | Some (Fetched _) => []
          | _ => [Fetch (Source.is_comment s) (Source.base36 s)]
          end)%list.
Proof.
  intros R. rewrite Source_thing_cases. unfold resolved in R.
  destruct (Source._submission s) as [[t|]|] eqn:C.
  - injection R as ->. exists w. rewrite app_nil_r.
    repeat split. destruct s. simpl in C. subst. reflexivity.
  - rewrite R. eexists. repeat split.
  - rewrite R. eexists. repeat split.
Qed.





(** ** The notification query (C6) *)

Section TextOrder.

Lemma ascii_compare_refl (c : ascii) : Ascii.compare c c = Eq.
Proof. unfold Ascii.compare. apply N.compare_refl. Qed.

Lemma ascii_compare_lt_trans (a b c : ascii) :
  Ascii.compare a b = Lt -> Ascii.compare b c = Lt -> Ascii.compare a c = Lt.
Proof.
  unfold Ascii.compare. rewrite !N.compare_lt_iff. apply N.lt_trans.
Qed.

Lemma string_compare_refl (s : string) : String.compare s s = Eq.
Proof.
  induction s as [|c s IH]; simpl; [reflexivity|].
  now rewrite ascii_compare_refl.
Qed.

Lemma string_compare_lt_trans (a b c : string) :
  String.compare a b = Lt -> String.compare b c = Lt ->
  String.compare a c = Lt.
Proof.
  revert b c. induction a as [|x a IH]; intros [|y b] [|z c]; simpl;
    try discriminate; auto.
  destruct (Ascii.compare x y) eqn:Exy; try discriminate;
    destruct (Ascii.compare y z) eqn:Eyz; try discriminate; intros H1 H2.
  - apply Ascii.compare_eq_iff in Exy, Eyz. subst.
    rewrite ascii_compare_refl. eauto.
  - apply Ascii.compare_eq_iff in Exy. subst. now rewrite Eyz.
  - apply Ascii.compare_eq_iff in Eyz. subst. now rewrite Exy.
  - now rewrite (ascii_compare_lt_trans _ _ _ Exy Eyz).
Qed.

Lemma string_compare_lt_irrefl (a : string) : String.compare a a <> Lt.
Proof. now rewrite string_compare_refl. Qed.

Lemma string_leb_spec (a b : string) :
  String.leb a b = true <-> String.compare a b = Lt \/ a = b.
Proof.
  unfold String.leb. split.
  - destruct (String.compare a b) eqn:E; try discriminate; auto.
    right. now apply String.compare_eq_iff.
  - intros [H | ->]; [now rewrite H | now rewrite string_compare_refl].
Qed.

Lemma string_leb_trans (a b c : string) :
  String.leb a b = true -> String.leb b c = true -> String.leb a c = true.
Proof.
  rewrite !string_leb_spec. intros [H1 | ->] [H2 | ->]; auto.
  left. eapply string_compare_lt_trans; eauto.
Qed.

Lemma key_leb_spec (a b : string * string) :
  key_leb a b = true <->
  String.compare (fst a) (fst b) = Lt \/
  (fst a = fst b /\ String.leb (snd a) (snd b) = true).
Proof.
  unfold key_leb. split.
  - destruct (String.compare (fst a) (fst b)) eqn:E; try discriminate; auto.
    right. split; [now apply String.compare_eq_iff | assumption].
  - intros [H | [H1 H2]]; [now rewrite H|].
    now rewrite H1, string_compare_refl.
Qed.

Lemma key_leb_total (a b : string * string) :
  key_leb a b = true \/ key_leb b a = true.
Proof.
  unfold key_leb. rewrite (String.compare_antisym (fst b) (fst a)).
  destruct (String.compare (fst a) (fst b)); simpl; auto.
  apply String.leb_total.
Qed.

Lemma key_leb_trans (a b c : string * string) :
  key_leb a b = true -> key_leb b c = true -> key_leb a c = true.
Proof.
  rewrite !key_leb_spec.
  intros [H1 | [E1 L1]] [H2 | [E2 L2]].
  - left. eapply string_compare_lt_trans; eauto.
  - left. now rewrite <- E2.
  - left. now rewrite E1.
  - right. split; [congruence | eapply string_leb_trans; eauto].
Qed.

Lemma key_leb_antisym (a b : string * string) :
  key_leb a b = true -> key_leb b a = true -> a = b.
Proof.
  rewrite !key_leb_spec. destruct a as [a1 a2], b as [b1 b2]. simpl.
  intros [H1 | [E1 L1]] [H2 | [E2 L2]].
  - destruct (string_compare_lt_irrefl a1).
    eapply string_compare_lt_trans; eauto.
  - subst. exfalso. eapply string_compare_lt_irrefl; eauto.
  - subst. exfalso. eapply string_compare_lt_irrefl; eauto.
  - subst. f_equal. now apply String.leb_antisym.
Qed.

End TextOrder.

Lemma link_leb_spec (x y : string * string * string) :
  link_leb x y = true <-> subreddit_then_title x y.
Proof. apply key_leb_spec. Qed.

Section Sorting.

Variables (A : Type) (leb : A -> A -> bool).
Hypothesis leb_total : forall a b, leb a b = true \/ leb b a = true.
Hypothesis leb_trans :
  forall a b c, leb a b = true -> leb b c = true -> leb a c = true.
Hypothesis leb_antisym : forall a b, leb a b = true -> leb b a = true -> a = b.

Let le (a b : A) : Prop := leb a b = true.

(** Two sorted lists with the same elements are the same list. *)
Lemma sorted_unique (l1 l2 : list A) :
  StronglySorted le l1 -> StronglySorted le l2 -> Permutation l1 l2 ->
  l1 = l2.
Proof.
  revert l2. induction l1 as [|x l1 IH]; intros l2 S1 S2 P.
  - now apply Permutation_nil in P.
  - destruct l2 as [|y l2];
      [now apply Permutation_sym, Permutation_nil in P|].
    inversion S1 as [|? ? S1' F1]; inversion S2 as [|? ? S2' F2]; subst.
    assert (x = y) as ->.
    { assert (In y (x :: l1)) as [->|Iy]
          by (eapply Permutation_in; [apply Permutation_sym, P | now left]);
        [reflexivity|].
      assert (In x (y :: l2)) as [->|Ix]
          by (eapply Permutation_in; [apply P | now left]);
        [reflexivity|].
      apply leb_antisym.
      - exact (proj1 (Forall_forall _ _) F1 _ Iy).
      - exact (proj1 (Forall_forall _ _) F2 _ Ix). }
    f_equal. apply IH; auto. eapply Permutation_cons_inv; eauto.
Qed.

End Sorting.

Lemma insert_row_perm (x : string * string * string) rows :
  Permutation (x :: rows) (insert_row x rows).
Proof.
  induction rows as [|y rows IH]; simpl; [reflexivity|].
  destruct (link_leb x y); [reflexivity|].
  rewrite perm_swap. now apply perm_skip.
Qed.

Lemma order_by_perm rows : Permutation rows (order_by rows).
Proof.
  induction rows as [|x rows IH]; simpl; [reflexivity|].
  rewrite <- insert_row_perm. now apply perm_skip.
Qed.

Lemma insert_row_sorted (x : string * string * string) rows :
  Sorted (fun a b => link_leb a b = true) rows ->
  Sorted (fun a b => link_leb a b = true) (insert_row x rows).
Proof.
  induction rows as [|y rows IH]; simpl; intros S.
  - repeat constructor.
  - destruct (link_leb x y) eqn:E.
    + constructor; [assumption | now constructor].
    + inversion S as [|? ? S' H]; subst.
      constructor; [now apply IH|].
      assert (link_leb y x = true) as Hyx.
      { destruct (key_leb_total (row_key x) (row_key y)) as [T|T];
          [unfold link_leb in E; congruence | exact T]. }
      destruct rows as [|z rows]; simpl; [now constructor|].
      destruct (link_leb x z); constructor; [assumption|].
      now inversion H.
Qed.

Lemma order_by_sorted rows :
  StronglySorted (fun a b => link_leb a b = true) (order_by rows).
Proof.
  apply Sorted_StronglySorted.
  - intros a b c. apply key_leb_trans.
  - induction rows as [|x rows IH]; simpl;
      [constructor | now apply insert_row_sorted].
Qed.

Lemma sorted_keys rows :
  StronglySorted (fun a b => link_leb a b = true) rows ->
  StronglySorted (fun a b => key_leb a b = true) (map row_key rows).
Proof.
  induction 1 as [|x rows S IH F]; simpl; constructor; auto.
  apply Forall_map. exact F.
Qed.

(** The key columns of the result do not depend on the order of the rows
    that are sorted. *)
Lemma order_by_keys rows1 rows2 :
  Permutation rows1 rows2 ->
  map row_key (order_by rows1) = map row_key (order_by rows2).
Proof.
  intros P.
  apply (sorted_unique key_leb key_leb_antisym);
    try (apply sorted_keys, order_by_sorted).
  apply Permutation_map.
  rewrite <- !order_by_perm. exact P.
Qed.

Lemma Permutation_filter (A : Type) (f : A -> bool) (l1 l2 : list A) :
  Permutation l1 l2 -> Permutation (filter f l1) (filter f l2).
Proof.
  induction 1 as [|x l1 l2 P IH|x y l|l1 l2 l3 P1 IH1 P2 IH2]; simpl.
  - reflexivity.
  - destruct (f x); auto.
  - destruct (f x), (f y); auto using perm_swap.
  - etransitivity; eauto.
Qed.

Lemma StronglySorted_impl (A : Type) (R R' : A -> A -> Prop) (l : list A) :
  (forall a b, R a b -> R' a b) ->
  StronglySorted R l -> StronglySorted R' l.
Proof.
  intros HR. induction 1 as [|x l S IH F]; constructor; auto.
  eapply Forall_impl; [|exact F]. auto.
Qed.

Lemma query_spec (id : string) (db : Db.tables) :
  Permutation (Notification.query id db)
              (map Notification.selected (filter (Notification.where_ id) (Db.links db))) /\
  StronglySorted subreddit_then_title (Notification.query id db).
Proof.
  unfold Notification.query. split.
  - symmetry. apply order_by_perm.
  - eapply StronglySorted_impl; [|apply order_by_sorted].
    intros a b. apply link_leb_spec.
Qed.

Lemma where_spec (id : string) (r : Db.link_row) :
  Notification.where_ id r = true <-> Db.lr_source r = id /\ Db.lr_skip r = false.
Proof.
  unfold Notification.where_. rewrite andb_true_iff, String.eqb_eq, negb_true_iff.
  reflexivity.
Qed.

Lemma existsb_always (A : Type) (l : list A) :
  existsb (fun _ => true) l = true <-> l <> [].
Proof.
  destruct l; simpl; split; congruence.
Qed.

(** C6: [should_notify] on a Notification made for a Source fills its
    list with the [(subreddit, title, permalink)] of exactly the rows of
    [links] whose [source] is the Source's id and whose [skip] is false,
    sorted by subreddit and then by title, both ascending; it returns true
    exactly when that list is not empty; it does not change the store; and
    on a store whose [links] rows are the same in another order it returns
    the same answer and a list with the same subreddits and titles in the
    same positions. *)
Theorem C6_should_notify (s : Source.t) (w : world) :
  exists (go : bool) (n : Notification.t) (w' : world),
    Notification.should_notify (Notification.__init__ s) w
    = (Val (go, n), w') /\
    Permutation (Notification.links n)
      (map Notification.selected (filter (Notification.where_ (Source.id s)) (Db.links (db_live w)))) /\
    (forall x, In x (Notification.links n) <->
               exists r, In r (Db.links (db_live w)) /\
                         Db.lr_source r = Source.id s /\
                         Db.lr_skip r = false /\ x = Notification.selected r) /\
    StronglySorted subreddit_then_title (Notification.links n) /\
    (go = true <-> Notification.links n <> []) /\
    db_live w' = db_live w /\ db_durable w' = db_durable w /\
    (forall w2 : world,
        Permutation (Db.links (db_live w)) (Db.links (db_live w2)) ->
        exists n2 w2',
          Notification.should_notify (Notification.__init__ s) w2
          = (Val (go, n2), w2') /\
          map row_key (Notification.links n2)
          = map row_key (Notification.links n)).
Proof.
  unfold Notification.should_notify. run_M.
  destruct (query_spec (Source.id s) (db_live w)) as [P S].
  eexists. eexists. eexists. split; [reflexivity|]. simpl.
  repeat split; auto.
  - intros I. apply (Permutation_in _ P) in I.
    apply in_map_iff in I. destruct I as (r & <- & I).
    apply filter_In in I. destruct I as [I W]. apply where_spec in W.
    exists r. tauto.
  - intros (r & I & Hs & Hk & ->).
    apply (Permutation_in _ (Permutation_sym P)).
    apply in_map, filter_In. split; [assumption|].
    apply where_spec. auto.
  - apply existsb_always.
  - apply existsb_always.
  - intros w2 P2.
    assert (Permutation (Notification.query (Source.id s) (db_live w))
                        (Notification.query (Source.id s) (db_live w2))) as Q.
    { unfold Notification.query. rewrite <- !order_by_perm.
      now apply Permutation_map, Permutation_filter. }
    assert (existsb (fun _ => true)
                    (Notification.query (Source.id s) (db_live w2))
            = existsb (fun _ => true)
                      (Notification.query (Source.id s) (db_live w))) as G.
    { destruct (Notification.query (Source.id s) (db_live w)) as [|x l].
      - apply Permutation_nil in Q. now rewrite Q.
      - destruct (Notification.query (Source.id s) (db_live w2));
          [now apply Permutation_sym, Permutation_nil in Q | reflexivity]. }
    eexists. eexists. split; [rewrite G; reflexivity|].
    simpl. unfold Notification.query. apply order_by_keys.
    now apply Permutation_map, Permutation_filter, Permutation_sym.
Qed.

(** The spec's example: links from subreddits b and a with titles x and y,
    stored in two different orders, come out as (a,x), (a,y), (b,x), (b,y)
    both times; the skipped link is left out. *)
Lemma C6_should_notify_witness :
  exists n2 w2',
    Notification.should_notify (Notification.__init__ Scenario.source)
      (Scenario.at_start Scenario.links_other_way)
    = (Val (true, n2), w2') /\
    map row_key (Notification.links n2)
    = [("a", "x"); ("a", "y"); ("b", "x"); ("b", "y")].
Proof.
  destruct (C6_should_notify Scenario.source
              (Scenario.at_start Scenario.links_one_way))
    as (go & n & w' & E & _ & _ & _ & _ & _ & _ & O).
  injection E as <- <- <-.
  apply (O (Scenario.at_start Scenario.links_other_way)).
  apply Permutation_rev.
Defined.

(** ** Identity resolution (C5) *)

Lemma append_nil_r (s : string) : s ++ "" = s.
Proof. induction s; simpl; congruence. Qed.

Lemma append_assoc (a b c : string) : (a ++ b) ++ c = a ++ b ++ c.
Proof. induction a; simpl; congruence. Qed.

Lemma length_append (a b : string) :
  String.length (a ++ b) = String.length a + String.length b.
Proof. induction a; simpl; congruence. Qed.

Lemma take_drop (k : nat) (s : string) : Py.take k s ++ Py.drop k s = s.
Proof.
  revert s. induction k; intros [|c s]; simpl; try reflexivity.
  now rewrite IHk.
Qed.

Lemma take_all (s : string) k : String.length s <= k -> Py.take k s = s.
Proof.
  revert k. induction s as [|c s IH]; intros [|k]; simpl; intros H;
    try reflexivity; try lia. rewrite IH; [reflexivity | lia].
Qed.

Lemma drop_all (s : string) k : String.length s <= k -> Py.drop k s = "".
Proof.
  revert k. induction s as [|c s IH]; intros [|k]; simpl; intros H;
    try reflexivity; try lia. apply IH. lia.
Qed.

Lemma take_append (a b : string) : Py.take (String.length a) (a ++ b) = a.
Proof. induction a; simpl; [now destruct b | congruence]. Qed.

Lemma drop_append (a b : string) : Py.drop (String.length a) (a ++ b) = b.
Proof. induction a; simpl; [now destruct b | congruence]. Qed.

Lemma length_take (k : nat) (s : string) :
  String.length (Py.take k s) = Nat.min k (String.length s).
Proof.
  revert s. induction k; intros [|c s]; simpl; try reflexivity.
  now rewrite IHk.
Qed.

Lemma all_in_append f a b :
  all_in f (a ++ b) = all_in f a && all_in f b.
Proof.
  induction a; simpl; [reflexivity|]. now rewrite IHa, andb_assoc.
Qed.

Lemma all_in_take f k s : all_in f s = true -> all_in f (Py.take k s) = true.
Proof.
  revert s. induction k; intros [|c s]; simpl; try reflexivity.
  rewrite !andb_true_iff. intros [H1 H2]. auto.
Qed.

Lemma all_in_drop f k s : all_in f s = true -> all_in f (Py.drop k s) = true.
Proof.
  revert s. induction k; intros [|c s]; simpl; auto.
  rewrite !andb_true_iff. intros [H1 H2]. auto.
Qed.

Lemma lit_spec (p s t : string) : Re.lit p s = Some t <-> s = p ++ t.
Proof.
  revert s. induction p as [|a p IH]; intros s; simpl.
  - split; congruence.
  - destruct s as [|b s]; [split; discriminate|].
    destruct (Ascii.eqb_spec a b) as [->|N].
    + rewrite IH. split; congruence.
    + split; [discriminate | congruence].
Qed.

Lemma lit_append (p t : string) : Re.lit p (p ++ t) = Some t.
Proof. now apply lit_spec. Qed.

(** A literal whose first character is outside the class cannot start inside a run. *)
Lemma lit_in_run f (c : ascii) (p run rest : string) :
  f c = false -> all_in f run = true -> run <> "" ->
  Re.lit (String c p) (run ++ rest) = None.
Proof.
  intros Hc Hr Hn. destruct run as [|a run]; [congruence|]. simpl in *.
  apply andb_true_iff in Hr. destruct Hr as [Ha _].
  destruct (Ascii.eqb_spec c a) as [->|]; [congruence | reflexivity].
Qed.

Lemma span_spec f s :
  let (r, t) := Re.span f s in
  s = r ++ t /\ all_in f r = true /\ stops f t.
Proof.
  induction s as [|c s IH]; simpl; [auto|].
  destruct (f c) eqn:E.
  - destruct (Re.span f s) as [r t]. destruct IH as (-> & A & S).
    simpl. rewrite E. auto.
  - simpl. auto.
Qed.

Lemma span_stops f r t :
  all_in f r = true -> stops f t -> Re.span f (r ++ t) = (r, t).
Proof.
  intros A S. induction r as [|c r IH]; simpl in *.
  - destruct t as [|c t]; [reflexivity|]. simpl in *. now rewrite S.
  - apply andb_true_iff in A. destruct A as [-> A]. now rewrite IH.
Qed.

Lemma span_append f r t :
  all_in f r = true ->
  Re.span f (r ++ t) = (r ++ fst (Re.span f t), snd (Re.span f t)).
Proof.
  intros A. induction r as [|c r IH]; simpl in *.
  - now destruct (Re.span f t).
  - apply andb_true_iff in A. destruct A as [-> A]. now rewrite IH.
Qed.

Lemma length_drop (k : nat) (s : string) :
  String.length (Py.drop k s) = String.length s - k.
Proof.
  revert s. induction k; intros [|c s]; simpl; try reflexivity. apply IHk.
Qed.

Lemma lengths_above (lo top : nat) : top < lo -> Re.lengths lo top = [].
Proof.
  intros H. unfold Re.lengths. now replace (S top - lo) with 0 by lia.
Qed.

Lemma lengths_step (lo top : nat) :
  lo <= S top -> Re.lengths lo (S top) = S top :: Re.lengths lo top.
Proof.
  intros H. unfold Re.lengths.
  replace (S (S top) - lo) with (S (S top - lo)) by lia.
  rewrite seq_S, rev_app_distr.
  replace (lo + (S top - lo)) with (S top) by lia. reflexivity.
Qed.

Lemma lengths_below (lo top : nat) :
  Forall (fun k => k <= top) (Re.lengths lo top).
Proof.
  induction top as [|top IH].
  - destruct lo as [|lo]; [|now rewrite lengths_above by lia].
    repeat constructor.
  - destruct (le_lt_dec lo (S top)) as [H|H].
    + rewrite lengths_step by assumption. constructor; [lia|].
      eapply Forall_impl; [|exact IH]. simpl. intros k Hk. lia.
    + now rewrite lengths_above by lia.
Qed.

Lemma greedy_cases (f : ascii -> bool) (lo : nat) (hi : option nat) (s : string) :
  let (run, rest) := Re.span f s in
  let top := match hi with
             | Some h => Nat.min h (String.length run)
             | None => String.length run
             end in
  (top < lo /\ Re.greedy f lo hi s = []) \/
  (lo <= top /\
   exists tl,
     Re.greedy f lo hi s = (Py.take top run, Py.drop top run ++ rest) :: tl /\
     Forall (fun x => exists k, k < top /\
                                x = (Py.take k run, Py.drop k run ++ rest)) tl).
Proof.
  unfold Re.greedy. destruct (Re.span f s) as [run rest].
  set (top := match hi with
              | Some h => Nat.min h (String.length run)
              | None => String.length run
              end).
  destruct (le_lt_dec lo top) as [H|H].
  - right. split; [assumption|].
    destruct top as [|top].
    + assert (lo = 0) as -> by lia. eexists. split; [reflexivity|]. constructor.
    + rewrite lengths_step by assumption. simpl. eexists. split; [reflexivity|].
      apply Forall_map. eapply Forall_impl; [|apply lengths_below].
      simpl. intros k Hk. exists k. split; [lia | reflexivity].
  - left. split; [assumption|]. now rewrite lengths_above.
Qed.

(** Class+ followed by a literal that starts outside the class: only the whole run can match. *)
Lemma greedy_then_lit (f : ascii -> bool) (c : ascii) (p : string)
      (B : Type) (g : string * string -> list B) (s : string) :
  f c = false ->
  (forall x s2, Re.lit (String c p) s2 = None -> g (x, s2) = []) ->
  flat_map g (Re.greedy f 1 None s)
  = if (1 <=? String.length (fst (Re.span f s)))%nat
    then g (Re.span f s)
    else [].
Proof.
  intros Hc Hg.
  pose proof (greedy_cases f 1 None s) as G.
  pose proof (span_spec f s) as S.
  destruct (Re.span f s) as [run rest]. destruct S as (_ & A & _).
  cbn [fst].
  destruct G as [[H ->]|[H (tl & -> & F)]];
    destruct (Nat.leb_spec 1 (String.length run)); try lia.
  - reflexivity.
  - cbn [flat_map].
    rewrite take_all, drop_all by lia.
    change ("" ++ rest) with rest.
    assert (flat_map g tl = []) as ->.
    { induction F as [|x tl (k & Hk & ->) F IH]; simpl; [reflexivity|].
      rewrite IH, Hg; [reflexivity|].
      apply (@lit_in_run f); auto.
      - now apply all_in_drop.
      - intros E. apply (f_equal String.length) in E.
        rewrite length_drop in E. simpl in E. lia. }
    now rewrite app_nil_r.
Qed.

Lemma not_slash_slash : Re.not_slash "/" = false.
Proof. reflexivity. Qed.

Lemma first_comment_ok (s : string) :
  option_map fst (hd_error (PATH_REGEX_comment s)) = first_comment s.
Proof.
  unfold PATH_REGEX_comment, first_comment.
  destruct (Re.lit "/" s) as [s1|]; [|reflexivity].
  rewrite greedy_then_lit with (c := "/"%char) (p := "");
    [|reflexivity|intros x s2 E; now rewrite E].
  destruct (Re.span Re.not_slash s1) as [any r1]. cbn [fst].
  destruct (1 <=? String.length any)%nat; [|reflexivity].
  destruct (Re.lit "/" r1) as [s3|]; [|reflexivity].
  pose proof (greedy_cases Re.lower_alnum 6 (Some 8) s3) as G.
  destruct (Re.span Re.lower_alnum s3) as [run rest].
  destruct G as [[H ->]|[H (tl & -> & _)]];
    destruct (Nat.leb_spec 6 (String.length run)); try lia; reflexivity.
Qed.

Lemma first_match_ok (path : string) :
  PATH_REGEX_match path = first_match path.
Proof.
  unfold PATH_REGEX_match, PATH_REGEX, first_match.
  destruct (Re.lit "/r/" path) as [s1|]; [|reflexivity].
  rewrite greedy_then_lit with (c := "/"%char) (p := "comments/");
    [|reflexivity|intros x s2 E; now rewrite E].
  destruct (Re.span Re.not_slash s1) as [sub r1]. cbn [fst].
  destruct (1 <=? String.length sub)%nat; [|reflexivity].
  destruct (Re.lit "/comments/" r1) as [s3|]; [|reflexivity].
  pose proof (greedy_cases Re.lower_alnum 6 (Some 8) s3) as G.
  destruct (Re.span Re.lower_alnum s3) as [run r3].
  destruct G as [[H ->]|[H (tl & -> & _)]];
    destruct (Nat.leb_spec 6 (String.length run)); try lia;
    [reflexivity|].
  cbn [flat_map]. rewrite <- first_comment_ok. unfold Re.optional.
  destruct (PATH_REGEX_comment _) as [|[c t] l]; reflexivity.
Qed.

Lemma length_nonempty (s : string) : s <> "" <-> 1 <= String.length s.
Proof. destruct s; simpl; split; intros; try congruence; lia. Qed.

Lemma stops_slash (s : string) : stops Re.not_slash ("/" ++ s).
Proof. reflexivity. Qed.

Lemma stops_alnum_slash (s : string) : stops Re.lower_alnum ("/" ++ s).
Proof. reflexivity. Qed.

(** The segment before a slash is found whole. *)
Lemma span_segment (x rest : string) :
  segment x ->
  Re.span Re.not_slash (x ++ "/" ++ rest) = (x, "/" ++ rest) /\
  (1 <=? String.length x)%nat = true.
Proof.
  intros [N A]. split.
  - apply span_stops; [assumption | apply stops_slash].
  - apply Nat.leb_le. now apply length_nonempty.
Qed.

(** The identifier found at the start of [i ++ rest]. *)
Lemma span_ident (i rest : string) :
  ident i ->
  let (run, t) := Re.span Re.lower_alnum (i ++ rest) in
  (6 <=? String.length run)%nat = true /\
  (longest i rest ->
   Py.take (Nat.min 8 (String.length run)) run = i /\
   Py.drop (Nat.min 8 (String.length run)) run ++ t = rest).
Proof.
  intros [L A]. rewrite span_append by assumption.
  pose proof (span_spec Re.lower_alnum rest) as S.
  destruct (Re.span Re.lower_alnum rest) as [m t]. cbn [fst snd].
  destruct S as (E & Am & St). split.
  - apply Nat.leb_le. rewrite length_append. lia.
  - intros [L8 | Hs].
    + replace (Nat.min 8 (String.length (i ++ m))) with (String.length i)
        by (rewrite length_append; lia).
      rewrite take_append, drop_append. split; [reflexivity | now symmetry].
    + assert (m = "") as ->.
      { destruct m as [|c m]; [reflexivity|]. subst rest.
        simpl in Hs, Am. rewrite Hs in Am. discriminate. }
      rewrite append_nil_r.
      replace (Nat.min 8 (String.length i)) with (String.length i) by lia.
      rewrite take_all, drop_all by lia. simpl in E. now subst.
Qed.

(** What a found identifier looks like. *)
Lemma found_ident (s run t : string) (top : nat) :
  Re.span Re.lower_alnum s = (run, t) ->
  6 <= String.length run ->
  top = Nat.min 8 (String.length run) ->
  s = Py.take top run ++ (Py.drop top run ++ t) /\
  ident (Py.take top run) /\
  longest (Py.take top run) (Py.drop top run ++ t) /\
  all_in Re.lower_alnum (Py.drop top run) = true.
Proof.
  intros E L Etop.
  pose proof (span_spec Re.lower_alnum s) as S. rewrite E in S.
  destruct S as (-> & A & St). repeat split.
  - now rewrite <- append_assoc, take_drop.
  - rewrite length_take. lia.
  - rewrite length_take. lia.
  - now apply all_in_take.
  - unfold longest. rewrite length_take.
    destruct (le_lt_dec 8 (String.length run)); [left; lia|].
    right. rewrite drop_all by lia. exact St.
  - now apply all_in_drop.
Qed.

Lemma first_comment_sound (s c : string) :
  first_comment s = Some c ->
  exists any rest,
    s = "/" ++ any ++ "/" ++ c ++ rest /\
    segment any /\ ident c /\ longest c rest.
Proof.
  unfold first_comment.
  destruct (Re.lit "/" s) as [s1|] eqn:L1; [|discriminate].
  apply lit_spec in L1. subst s.
  pose proof (span_spec Re.not_slash s1) as S.
  destruct (Re.span Re.not_slash s1) as [any r1]. destruct S as (-> & A & _).
  destruct (Nat.leb_spec 1 (String.length any)) as [N|N]; [|discriminate].
  destruct (Re.lit "/" r1) as [s3|] eqn:L3; [|discriminate].
  apply lit_spec in L3. subst r1.
  destruct (Re.span Re.lower_alnum s3) as [run t] eqn:E.
  destruct (Nat.leb_spec 6 (String.length run)) as [L|L]; [|discriminate].
  remember (Nat.min 8 (String.length run)) as top eqn:Etop.
  intros [= <-].
  destruct (@found_ident s3 run t top E L Etop) as (-> & I & G & _).
  exists any. eexists. split; [reflexivity|].
  split; [split; [now apply length_nonempty | assumption]|].
  split; assumption.
Qed.

Lemma first_comment_complete (s any c rest : string) :
  s = "/" ++ any ++ "/" ++ c ++ rest -> segment any -> ident c ->
  first_comment s <> None /\
  (longest c rest -> first_comment s = Some c).
Proof.
  intros -> Sa Ic. unfold first_comment. rewrite lit_append.
  destruct (@span_segment any (c ++ rest) Sa) as [-> ->]. rewrite lit_append.
  pose proof (@span_ident c rest Ic) as S.
  destruct (Re.span Re.lower_alnum (c ++ rest)) as [run t].
  destruct S as [-> S]. split; [discriminate|].
  intros G. destruct (S G) as [-> _]. reflexivity.
Qed.

Lemma first_match_sound (path sub post : string) (oc : option string) :
  first_match path = Some (sub, post, oc) -> PathShape path sub post oc.
Proof.
  unfold first_match.
  destruct (Re.lit "/r/" path) as [s1|] eqn:L1; [|discriminate].
  apply lit_spec in L1. subst path.
  pose proof (span_spec Re.not_slash s1) as S.
  destruct (Re.span Re.not_slash s1) as [sub' r1]. destruct S as (-> & A & _).
  destruct (Nat.leb_spec 1 (String.length sub')) as [N|N]; [|discriminate].
  destruct (Re.lit "/comments/" r1) as [s3|] eqn:L3; [|discriminate].
  apply lit_spec in L3. subst r1.
  destruct (Re.span Re.lower_alnum s3) as [run t] eqn:E.
  destruct (Nat.leb_spec 6 (String.length run)) as [L|L]; [|discriminate].
  remember (Nat.min 8 (String.length run)) as top eqn:Etop. cbv zeta.
  intros [= <- <- <-].
  destruct (@found_ident s3 run t top E L Etop) as (-> & I & G & D).
  assert (segment sub') as Ss by (split; [now apply length_nonempty | assumption]).
  destruct (first_comment _) as [c|] eqn:C.
  - apply first_comment_sound in C.
    destruct C as (any & rest & Er & Sa & Ic & Gc).
    rewrite Er. eapply shape_comment; eauto.
  - eapply shape_post; eauto.
    intros (any & c & rest' & Er & Sa & Ic).
    now destruct (@first_comment_complete _ any c rest' Er Sa Ic).
Qed.












(** ** Titles in the rendered body (C4) *)

Lemma bullets_bound (env : Env) (f : string -> string)
      (rows : list (string * string * string)) :
  np env = Some f ->
  Notification.bullets env rows
  = Val (map (bullet_text f (fun title => title)) rows).
Proof.
  intros B. induction rows as [|[[subreddit title] permalink] rows IH];
    simpl; [reflexivity|].
  unfold Notification.bullet. now rewrite B, IH.
Qed.

Lemma bullets_unbound (env : Env) (row : string * string * string)
      (rows : list (string * string * string)) :
  np env = None ->
  Notification.bullets env (row :: rows) = Raise (NameError "np").
Proof.
  intros B. destruct row as [[subreddit title] permalink]. simpl.
  unfold Notification.bullet. now rewrite B.
Qed.





(** ** One reply per Source (C3) *)

Lemma replies_app (a b : list event) :
  replies (a ++ b) = (replies a ++ replies b)%list.
Proof.
  induction a as [|e a IH]; simpl; [reflexivity|].
  destruct e; simpl; now rewrite IH.
Qed.

Lemma edits_app (a b : list event) :
  edits (a ++ b) = (edits a ++ edits b)%list.
Proof.
  induction a as [|e a IH]; simpl; [reflexivity|].
  destruct e; simpl; now rewrite IH.
Qed.

(** Trace bookkeeping: push [replies] and [edits] through appended
    events. *)
Ltac traces :=
  repeat rewrite replies_app; repeat rewrite edits_app; simpl;
  repeat rewrite app_nil_r.

Lemma Source_submission_effect (reddit : Reddit) (s s' : Source.t)
      (handle : Handle) (w w' : world) :
  Source.submission reddit s w = (Val (handle, s'), w') ->
  replies (trace w') = replies (trace w) /\
  edits (trace w') = edits (trace w) /\
  db_live w' = db_live w /\ db_durable w' = db_durable w /\
  Source.id s' = Source.id s /\ Source.reply s' = Source.reply s /\
  Source.subreddit s' = Source.subreddit s /\
  Source._submission s' = Some handle.
Proof.
  unfold Source.submission, Source.unloaded.
  destruct (Source._submission s) as [h|] eqn:C.
  - unfold ret. intros H. injection H as <- <- <-. repeat split. exact C.
  - unfold bind, emit, ret, raise. cbv beta iota.
    destruct (Source.lookup reddit _); [|discriminate].
    intros H. injection H as <- <- <-. simpl. traces. repeat split.
Qed.

(** The property returns unless it has to make the handle and the thing
    does not resolve. *)
Lemma Source_submission_returns (reddit : Reddit) (s : Source.t) (w : world) :
  Source._submission s <> None \/ Source.lookup reddit s <> None ->
  exists handle s' w',
    Source.submission reddit s w = (Val (handle, s'), w').
Proof.
  unfold Source.submission, Source.unloaded.
  destruct (Source._submission s) as [h|] eqn:C.
  - intros _. unfold ret. eauto.
  - intros [H|H]; [congruence|].
    unfold bind, emit, ret, raise. cbv beta iota.
    change (Source.lookup reddit (Source.set__submission s (Some Unfetched)))
      with (Source.lookup reddit s).
    destruct (Source.lookup reddit s); [eauto|congruence].
Qed.

Lemma Source_save_effect (env : Env) (s : Source.t) (w w1 : world) :
  Source.save env s w = (Val tt, w1) ->
  replies (trace w1) = replies (trace w) /\
  edits (trace w1) = edits (trace w) /\
  db_durable w1 = db_live w1 /\
  exists row,
    Db.find_source (Source.id s) (db_live w1) = Some row /\
    Db.sr_reply row = Source.reply s.
Proof.
  unfold Source.save. run_M.
  destruct (Db.reply_taken (Source.id s) (Source.reply s) (db_live w));
    [discriminate|].
  destruct (Db.find_source (Source.id s) (db_live w)) as [r|] eqn:F;
    intros H; injection H as <-; simpl; traces; repeat split.
  - rewrite find_source_update, F. simpl. eexists. split; reflexivity.
  - rewrite find_source_insert by assumption. eexists. split; reflexivity.
Qed.

(** [save] goes through unless another row holds the reply. *)
Lemma Source_save_returns (env : Env) (s : Source.t) (w : world) :
  Db.reply_taken (Source.id s) (Source.reply s) (db_live w) = false ->
  exists w1, Source.save env s w = (Val tt, w1).
Proof.
  intros T. unfold Source.save. run_M. rewrite T.
  destruct (Db.find_source (Source.id s) (db_live w)); eauto.
Qed.

Lemma Source_load_stored (reddit : Reddit) (s : Source.t) (w : world)
      (row : Db.source_row) :
  Db.find_source (Source.id s) (db_live w) = Some row ->
  exists s' w',
    Source.load reddit s w = (Val s', w') /\
    Source.reply s' = Db.sr_reply row.
Proof.
  intros F. unfold Source.load. run_M. rewrite F.
  eexists. eexists. split; reflexivity.
Qed.

Lemma post_reply_first (env : Env) (reddit : Reddit)
      (n n' : Notification.t) (w w' : world) (b : bool) :
  TEST env = false ->
  Py.truthy (Notification.reply n) = false ->
  Notification.post_reply env reddit n w = (Val (b, n'), w') ->
  exists name row,
    b = true /\
    replies (trace w') = (replies (trace w) ++ [name])%list /\
    edits (trace w') = edits (trace w) /\
    Notification.reply n' = Some name /\
    Source.reply (Notification.source n') = Some name /\
    Source.id (Notification.source n') = Source.id (Notification.source n) /\
    Db.find_source (Source.id (Notification.source n)) (db_live w') = Some row /\
    Db.sr_reply row = Some name /\
    db_durable w' = db_live w'.
Proof.
  intros T R. unfold Notification.post_reply.
  unfold bind at 1. unfold lift at 1.
  destruct (Notification._render_comment env n) as [body|e]; [|discriminate].
  rewrite T, R.
  unfold bind at 1.
  destruct (Source.submission reddit (Notification.source n) w)
    as [[[handle src]|e] w1] eqn:S; [|discriminate].
  apply Source_submission_effect in S.
  destruct S as (S1 & S2 & _ & _ & S5 & _).
  unfold bind at 1. unfold history at 1.
  unfold bind at 1. unfold lift at 1.
  destruct (reply_to reddit (trace w1) (Source.fullname src) body)
    as [name|e]; [|discriminate].
  unfold bind at 1. unfold emit at 1.
  unfold bind at 1.
  match goal with
  | |- context [Source.save env ?s ?w2] =>
      destruct (Source.save env s w2) as [[[]|e] w3] eqn:V
  end; [|discriminate].
  apply Source_save_effect in V. simpl in V.
  destruct V as (V1 & V2 & V3 & row & V4 & V5).
  unfold ret. intros H. injection H as <- <- <-. simpl.
  exists name, row. rewrite V1, V2. traces. rewrite S1, S2.
  rewrite <- S5. repeat split; auto.
Qed.

Lemma post_reply_again (env : Env) (reddit : Reddit)
      (n n' : Notification.t) (w w' : world) (b : bool) (r : string) :
  TEST env = false ->
  Notification.reply n = Some r -> r <> "" ->
  Notification.post_reply env reddit n w = (Val (b, n'), w') ->
  n' = n /\
  replies (trace w') = replies (trace w) /\
  edits (trace w') = (edits (trace w) ++ [Py.drop 3 r])%list /\
  db_live w' = db_live w /\ db_durable w' = db_durable w.
Proof.
  intros T R N. unfold Notification.post_reply.
  unfold bind at 1. unfold lift at 1.
  destruct (Notification._render_comment env n) as [body|e]; [|discriminate].
  rewrite T, R.
  assert (Py.truthy (Some r) = true) as ->
      by (destruct r; [congruence | reflexivity]).
  run_M.
  destruct (edit_comment reddit _ _ body); [|discriminate].
  intros H. injection H as <- <- <-. simpl. traces. repeat split.
Qed.

Lemma post_reply_dry_run (env : Env) (reddit : Reddit)
      (n n' : Notification.t) (w w' : world) (b : bool) :
  TEST env = true ->
  Notification.post_reply env reddit n w = (Val (b, n'), w') ->
  n' = n /\
  replies (trace w') = replies (trace w) /\
  edits (trace w') = edits (trace w) /\
  db_live w' = db_live w /\ db_durable w' = db_durable w.
Proof.
  intros T. unfold Notification.post_reply.
  unfold bind at 1. unfold lift at 1.
  destruct (Notification._render_comment env n) as [body|e]; [|discriminate].
  rewrite T. unfold log_debug. destruct (DEBUG env); run_M;
    intros H; injection H as <- <- <-; simpl; traces; repeat split.
Qed.

(** Whatever its outcome, [post_reply] with the reply identifier set
    creates no comment and leaves the store alone. *)
Lemma post_reply_set_creates_nothing (env : Env) (reddit : Reddit)
      (n : Notification.t) (w w' : world) (r : string)
      (out : res (bool * Notification.t)) :
  TEST env = false ->
  Notification.reply n = Some r -> r <> "" ->
  Notification.post_reply env reddit n w = (out, w') ->
  replies (trace w') = replies (trace w) /\
  db_live w' = db_live w /\ db_durable w' = db_durable w.
Proof.
  intros T R N. unfold Notification.post_reply.
  unfold bind at 1. unfold lift at 1.
  destruct (Notification._render_comment env n) as [body|e];
    [|intros H; injection H as <- <-; auto].
  rewrite T, R.
  assert (Py.truthy (Some r) = true) as ->
      by (destruct r; [congruence | reflexivity]).
  run_M.
  destruct (edit_comment reddit _ _ body);
    intros H; injection H as <- <-; simpl; traces; auto.
Qed.

(** The first [post_reply] goes through when the body renders, the
    property gives the handle, reddit takes the reply and no other row
    holds the new name. *)
Lemma post_reply_returns (env : Env) (reddit : Reddit)
      (n : Notification.t) (w : world) (body name : string) :
  TEST env = false ->
  Py.truthy (Notification.reply n) = false ->
  Notification._render_comment env n = Val body ->
  Source._submission (Notification.source n) <> None \/
  Source.lookup reddit (Notification.source n) <> None ->
  (forall h, reply_to reddit h
               (Source.fullname (Notification.source n)) body = Val name) ->
  Db.reply_taken (Source.id (Notification.source n)) (Some name) (db_live w)
  = false ->
  exists n' w',
    Notification.post_reply env reddit n w = (Val (true, n'), w').
Proof.
  intros T R B H A U. unfold Notification.post_reply.
  unfold bind at 1. unfold lift at 1. rewrite B, T, R.
  unfold bind at 1.
  destruct (@Source_submission_returns reddit (Notification.source n) w H)
    as (handle & src & w1 & S).
  rewrite S. pose proof (Source_submission_effect _ _ _ S)
    as (_ & _ & L1 & _ & I1 & _).
  assert (Source.fullname src = Source.fullname (Notification.source n)) as F
      by (unfold Source.fullname, Source.is_comment, Source.base36;
          now rewrite I1).
  unfold bind at 1. unfold history at 1.
  unfold bind at 1. unfold lift at 1. rewrite F, A.
  unfold bind at 1. unfold emit at 1. unfold bind at 1.
  match goal with
  | |- context [Source.save env ?s ?w2] =>
      destruct (@Source_save_returns env s w2) as (w3 & V)
  end.
  - simpl. rewrite I1, L1. exact U.
  - rewrite V. unfold ret. eauto.
Qed.

(** C3.  Dry run is the mode in which [post_reply] only logs; the claim
    is about the other mode.  There, a [post_reply] that goes through for
    a Notification whose reply identifier is unset creates exactly one
    comment, puts its name on the Notification and on the Source, and
    saves and commits the Source's row with it; after that, loading any
    Source of that id from the store gives that reply identifier, so a
    Notification made for it carries it.  Such a [post_reply] does go
    through when the body renders, the handle can be made, reddit takes
    the reply and the new name is not another row's.  And a [post_reply]
    that goes through for a Notification whose reply identifier is set
    (the name of a comment, which is not empty) creates nothing, edits
    that one comment, and changes neither the identifier nor the store;
    one that fails creates nothing either. *)
Theorem C3_one_reply (env : Env) (reddit : Reddit) :
  TEST env = false ->
  (forall (n n' : Notification.t) (w w' : world) (b : bool),
      Py.truthy (Notification.reply n) = false ->
      Notification.post_reply env reddit n w = (Val (b, n'), w') ->
      exists name,
        b = true /\
        replies (trace w') = (replies (trace w) ++ [name])%list /\
        edits (trace w') = edits (trace w) /\
        Notification.reply n' = Some name /\
        Source.reply (Notification.source n') = Some name /\
        Source.id (Notification.source n')
        = Source.id (Notification.source n) /\
        (exists row,
            Db.find_source (Source.id (Notification.source n))
                           (db_durable w') = Some row /\
            Db.sr_reply row = Some name) /\
        db_live w' = db_durable w' /\
        (forall reddit2 (s0 : Source.t),
            Source.id s0 = Source.id (Notification.source n) ->
            exists s1 w2,
              Source.load reddit2 s0 w' = (Val s1, w2) /\
              Notification.reply (Notification.__init__ s1) = Some name)) /\
  (forall (n : Notification.t) (w : world) (body name : string),
      Py.truthy (Notification.reply n) = false ->
      Notification._render_comment env n = Val body ->
      Source._submission (Notification.source n) <> None \/
      Source.lookup reddit (Notification.source n) <> None ->
      (forall h, reply_to reddit h
                   (Source.fullname (Notification.source n)) body
                 = Val name) ->
      Db.reply_taken (Source.id (Notification.source n)) (Some name)
                     (db_live w) = false ->
      exists n' w',
        Notification.post_reply env reddit n w = (Val (true, n'), w')) /\
  (forall (n n' : Notification.t) (w w' : world) (b : bool) (r : string),
      Notification.reply n = Some r -> r <> "" ->
      Notification.post_reply env reddit n w = (Val (b, n'), w') ->
      n' = n /\
      replies (trace w') = replies (trace w) /\
      edits (trace w') = (edits (trace w) ++ [Py.drop 3 r])%list /\
      db_live w' = db_live w /\ db_durable w' = db_durable w) /\
  (forall (n : Notification.t) (w w' : world)
          (out : res (bool * Notification.t)),
      Py.truthy (Notification.reply n) = true ->
      Notification.post_reply env reddit n w = (out, w') ->
      replies (trace w') = replies (trace w) /\
      db_live w' = db_live w /\ db_durable w' = db_durable w).
Proof.
  intros T. split; [|split; [|split]].
  - intros n n' w w' b R H.
    destruct (@post_reply_first env reddit n n' w w' b T R H)
      as (name & row & H0 & H1 & H2 & H3 & H4 & H5 & H6 & H7 & H8).
    exists name. repeat split; auto.
    + exists row. rewrite H8. auto.
    + intros reddit2 s0 E. rewrite <- E in H6.
      destruct (@Source_load_stored reddit2 s0 w' row H6)
        as (s1 & w2 & L1 & L2).
      exists s1, w2. split; [assumption|]. simpl. congruence.
  - intros n w body name. now apply post_reply_returns.
  - intros n n' w w' b r. now apply post_reply_again.
  - intros n w w' out R.
    destruct (Notification.reply n) as [[|c r]|] eqn:E; try discriminate.
    apply (@post_reply_set_creates_nothing env reddit n w w' (String c r));
      [assumption | assumption | discriminate].
Qed.

(** The first [post_reply] in the module as written, for a Notification
    without links (the body then needs no [np]): one comment is created
    and its name stored. *)
Lemma first_reply_as_written :
  exists n1 w1,
    Notification.post_reply Scenario.env (Scenario.reddit [])
      (Scenario.notification []) (Scenario.at_start Scenario.seen)
    = (Val (true, n1), w1) /\
    replies (trace w1) = ["t1_reply01"] /\
    Notification.reply n1 = Some "t1_reply01".
Proof.
  pose (out := Notification.post_reply Scenario.env (Scenario.reddit [])
                 (Scenario.notification [])
                 (Scenario.at_start Scenario.seen)).
  pose (n1 := match fst out with
              | Val (_, x) => x
              | Raise _ => Scenario.notification []
              end).
  exists n1, (snd out).
  split; [vm_compute; reflexivity|]. split; vm_compute; reflexivity.
Qed.

(** Two cycles for the scenario's Source, under a binding for [np] so
    that a link can be rendered.  The first [post_reply], with one link,
    creates the comment [t1_reply01]; the second, for the Source as it is
    by then and with one more link, edits that comment and creates
    nothing. *)
Lemma C3_one_reply_witness :
  exists n1 w1 n2 w2,
    Notification.post_reply Scenario.env_np (Scenario.reddit [])
      (Scenario.notification Scenario.one_link)
      (Scenario.at_start Scenario.seen)
    = (Val (true, n1), w1) /\
    replies (trace w1) = ["t1_reply01"] /\
    edits (trace w1) = [] /\
    Notification.reply n1 = Some "t1_reply01" /\
    Notification.post_reply Scenario.env_np (Scenario.reddit [])
      (Scenario.second_notification n1) w1
    = (Val (true, n2), w2) /\
    n2 = Scenario.second_notification n1 /\
    replies (trace w2) = ["t1_reply01"] /\
    edits (trace w2) = ["reply01"].
Proof.
  pose (start := Scenario.at_start Scenario.seen).
  pose (first := Scenario.notification Scenario.one_link).
  assert (Source._submission (Notification.source first) <> None \/
          Source.lookup (Scenario.reddit []) (Notification.source first)
          <> None) as Handle
      by (left; vm_compute; discriminate).
  destruct (proj1 (proj2 (@C3_one_reply Scenario.env_np (Scenario.reddit [])
                            eq_refl))
              first start
              (body_with (fun p => "https://np.reddit.com" ++ p)
                         (fun title => title) Scenario.one_link)
              "t1_reply01" eq_refl eq_refl Handle
              (fun _ => eq_refl) eq_refl)
    as (n1 & w1 & P1).
  destruct (proj1 (@C3_one_reply Scenario.env_np (Scenario.reddit [])
                     eq_refl)
              first n1 start w1 true eq_refl P1)
    as (name & _ & R1 & E1 & N1 & _).
  assert (name = "t1_reply01") as ->.
  { assert (fst (Notification.post_reply Scenario.env_np (Scenario.reddit [])
                   first start)
            = Val (true, n1)) as V by now rewrite P1.
    assert (Notification.reply n1 = Some "t1_reply01") as N
        by (vm_compute in V; injection V as V; rewrite <- V; reflexivity).
    congruence. }
  pose (out := Notification.post_reply Scenario.env_np (Scenario.reddit [])
                 (Scenario.second_notification n1) w1).
  assert (exists n2 w2, out = (Val (true, n2), w2)) as (n2 & w2 & P2).
  { unfold out, Notification.post_reply, Scenario.second_notification.
    unfold bind at 1. unfold lift at 1.
    unfold Notification._render_comment.
    rewrite (@bullets_bound Scenario.env_np
               (fun p => "https://np.reddit.com" ++ p) _ eq_refl).
    cbn [TEST Scenario.env_np Notification.reply]. rewrite N1.
    unfold Py.truthy. cbn [negb]. run_M. eauto. }
  destruct (proj1 (proj2 (proj2 (@C3_one_reply Scenario.env_np
                                    (Scenario.reddit []) eq_refl)))
              (Scenario.second_notification n1) n2 w1 w2 true "t1_reply01")
    as (K1 & K2 & K3 & _).
  - unfold Scenario.second_notification. simpl. exact N1.
  - discriminate.
  - exact P2.
  - exists n1, w1, n2, w2. fold start first.
    split; [exact P1|]. split; [exact R1|]. split; [exact E1|].
    split; [exact N1|]. split; [exact P2|]. split; [exact K1|].
    split; [rewrite K2; exact R1|]. rewrite K3, E1. reflexivity.
Defined.

(** ** Failures that are not contained (C2) *)

(** A failure raised inside the first [try] is contained: a URL that is
    not a thread is logged, the store is rolled back, and the pass ends
    with the batch as it was. *)
Lemma resolve_bad_url (env : Env) (reddit : Reddit) (submission : Submission)
      (w : world) (e : exn) :
  _parse_path (urlparse_path env (Py.lower (s_url submission))) = Raise e ->
  RECOVERABLE_EXC e = true ->
  exists w',
    Totes.resolve env reddit submission w = (Val None, w') /\
    db_live w' = db_durable w /\ db_durable w' = db_durable w /\
    In Rollback (trace w').
Proof.
  intros P R. unfold Totes.resolve, Source.__init__, Totes.abandon.
  run_M. rewrite P. simpl. rewrite R.
  destruct (DEBUG env); simpl; eexists; repeat split;
    repeat (apply in_or_app; first [right; now left | left]).
Qed.

(** C2 on two runs.  First: the store knows the thread, unskipped, and the
    thread is gone from reddit.  [check_skip] fetches it outside any [try],
    so [SubmissionNotFound] leaves [run]: the second candidate of the batch
    is never looked at (nothing of it is selected or stored); only the
    [except] of the script's loop catches the exception, after which the
    script goes on to its teardown.  Second: one proper link from
    [ra_automod] into [relationship_advice] on an empty store.  Rendering
    the notification calls the unbound name [np]; [NameError] is not in
    [RECOVERABLE_EXC], so it leaves [run] and the script's loop, and the
    process dies without teardown. *)
Theorem C2_failures_escape :
  (let out := Totes.run Scenario.env
                (Scenario.reddit_gone
                   [Scenario.post_in_other; Scenario.second_post])
                Scenario.totes (Scenario.at_start Scenario.seen) in
   fst out = Raise (SubmissionNotFound "t3_abc123") /\
   Db.links (db_live (snd out)) = [] /\
   existsb (fun e => match e with
                     | Select _ (Some k) => k =? "t3_link02"
                     | Execute _ k => k =? "t3_link02"
                     | _ => false
                     end) (trace (snd out)) = false) /\
  (let out := main Scenario.env 25 None
                [Scenario.reddit_gone
                   [Scenario.post_in_other; Scenario.second_post]]
                (Scenario.at_start Scenario.seen) in
   fst out = Val tt /\ Db.links (db_live (snd out)) = []) /\
  (let out := main Scenario.env 25 None
                [Scenario.reddit [Scenario.second_post]]
                (Scenario.at_start Scenario.no_tables) in
   fst out = Raise (NameError "np") /\
   RECOVERABLE_EXC (NameError "np") = false /\
   existsb (fun e => match e with Close => true | _ => false end)
           (trace (snd out)) = false).
Proof.
  repeat split; vm_compute; reflexivity.
Qed.

(** * More of the module *)

(** ** [escape_title] *)

Lemma replace_char_app (c : ascii) (new x y : string) :
  replace_char c new (x ++ y)
  = replace_char c new x ++ replace_char c new y.
Proof.
  induction x as [|a x IH]; simpl; [reflexivity|].
  destruct (Ascii.eqb a c); simpl; rewrite IH; [|reflexivity].
  now rewrite append_assoc.
Qed.

Lemma escape_fold_app (cs : list ascii) (x y : string) :
  fold_left (fun t s => replace_char s (String "\" (String s "")) t) cs
            (x ++ y)
  = fold_left (fun t s => replace_char s (String "\" (String s "")) t) cs x
    ++ fold_left (fun t s => replace_char s (String "\" (String s "")) t) cs y.
Proof.
  revert x y. induction cs as [|c cs IH]; intros x y; simpl; [reflexivity|].
  now rewrite replace_char_app, IH.
Qed.

Lemma escape_title_app (x y : string) :
  escape_title (x ++ y) = escape_title x ++ escape_title y.
Proof. apply escape_fold_app. Qed.

Lemma escape_title_char (a : ascii) :
  escape_title (String a "")
  = if is_escaped a then String "\" (String a "") else String a "".
Proof.
  destruct a as [[] [] [] [] [] [] [] []]; reflexivity.
Qed.

Lemma escape_title_once (title : string) :
  escape_title title = escape_once title.
Proof.
  induction title as [|a t IH]; [reflexivity|].
  change (String a t) with (String a "" ++ t) at 1.
  rewrite escape_title_app, escape_title_char, IH. simpl.
  now destruct (is_escaped a).
Qed.

(** X1: the nine [replace] calls of [escape_title] come to one pass that
    puts a single backslash before every backslash, asterisk, bracket,
    caret, backquote, underscore, tilde and slash and leaves every other
    character alone: no backslash that an earlier [replace] inserted is
    escaped again by a later one.  So the result is the title's length plus
    one per such character, and escaping distributes over
    concatenation. *)
Theorem X1_escape_title_one_pass (title rest : string) :
  escape_title title = escape_once title /\
  escape_title (title ++ rest) = escape_title title ++ escape_title rest /\
  String.length (escape_title title)
  = String.length title
    + List.length (filter is_escaped (list_ascii_of_string title)).
Proof.
  split; [apply escape_title_once|]. split; [apply escape_title_app|].
  rewrite escape_title_once.
  induction title as [|a t IH]; simpl; [reflexivity|].
  destruct (is_escaped a); simpl; rewrite IH; lia.
Qed.

Lemma is_escaped_backslash (a : ascii) :
  Ascii.eqb a "\" = true -> is_escaped a = true.
Proof.
  intros E. apply Ascii.eqb_eq in E. now subst.
Qed.

(** X2: an escaped title can be read back: dropping each escaping
    backslash returns the title, so two titles with the same escaped form
    are the same title. *)
Theorem X2_escape_title_round_trip (title other : string) :
  unescape (escape_title title) = title /\
  (escape_title title = escape_title other -> title = other).
Proof.
  assert (forall t, unescape (escape_title t) = t) as R.
  { intros t. rewrite escape_title_once.
    induction t as [|a t IH]; simpl; [reflexivity|].
    destruct (is_escaped a) eqn:E; simpl.
    - now rewrite IH.
    - destruct (Ascii.eqb a "\") eqn:B.
      + apply is_escaped_backslash in B. congruence.
      + now rewrite IH. }
  split; [apply R|].
  intros H. rewrite <- (R title), <- (R other). now rewrite H.
Qed.

Lemma X2_escape_title_round_trip_witness :
  "a_b*c\d/e" = "a_b*c\d/e".
Proof.
  apply (proj2 (X2_escape_title_round_trip "a_b*c\d/e" "a_b*c\d/e")).
  reflexivity.
Defined.

(** ** The identifier of a Source *)

(** X3: a Source that the constructor returns has an id made of the kind
    prefix and a base-36 part of 6 to 8 characters of [a-z0-9]:
    [base36] gives back the comment identifier of the path when the path
    has the comment part, and the post identifier otherwise; [is_comment]
    tells which, and [is_post] is its opposite; the subreddit is not empty
    and has no slash. *)
Theorem X3_source_identity
        (env : Env) (url : string) (s : Source.t) (w w' : world) :
  Source.__init__ env url w = (Val s, w') ->
  exists post oc,
    PathShape (Source.path s) (Source.subreddit s) post oc /\
    Source.path s = urlparse_path env (Py.lower url) /\
    Source.base36 s = match oc with Some c => c | None => post end /\
    Source.is_comment s = match oc with Some _ => true | None => false end /\
    Source.is_post s = negb (Source.is_comment s) /\
    Source.id s
    = (if Source.is_comment s then "t1_" else "t3_") ++ Source.base36 s /\
    ident (Source.base36 s) /\ segment (Source.subreddit s).
Proof.
  unfold Source.__init__, _parse_path. run_M. rewrite first_match_ok.
  destruct (first_match _) as [[[sub post] oc]|] eqn:E; [|discriminate].
  apply first_match_sound in E.
  intros H. injection H as <- <-. exists post, oc. simpl.
  split; [assumption|]. split; [reflexivity|].
  destruct oc as [c|].
  - assert (ident c /\ segment sub) as [Ic Ss] by (inversion E; auto).
    destruct c as [|a c];
      [destruct Ic as [[L _] _]; simpl in L; lia|].
    repeat match goal with |- _ /\ _ => split end;
      try reflexivity; assumption.
  - assert (ident post /\ segment sub) as [Ip Ss] by (inversion E; auto).
    repeat match goal with |- _ /\ _ => split end;
      try reflexivity; assumption.
Qed.

Lemma X3_source_identity_witness :
  exists post oc,
    PathShape (Source.path Scenario.fresh_source)
              (Source.subreddit Scenario.fresh_source) post oc /\
    Source.path Scenario.fresh_source
    = urlparse_path Scenario.env (Py.lower (s_url Scenario.post_in_other)) /\
    Source.base36 Scenario.fresh_source
    = match oc with Some c => c | None => post end /\
    Source.is_comment Scenario.fresh_source
    = match oc with Some _ => true | None => false end /\
    Source.is_post Scenario.fresh_source
    = negb (Source.is_comment Scenario.fresh_source) /\
    Source.id Scenario.fresh_source
    = (if Source.is_comment Scenario.fresh_source then "t1_" else "t3_")
      ++ Source.base36 Scenario.fresh_source /\
    ident (Source.base36 Scenario.fresh_source) /\
    segment (Source.subreddit Scenario.fresh_source).
Proof.
  apply (@X3_source_identity Scenario.env (s_url Scenario.post_in_other)
           Scenario.fresh_source (Scenario.at_start Scenario.no_tables)
           (Scenario.at_start Scenario.no_tables)).
  reflexivity.
Defined.

Lemma lower_ascii_idem (c : ascii) :
  Py.lower_ascii (Py.lower_ascii c) = Py.lower_ascii c.
Proof.
  destruct c as [[] [] [] [] [] [] [] []]; reflexivity.
Qed.

Lemma lower_idem (s : string) : Py.lower (Py.lower s) = Py.lower s.
Proof.
  induction s as [|c s IH]; simpl; [reflexivity|].
  now rewrite lower_ascii_idem, IH.
Qed.

(** X4: the constructor of Source sees the URL only through its lowercased
    form: a URL and its lowercased form give the same result, and so do any
    two URLs that differ only in the case of ASCII letters, be it the same
    Source or the same [NotAComment]. *)
Theorem X4_source_case_insensitive (env : Env) (url other : string) (w : world) :
  Source.__init__ env (Py.lower url) w = Source.__init__ env url w /\
  (Py.lower url = Py.lower other ->
   Source.__init__ env url w = Source.__init__ env other w).
Proof.
  unfold Source.__init__. split.
  - now rewrite lower_idem.
  - now intros ->.
Qed.

Lemma X4_source_case_insensitive_witness :
  Source.__init__ Scenario.env (s_url Scenario.post_in_other)
    (Scenario.at_start Scenario.no_tables)
  = Source.__init__ Scenario.env (s_url Scenario.second_post)
      (Scenario.at_start Scenario.no_tables).
Proof.
  apply (proj2 (X4_source_case_insensitive Scenario.env
                  (s_url Scenario.post_in_other)
                  (s_url Scenario.second_post)
                  (Scenario.at_start Scenario.no_tables))).
  reflexivity.
Defined.

(** ** [save] and [load] together *)

Lemma find_source_id (id : string) (t : Db.tables) (row : Db.source_row) :
  Db.find_source id t = Some row -> Db.sr_id row = id.
Proof.
  unfold Db.find_source. intros F. apply find_some in F.
  now apply String.eqb_eq.
Qed.

Lemma find_link_id (id : string) (t : Db.tables) (row : Db.link_row) :
  Db.find_link id t = Some row -> Db.lr_id row = id.
Proof.
  unfold Db.find_link. intros F. apply find_some in F.
  now apply String.eqb_eq.
Qed.

Lemma Source_save_row (env : Env) (s : Source.t) (w w1 : world) :
  Source.save env s w = (Val tt, w1) ->
  exists row,
    Db.find_source (Source.id s) (db_live w1) = Some row /\
    Db.sr_id row = Source.id s /\
    Db.sr_reply row = Source.reply s /\
    Db.sr_subreddit row = Source.subreddit s /\
    Db.sr_author row = Source.author s /\
    Db.sr_title row = Source.title s /\
    Db.sr_skip row = Source.skip s.
Proof.
  unfold Source.save. run_M.
  destruct (Db.reply_taken (Source.id s) (Source.reply s) (db_live w));
    [discriminate|].
  destruct (Db.find_source (Source.id s) (db_live w)) as [r|] eqn:F;
    intros H; injection H as <-; simpl.
  - rewrite find_source_update, F. simpl. eexists. split; [reflexivity|].
    simpl. repeat split. eapply find_source_id; eauto.
  - rewrite find_source_insert by assumption. eexists.
    split; [reflexivity|]. repeat split.
Qed.

Lemma Link_save_row (env : Env) (l : Link.t) (w : world) :
  exists w1 row,
    Link.save env l w = (Val tt, w1) /\
    Db.find_link (Link.id l) (db_live w1) = Some row /\
    Db.lr_id row = Link.id l /\
    Db.lr_source row = Link.source l /\
    Db.lr_permalink row = Link.permalink l /\
    Db.lr_subreddit row = Link.subreddit l /\
    Db.lr_skip row = Link.skip l /\
    Db.lr_author row = Link.author l /\
    Db.lr_title row = Link.title l /\
    db_durable w1 = db_live w1.
Proof.
  unfold Link.save. run_M.
  destruct (Db.find_link (Link.id l) (db_live w)) as [r|] eqn:F; simpl.
  - eexists. eexists. split; [reflexivity|]. simpl.
    rewrite find_link_update, F. simpl. split; [reflexivity|]. simpl.
    repeat split. eapply find_link_id; eauto.
  - eexists. eexists. split; [reflexivity|]. simpl.
    rewrite find_link_insert by assumption. split; [reflexivity|].
    repeat split.
Qed.

(** X5: what [Source.save] stores, [Source.load] gives back.  After a
    [save] that went through, [load] on any Source object of the same id
    returns the saved reply, subreddit, author, title and skip, with
    [is_new] false, by the one SELECT and without asking reddit. *)
Theorem X5_source_save_load
        (env : Env) (reddit : Reddit) (s s0 : Source.t) (w w1 : world) :
  Source.save env s w = (Val tt, w1) ->
  Source.id s0 = Source.id s ->
  exists s1 w2,
    Source.load reddit s0 w1 = (Val s1, w2) /\
    Source.id s1 = Source.id s /\
    Source.reply s1 = Source.reply s /\
    Source.subreddit s1 = Source.subreddit s /\
    Source.author s1 = Source.author s /\
    Source.title s1 = Source.title s /\
    Source.skip s1 = Source.skip s /\
    Source.is_new s1 = false /\
    trace w2 = (trace w1 ++ [Select "sources" (Some (Source.id s))])%list /\
    db_live w2 = db_live w1 /\ db_durable w2 = db_durable w1.
Proof.
  intros V E. apply Source_save_row in V.
  destruct V as (row & F & R1 & R2 & R3 & R4 & R5 & R6).
  unfold Source.load. run_M. rewrite E, F.
  eexists. eexists. split; [reflexivity|]. simpl. repeat split; assumption.
Qed.

Lemma X5_source_save_load_witness :
  exists s1 w2,
    Source.load (Scenario.reddit_gone []) Scenario.fresh_source
      (snd (Source.save Scenario.env Scenario.source
              (Scenario.at_start Scenario.no_tables)))
    = (Val s1, w2) /\
    Source.id s1 = "t3_abc123" /\
    Source.reply s1 = None /\
    Source.subreddit s1 = "relationship_advice" /\
    Source.author s1 = Some "bob" /\
    Source.title s1 = Some "Help" /\
    Source.skip s1 = false /\
    Source.is_new s1 = false /\
    trace w2
    = (trace (snd (Source.save Scenario.env Scenario.source
                     (Scenario.at_start Scenario.no_tables)))
       ++ [Select "sources" (Some "t3_abc123")])%list /\
    db_live w2
    = db_live (snd (Source.save Scenario.env Scenario.source
                      (Scenario.at_start Scenario.no_tables))) /\
    db_durable w2
    = db_durable (snd (Source.save Scenario.env Scenario.source
                         (Scenario.at_start Scenario.no_tables))).
Proof.
  apply (@X5_source_save_load Scenario.env (Scenario.reddit_gone [])
           Scenario.source Scenario.fresh_source
           (Scenario.at_start Scenario.no_tables)); reflexivity.
Defined.

(** X6: what [Link.save] stores, [Link.load] gives back.  [save] always
    goes through and commits; after it, [load] on any Link object of the
    same id (such as the one a later cycle builds from the same
    submission) takes source, permalink, subreddit, skip, author and title
    from the row, whatever the object held, and clears [is_new]. *)
Theorem X6_link_save_load (env : Env) (l l0 : Link.t) (w : world) :
  Link.id l0 = Link.id l ->
  exists w1 l1 w2,
    Link.save env l w = (Val tt, w1) /\
    db_durable w1 = db_live w1 /\
    Link.load l0 w1 = (Val l1, w2) /\
    Link.id l1 = Link.id l /\
    Link.source l1 = Link.source l /\
    Link.permalink l1 = Link.permalink l /\
    Link.subreddit l1 = Link.subreddit l /\
    Link.skip l1 = Link.skip l /\
    Link.author l1 = Link.author l /\
    Link.title l1 = Link.title l /\
    Link.is_new l1 = false /\
    db_live w2 = db_live w1.
Proof.
  intros E.
  destruct (Link_save_row env l w)
    as (w1 & row & V & F & R1 & R2 & R3 & R4 & R5 & R6 & R7 & C).
  exists w1. unfold Link.load. run_M. rewrite E, F.
  eexists. eexists. split; [assumption|]. split; [assumption|].
  split; [reflexivity|]. simpl. repeat split; assumption.
Qed.

Lemma X6_link_save_load_witness :
  exists w1 l1 w2,
    Link.save Scenario.env Scenario.link
      (Scenario.at_start Scenario.no_tables) = (Val tt, w1) /\
    db_durable w1 = db_live w1 /\
    Link.load (Link.__init__ Scenario.post_in_other "t3_other0") w1
    = (Val l1, w2) /\
    Link.id l1 = Link.id Scenario.link /\
    Link.source l1 = Link.source Scenario.link /\
    Link.permalink l1 = Link.permalink Scenario.link /\
    Link.subreddit l1 = Link.subreddit Scenario.link /\
    Link.skip l1 = Link.skip Scenario.link /\
    Link.author l1 = Link.author Scenario.link /\
    Link.title l1 = Link.title Scenario.link /\
    Link.is_new l1 = false /\
    db_live w2 = db_live w1.
Proof.
  apply (@X6_link_save_load Scenario.env Scenario.link
           (Link.__init__ Scenario.post_in_other "t3_other0")
           (Scenario.at_start Scenario.no_tables)).
  reflexivity.
Defined.

(** ** What [save] leaves alone *)

Lemma find_none_ids (A : Type) (key : A -> string) (id : string)
      (rows : list A) :
  find (fun r => key r =? id) rows = None -> ~ In id (map key rows).
Proof.
  intros F I. apply in_map_iff in I. destruct I as (r & E & I).
  apply (find_none _ _ F) in I. rewrite E, String.eqb_refl in I.
  discriminate.
Qed.

Lemma find_other_map (A : Type) (key : A -> string) (f : A -> A)
      (id id' : string) (rows : list A) :
  (forall r, key (f r) = key r) ->
  id' <> id ->
  find (fun r => key r =? id')
       (map (fun r => if key r =? id then f r else r) rows)
  = find (fun r => key r =? id') rows.
Proof.
  intros K N. induction rows as [|r rows IH]; simpl; [reflexivity|].
  destruct (key r =? id) eqn:E.
  - rewrite K. apply String.eqb_eq in E.
    assert ((key r =? id') = false) as ->
        by (apply String.eqb_neq; congruence).
    exact IH.
  - destruct (key r =? id'); [reflexivity | exact IH].
Qed.

Lemma find_other_app (A : Type) (key : A -> string) (id' : string)
      (rows : list A) (row : A) :
  key row <> id' ->
  find (fun r => key r =? id') (rows ++ [row])
  = find (fun r => key r =? id') rows.
Proof.
  intros N. induction rows as [|r rows IH]; simpl.
  - apply String.eqb_neq in N. now rewrite N.
  - destruct (key r =? id'); [reflexivity | exact IH].
Qed.

Lemma map_key_update (A : Type) (key : A -> string) (f : A -> A)
      (id : string) (rows : list A) :
  (forall r, key (f r) = key r) ->
  map key (map (fun r => if key r =? id then f r else r) rows)
  = map key rows.
Proof.
  intros K. rewrite map_map. apply map_ext. intros r.
  destruct (key r =? id); [apply K | reflexivity].
Qed.

Lemma NoDup_snoc (ids : list string) (id : string) :
  NoDup ids -> ~ In id ids -> NoDup (ids ++ [id]).
Proof.
  intros D N. induction D as [|x ids X D IH]; simpl.
  - constructor; [intros [] | constructor].
  - constructor.
    + rewrite in_app_iff. simpl. intros [I|[E|[]]]; [contradiction|].
      subst. apply N. now left.
    + apply IH. intros I. apply N. now right.
Qed.

Lemma Source_save_frame (env : Env) (s : Source.t) (w w1 : world)
      (r : res unit) :
  Source.save env s w = (r, w1) ->
  Db.users (db_live w1) = Db.users (db_live w) /\
  Db.subreddits (db_live w1) = Db.subreddits (db_live w) /\
  Db.links (db_live w1) = Db.links (db_live w) /\
  (forall id', id' <> Source.id s ->
               Db.find_source id' (db_live w1)
               = Db.find_source id' (db_live w)) /\
  (NoDup (map Db.sr_id (Db.sources (db_live w))) ->
   NoDup (map Db.sr_id (Db.sources (db_live w1)))).
Proof.
  unfold Source.save. run_M.
  destruct (Db.reply_taken (Source.id s) (Source.reply s) (db_live w)).
  - intros H. injection H as <- <-. simpl. repeat split; auto.
  - destruct (Db.find_source (Source.id s) (db_live w)) as [row|] eqn:F;
      intros H; injection H as <- <-; simpl; repeat split.
    + intros id' N. unfold Db.find_source. simpl.
      now apply (find_other_map Db.sr_id).
    + intros D. now rewrite (map_key_update Db.sr_id).
    + intros id' N. unfold Db.find_source. simpl.
      apply (find_other_app Db.sr_id). simpl. congruence.
    + intros D. rewrite map_app. simpl. apply NoDup_snoc; [assumption|].
      now apply find_none_ids.
Qed.

Lemma Link_save_frame (env : Env) (l : Link.t) (w w1 : world)
      (r : res unit) :
  Link.save env l w = (r, w1) ->
  Db.users (db_live w1) = Db.users (db_live w) /\
  Db.subreddits (db_live w1) = Db.subreddits (db_live w) /\
  Db.sources (db_live w1) = Db.sources (db_live w) /\
  (forall id', id' <> Link.id l ->
               Db.find_link id' (db_live w1) = Db.find_link id' (db_live w)) /\
  (NoDup (map Db.lr_id (Db.links (db_live w))) ->
   NoDup (map Db.lr_id (Db.links (db_live w1)))).
Proof.
  unfold Link.save. run_M.
  destruct (Db.find_link (Link.id l) (db_live w)) as [row|] eqn:F;
    intros H; injection H as <- <-; simpl; repeat split.
  - intros id' N. unfold Db.find_link. simpl.
    now apply (find_other_map Db.lr_id).
  - intros D. now rewrite (map_key_update Db.lr_id).
  - intros id' N. unfold Db.find_link. simpl.
    apply (find_other_app Db.lr_id). simpl. congruence.
  - intros D. rewrite map_app. simpl. apply NoDup_snoc; [assumption|].
    now apply find_none_ids.
Qed.

(** X7: [save] touches one row of one table.  Whatever its outcome,
    [Source.save] leaves the tables [users], [subreddits] and [links] and
    every [sources] row of another id as they were, and [Link.save] does
    the same for [users], [subreddits], [sources] and the other [links]
    rows; and when the ids of the table were pairwise different before,
    they still are after: the exists-then-update-or-insert of [save] never
    makes a second row for an id. *)
Theorem X7_save_frame (env : Env) :
  (forall (s : Source.t) (w w1 : world) (r : res unit),
      Source.save env s w = (r, w1) ->
      Db.users (db_live w1) = Db.users (db_live w) /\
      Db.subreddits (db_live w1) = Db.subreddits (db_live w) /\
      Db.links (db_live w1) = Db.links (db_live w) /\
      (forall id', id' <> Source.id s ->
                   Db.find_source id' (db_live w1)
                   = Db.find_source id' (db_live w)) /\
      (NoDup (map Db.sr_id (Db.sources (db_live w))) ->
       NoDup (map Db.sr_id (Db.sources (db_live w1))))) /\
  (forall (l : Link.t) (w w1 : world) (r : res unit),
      Link.save env l w = (r, w1) ->
      Db.users (db_live w1) = Db.users (db_live w) /\
      Db.subreddits (db_live w1) = Db.subreddits (db_live w) /\
      Db.sources (db_live w1) = Db.sources (db_live w) /\
      (forall id', id' <> Link.id l ->
                   Db.find_link id' (db_live w1)
                   = Db.find_link id' (db_live w)) /\
      (NoDup (map Db.lr_id (Db.links (db_live w))) ->
       NoDup (map Db.lr_id (Db.links (db_live w1))))).
Proof.
  split; intros; [eapply Source_save_frame | eapply Link_save_frame]; eauto.
Qed.

Lemma X7_save_frame_witness :
  let w := Scenario.at_start Scenario.links_one_way in
  let w1 := snd (Link.save Scenario.env Scenario.link w) in
  Db.users (db_live w1) = Db.users (db_live w) /\
  Db.subreddits (db_live w1) = Db.subreddits (db_live w) /\
  Db.sources (db_live w1) = Db.sources (db_live w) /\
  (forall id', id' <> Link.id Scenario.link ->
               Db.find_link id' (db_live w1) = Db.find_link id' (db_live w)) /\
  (NoDup (map Db.lr_id (Db.links (db_live w))) ->
   NoDup (map Db.lr_id (Db.links (db_live w1)))).
Proof.
  intros w w1.
  apply (proj2 (X7_save_frame Scenario.env) Scenario.link w w1
           (fst (Link.save Scenario.env Scenario.link w))).
  reflexivity.
Defined.

(** ** What [check_skip] answers *)

Lemma Source_check_skip_cases (reddit : Reddit) (s : Source.t) (w : world) :
  match Source.check_skip reddit s w with
  | (Val (b, s'), w') =>
      b = Source.skip s
          || Db.flagged Db.p_skip_source (Source.author s)
                        (Db.users (db_live w))
          || Db.flagged Db.p_skip_source (Some (Source.subreddit s))
                        (Db.subreddits (db_live w))
          || match resolved reddit s with
             | Some thing => thing_archived thing
             | None => false
             end /\
      Source.skip s' = b /\
      Source.id s' = Source.id s /\
      Source.subreddit s' = Source.subreddit s /\
      Source.author s' = Source.author s /\
      Source.title s' = Source.title s /\
      Source.reply s' = Source.reply s /\
      Source.is_new s' = Source.is_new s /\
      db_live w' = db_live w /\ db_durable w' = db_durable w
  | (Raise e, w') =>
      e = match Source._submission s with
          | None => SubmissionNotFound (Source.id s)
          | Some _ => PRAWException
          end /\
      resolved reddit s = None /\
      Source.skip s = false /\
      Db.flagged Db.p_skip_source (Source.author s)
                 (Db.users (db_live w)) = false /\
      Db.flagged Db.p_skip_source (Some (Source.subreddit s))
                 (Db.subreddits (db_live w)) = false /\
      db_live w' = db_live w /\ db_durable w' = db_durable w
  end.
Proof.
  unfold Source.check_skip, resolved.
  destruct (Source.skip s) eqn:K; [unfold ret; repeat split; auto|].
  unfold bind at 1. unfold emit at 1. unfold bind at 1.
  unfold read_db at 1. cbn [db_live].
  destruct (Db.flagged Db.p_skip_source (Source.author s)
                       (Db.users (db_live w))) eqn:U;
    [unfold ret; repeat split; auto|].
  unfold bind at 1. unfold emit at 1. unfold bind at 1.
  unfold read_db at 1. cbn [db_live].
  destruct (Db.flagged Db.p_skip_source (Some (Source.subreddit s))
                       (Db.subreddits (db_live w))) eqn:B;
    [unfold ret; repeat split; auto|].
  unfold bind at 1. rewrite Source_thing_cases.
  destruct (Source._submission s) as [[thing|]|] eqn:C.
  - unfold ret. destruct (thing_archived thing); repeat split; auto.
  - destruct (Source.lookup reddit s) as [thing|] eqn:L.
    + unfold ret. destruct (thing_archived thing); repeat split; auto.
    + repeat split; auto.
  - destruct (Source.lookup reddit s) as [thing|] eqn:L.
    + unfold ret. destruct (thing_archived thing); repeat split; auto.
    + repeat split; auto.
Qed.

(** On the object as a read of [submission] that raised leaves it,
    [check_skip] gets past the property and fails in the read of
    [archived]. *)
Lemma Source_check_skip_again (reddit : Reddit) (s : Source.t) (w : world) :
  Source.skip s = false ->
  Db.flagged Db.p_skip_source (Source.author s) (Db.users (db_live w))
  = false ->
  Db.flagged Db.p_skip_source (Some (Source.subreddit s))
             (Db.subreddits (db_live w)) = false ->
  Source.lookup reddit s = None ->
  exists w',
    Source.check_skip reddit (Source.unloaded s) w
    = (Raise PRAWException, w').
Proof.
  intros K U B L. unfold Source.check_skip.
  change (Source.skip (Source.unloaded s)) with (Source.skip s).
  change (Source.author (Source.unloaded s)) with (Source.author s).
  change (Source.subreddit (Source.unloaded s)) with (Source.subreddit s).
  rewrite K.
  unfold bind at 1. unfold emit at 1. unfold bind at 1.
  unfold read_db at 1. cbn [db_live]. rewrite U.
  unfold bind at 1. unfold emit at 1. unfold bind at 1.
  unfold read_db at 1. cbn [db_live]. rewrite B.
  unfold bind at 1. rewrite Source_thing_cases.
  change (Source._submission (Source.unloaded s)) with (Some Unfetched).
  change (Source.lookup reddit (Source.unloaded s))
    with (Source.lookup reddit s).
  rewrite L. eauto.
Qed.

(** X8: [Source.check_skip] answers by the four rules together, in
    whatever order they are tried: when it returns, the answer is the
    disjunction of the instance's [skip], the author's skip-source
    preference, the subreddit's skip-source preference and the thing's
    [archived] flag; the answer is what [skip] then holds; nothing but
    [skip] and the cached handle changes on the instance, and the store is
    not written.  It raises only when none of the first three rules holds
    and the thing does not resolve: [SubmissionNotFound] with the Source's
    id when the object had no handle yet, and the client's exception when
    it kept the handle of an earlier failed read.  So a [check_skip] that
    is tried again on the object after it raised, while the thing still
    does not resolve, raises the client's exception and not
    [SubmissionNotFound]. *)
Theorem X8_source_check_skip
        (reddit : Reddit) (s : Source.t) (w w' : world) :
  (forall (b : bool) (s' : Source.t),
      Source.check_skip reddit s w = (Val (b, s'), w') ->
      b = Source.skip s
          || Db.flagged Db.p_skip_source (Source.author s)
                        (Db.users (db_live w))
          || Db.flagged Db.p_skip_source (Some (Source.subreddit s))
                        (Db.subreddits (db_live w))
          || match resolved reddit s with
             | Some thing => thing_archived thing
             | None => false
             end /\
      Source.skip s' = b /\
      Source.id s' = Source.id s /\
      Source.subreddit s' = Source.subreddit s /\
      Source.author s' = Source.author s /\
      Source.title s' = Source.title s /\
      Source.reply s' = Source.reply s /\
      Source.is_new s' = Source.is_new s /\
      db_live w' = db_live w /\ db_durable w' = db_durable w) /\
  (forall e : exn,
      Source.check_skip reddit s w = (Raise e, w') ->
      e = match Source._submission s with
          | None => SubmissionNotFound (Source.id s)
          | Some _ => PRAWException
          end /\
      resolved reddit s = None /\
      Source.skip s = false /\
      Db.flagged Db.p_skip_source (Source.author s)
                 (Db.users (db_live w)) = false /\
      Db.flagged Db.p_skip_source (Some (Source.subreddit s))
                 (Db.subreddits (db_live w)) = false /\
      db_live w' = db_live w /\ db_durable w' = db_durable w /\
      exists w'',
        Source.check_skip reddit (Source.unloaded s) w'
        = (Raise PRAWException, w'')).
Proof.
  pose proof (Source_check_skip_cases reddit s w) as H.
  split.
  - intros b s' E. rewrite E in H. simpl in H. exact H.
  - intros e E. rewrite E in H. simpl in H.
    destruct H as (H1 & H2 & H3 & H4 & H5 & H6 & H7).
    repeat split; try assumption.
    apply Source_check_skip_again; try assumption.
    + now rewrite H6.
    + now rewrite H6.
    + unfold resolved in H2.
      destruct (Source._submission s) as [[t|]|]; [discriminate| |];
        assumption.
Qed.

(** While the thread exists, [check_skip] on the scenario's Source over an
    empty store answers false.  Once the thread is gone, [check_skip] on
    the Source as the constructor leaves it raises [SubmissionNotFound];
    tried again on the object, it raises the client's exception. *)
Lemma X8_source_check_skip_witness :
  (false = Source.skip Scenario.source
           || Db.flagged Db.p_skip_source (Source.author Scenario.source)
                         (Db.users Scenario.no_tables)
           || Db.flagged Db.p_skip_source
                         (Some (Source.subreddit Scenario.source))
                         (Db.subreddits Scenario.no_tables)
           || match resolved (Scenario.reddit []) Scenario.source with
              | Some thing => thing_archived thing
              | None => false
              end) /\
  fst (Source.check_skip (Scenario.reddit_gone []) Scenario.fresh_source
         (Scenario.at_start Scenario.no_tables))
  = Raise (SubmissionNotFound "t3_abc123") /\
  exists w'',
    Source.check_skip (Scenario.reddit_gone []) Scenario.source_after_failure
      (snd (Source.check_skip (Scenario.reddit_gone []) Scenario.fresh_source
              (Scenario.at_start Scenario.no_tables)))
    = (Raise PRAWException, w'').
Proof.
  split; [|split; [reflexivity|]].
  - apply (proj1 (@X8_source_check_skip (Scenario.reddit []) Scenario.source
                    (Scenario.at_start Scenario.no_tables)
                    (snd (Source.check_skip (Scenario.reddit [])
                            Scenario.source
                            (Scenario.at_start Scenario.no_tables))))
             false Scenario.source).
    reflexivity.
  - apply (proj2 (@X8_source_check_skip (Scenario.reddit_gone [])
                    Scenario.fresh_source
                    (Scenario.at_start Scenario.no_tables)
                    (snd (Source.check_skip (Scenario.reddit_gone [])
                            Scenario.fresh_source
                            (Scenario.at_start Scenario.no_tables))))
             (SubmissionNotFound "t3_abc123")).
    reflexivity.
Defined.

(** X9: [Link.check_skip] always returns, and answers by its three rules
    together: the instance's [skip] (true from the start for a deleted
    author), the author's skip-link preference, and the skip-link
    preference of the lowercased subreddit.  The answer is what [skip]
    then holds, nothing else changes on the instance, the store is not
    written, and all it does is SELECT: it never asks reddit. *)
Theorem X9_link_check_skip (l : Link.t) (w : world) :
  exists (l' : Link.t) (w' : world) (selects : list event),
    Link.check_skip l w
    = (Val (Link.skip l
            || Db.flagged Db.p_skip_link (Some (Link.author l))
                          (Db.users (db_live w))
            || Db.flagged Db.p_skip_link
                          (Some (Py.lower (Link.subreddit l)))
                          (Db.subreddits (db_live w)), l'), w') /\
    l' = Link.set_skip l (Link.skip l') /\
    Link.skip l'
    = Link.skip l
      || Db.flagged Db.p_skip_link (Some (Link.author l))
                    (Db.users (db_live w))
      || Db.flagged Db.p_skip_link (Some (Py.lower (Link.subreddit l)))
                    (Db.subreddits (db_live w)) /\
    db_live w' = db_live w /\ db_durable w' = db_durable w /\
    trace w' = (trace w ++ selects)%list /\
    (forall e, In e selects -> exists table key, e = Select table key).
Proof.
  unfold Link.check_skip.
  destruct (Link.skip l) eqn:K.
  - exists l, w, []. unfold ret. simpl. rewrite app_nil_r.
    repeat split; auto.
    + destruct l; simpl in *; now subst.
    + intros e [].
  - unfold bind at 1. unfold emit at 1. unfold bind at 1.
    unfold read_db at 1. cbn [db_live].
    destruct (Db.flagged Db.p_skip_link (Some (Link.author l))
                         (Db.users (db_live w))) eqn:U.
    + eexists. eexists. exists [Select "users" (Some (Link.author l))].
      unfold ret. simpl. repeat split.
      intros e [<-|[]]. eauto.
    + unfold bind at 1. unfold emit at 1. unfold bind at 1.
      unfold read_db at 1. cbn [db_live].
      destruct (Db.flagged Db.p_skip_link
                           (Some (Py.lower (Link.subreddit l)))
                           (Db.subreddits (db_live w))) eqn:B.
      * eexists. eexists.
        exists [Select "users" (Some (Link.author l));
                Select "subreddits" (Some (Py.lower (Link.subreddit l)))].
        unfold ret. simpl. rewrite <- app_assoc. repeat split.
        intros e [<-|[<-|[]]]; eauto.
      * exists l. eexists.
        exists [Select "users" (Some (Link.author l));
                Select "subreddits" (Some (Py.lower (Link.subreddit l)))].
        unfold ret. simpl. rewrite <- app_assoc. repeat split; auto.
        -- destruct l; simpl in *; now subst.
        -- intros e [<-|[<-|[]]]; eauto.
Qed.

(** ** Reasoning about sequences of steps *)

Lemma bind_val (A B : Type) (m : M A) (k : A -> M B)
      (w w' : world) (b : B) :
  bind m k w = (Val b, w') ->
  exists a w1, m w = (Val a, w1) /\ k a w1 = (Val b, w').
Proof.
  unfold bind. destruct (m w) as [[a|e] w1]; [eauto | discriminate].
Qed.

Lemma try_except_val (A : Type) (m : M A) (h : exn -> M A)
      (w w' : world) (a : A) :
  try_except m h w = (Val a, w') ->
  m w = (Val a, w') \/
  exists e w1, m w = (Raise e, w1) /\ RECOVERABLE_EXC e = true /\
               h e w1 = (Val a, w').
Proof.
  unfold try_except. destruct (m w) as [[x|e] w1]; [now left|].
  destruct (RECOVERABLE_EXC e) eqn:R; [|discriminate].
  right. eauto.
Qed.

Section Keeps.

Variable P : world -> Prop.

Lemma keeps_ret (A : Type) (a : A) : keeps P (ret a).
Proof. intros w r w' H E. injection E as <- <-. exact H. Qed.

Lemma keeps_raise (A : Type) (e : exn) : keeps P (@raise A e).
Proof. intros w r w' H E. injection E as <- <-. exact H. Qed.

Lemma keeps_lift (A : Type) (x : res A) : keeps P (lift x).
Proof. intros w r w' H E. injection E as <- <-. exact H. Qed.

Lemma keeps_bind (A B : Type) (m : M A) (k : A -> M B) :
  keeps P m -> (forall a, keeps P (k a)) -> keeps P (bind m k).
Proof.
  intros Hm Hk w r w' H E. unfold bind in E.
  destruct (m w) as [[a|e] w1] eqn:M.
  - eapply Hk; [|exact E]. eapply Hm; eauto.
  - injection E as <- <-. eapply Hm; eauto.
Qed.

Lemma keeps_try_except (A : Type) (m : M A) (h : exn -> M A) :
  keeps P m -> (forall e, keeps P (h e)) -> keeps P (try_except m h).
Proof.
  intros Hm Hh w r w' H E. unfold try_except in E.
  destruct (m w) as [[a|e] w1] eqn:M.
  - injection E as <- <-. eapply Hm; eauto.
  - destruct (RECOVERABLE_EXC e).
    + eapply Hh; [|exact E]. eapply Hm; eauto.
    + injection E as <- <-. eapply Hm; eauto.
Qed.

Lemma keeps_for_each (A B : Type) (body : A -> B -> M A) (items : list B) :
  (forall acc x, keeps P (body acc x)) ->
  forall acc, keeps P (Totes.for_each body acc items).
Proof.
  intros Hb. induction items as [|x items IH]; intros acc; simpl.
  - apply keeps_ret.
  - apply keeps_bind; [apply Hb | intros a; apply IH].
Qed.

(** [P] looks at the store only. *)
Hypothesis P_store :
  forall w w', db_live w' = db_live w -> db_durable w' = db_durable w ->
               P w -> P w'.

Lemma keeps_reads_only (A : Type) (m : M A) : reads_only m -> keeps P m.
Proof.
  intros R w r w' H E. destruct (R _ _ _ E) as [E1 E2].
  eapply P_store; eauto.
Qed.

End Keeps.

Lemma reads_only_ret (A : Type) (a : A) : reads_only (ret a).
Proof. intros w r w' E. injection E as <- <-. auto. Qed.

Lemma reads_only_raise (A : Type) (e : exn) : reads_only (@raise A e).
Proof. intros w r w' E. injection E as <- <-. auto. Qed.

Lemma reads_only_lift (A : Type) (x : res A) : reads_only (lift x).
Proof. intros w r w' E. injection E as <- <-. auto. Qed.

Lemma reads_only_emit (e : event) : reads_only (emit e).
Proof. intros w r w' E. injection E as <- <-. auto. Qed.

Lemma reads_only_read_db : reads_only read_db.
Proof. intros w r w' E. injection E as <- <-. auto. Qed.

Lemma reads_only_history : reads_only history.
Proof. intros w r w' E. injection E as <- <-. auto. Qed.

Lemma reads_only_read_clock (env : Env) : reads_only (read_clock env).
Proof. intros w r w' E. injection E as <- <-. auto. Qed.

Lemma reads_only_bind (A B : Type) (m : M A) (k : A -> M B) :
  reads_only m -> (forall a, reads_only (k a)) -> reads_only (bind m k).
Proof.
  intros Hm Hk w r w' E. unfold bind in E.
  destruct (m w) as [[a|e] w1] eqn:M.
  - destruct (Hm _ _ _ M) as [M1 M2]. destruct (Hk a _ _ _ E) as [K1 K2].
    split; congruence.
  - injection E as <- <-. eapply Hm; eauto.
Qed.

Lemma reads_only_log_debug (env : Env) (msg : string) :
  reads_only (log_debug env msg).
Proof.
  unfold log_debug. destruct (DEBUG env);
    [apply reads_only_emit | apply reads_only_ret].
Qed.

(** Close a goal [reads_only m] or [keeps P m] for a computation built
    from binds, branches and the steps already known. *)
Ltac steps :=
  repeat first
    [ apply reads_only_ret | apply reads_only_raise | apply reads_only_lift
    | apply reads_only_emit | apply reads_only_read_db
    | apply reads_only_history | apply reads_only_read_clock
    | apply reads_only_log_debug
    | apply reads_only_bind
    | apply keeps_ret | apply keeps_raise | apply keeps_lift
    | apply keeps_bind | apply keeps_try_except | apply keeps_for_each
    | assumption
    | progress intros
    | match goal with
      | |- reads_only (let '(_, _) := ?x in _) => destruct x
      | |- reads_only (match ?x with _ => _ end) => destruct x
      | |- reads_only (if ?x then _ else _) => destruct x
      | |- keeps _ (let '(_, _) := ?x in _) => destruct x
      | |- keeps _ (match ?x with _ => _ end) => destruct x
      | |- keeps _ (if ?x then _ else _) => destruct x
      end ].

Lemma reads_only_Source_submission (reddit : Reddit) (s : Source.t) :
  reads_only (Source.submission reddit s).
Proof. unfold Source.submission. steps. Qed.

Lemma reads_only_Source_check_skip (reddit : Reddit) (s : Source.t) :
  reads_only (Source.check_skip reddit s).
Proof.
  unfold Source.check_skip. steps.
  apply reads_only_Source_submission.
Qed.

Lemma reads_only_Source_load (reddit : Reddit) (s : Source.t) :
  reads_only (Source.load reddit s).
Proof.
  unfold Source.load. steps; apply reads_only_Source_submission.
Qed.

Lemma reads_only_Source_init (env : Env) (url : string) :
  reads_only (Source.__init__ env url).
Proof. unfold Source.__init__. steps. Qed.

Lemma reads_only_Link_load (l : Link.t) : reads_only (Link.load l).
Proof. unfold Link.load. steps. Qed.

Lemma reads_only_Link_check_skip (l : Link.t) :
  reads_only (Link.check_skip l).
Proof. unfold Link.check_skip. steps. Qed.

Lemma reads_only_should_notify (n : Notification.t) :
  reads_only (Notification.should_notify n).
Proof. unfold Notification.should_notify. steps. Qed.

(** ** Nothing stays pending *)

Lemma clean_store (w w' : world) :
  db_live w' = db_live w -> db_durable w' = db_durable w ->
  clean w -> clean w'.
Proof. unfold clean. congruence. Qed.

Lemma keeps_clean_reads_only (A : Type) (m : M A) :
  reads_only m -> keeps clean m.
Proof. apply keeps_reads_only. exact clean_store. Qed.

Lemma keeps_clean_rollback : keeps clean rollback.
Proof. intros w r w' H E. injection E as <- <-. reflexivity. Qed.

Lemma keeps_clean_Source_save (env : Env) (s : Source.t) :
  keeps clean (Source.save env s).
Proof.
  intros w r w' H. unfold Source.save. run_M.
  destruct (Db.reply_taken _ _ _).
  - intros E. injection E as <- <-. exact H.
  - destruct (Db.find_source _ _); intros E; injection E as <- <-;
      reflexivity.
Qed.

Lemma keeps_clean_Link_save (env : Env) (l : Link.t) :
  keeps clean (Link.save env l).
Proof.
  intros w r w' H. unfold Link.save. run_M.
  destruct (Db.find_link _ _); intros E; injection E as <- <-; reflexivity.
Qed.

(** Close a goal [keeps clean m]. *)
Ltac cleans :=
  repeat first
    [ apply keeps_clean_rollback
    | apply keeps_clean_Source_save | apply keeps_clean_Link_save
    | apply keeps_clean_reads_only;
      first [ apply reads_only_Source_submission
            | apply reads_only_Source_check_skip
            | apply reads_only_Source_load
            | apply reads_only_Source_init
            | apply reads_only_Link_load
            | apply reads_only_Link_check_skip
            | apply reads_only_should_notify
            | apply reads_only_log_debug
            | apply reads_only_emit | apply reads_only_history
            | apply reads_only_read_clock | apply reads_only_lift
            | apply reads_only_ret | apply reads_only_raise ]
    | apply keeps_ret | apply keeps_raise | apply keeps_lift
    | apply keeps_bind | apply keeps_try_except | apply keeps_for_each
    | assumption
    | progress intros
    | match goal with
      | |- keeps _ (let '(_, _) := ?x in _) => destruct x
      | |- keeps _ (match ?x with _ => _ end) => destruct x
      | |- keeps _ (if ?x then _ else _) => destruct x
      end ].

Lemma keeps_clean_post_reply (env : Env) (reddit : Reddit)
      (n : Notification.t) :
  keeps clean (Notification.post_reply env reddit n).
Proof. unfold Notification.post_reply. cleans. Qed.

Lemma keeps_clean_abandon (A : Type) (env : Env) (stacktrace : bool)
      (what name : string) (e : exn) :
  keeps clean (@Totes.abandon A env stacktrace what name e).
Proof. unfold Totes.abandon, log_error, log_err. cleans. Qed.

Lemma keeps_clean_resolve (env : Env) (reddit : Reddit)
      (submission : Submission) :
  keeps clean (Totes.resolve env reddit submission).
Proof.
  unfold Totes.resolve. cleans; try apply keeps_clean_abandon.
Qed.

Lemma keeps_clean_process (env : Env) (reddit : Reddit)
      (sources : list Source.t) (submission : Submission) :
  keeps clean (Totes.process env reddit sources submission).
Proof.
  unfold Totes.process. cleans; try apply keeps_clean_resolve.
Qed.

Lemma keeps_clean_notify (env : Env) (reddit : Reddit) (u : unit)
      (source : Source.t) :
  keeps clean (Totes.notify env reddit u source).
Proof.
  unfold Totes.notify, log_error, log_err. cleans;
    try apply keeps_clean_post_reply.
Qed.

Lemma keeps_clean_snitch (env : Env) (self : Totes.t) :
  keeps clean (Totes.snitch env self).
Proof.
  unfold Totes.snitch, log_info, log_warn, log_error, log_err. cleans.
Qed.

Lemma keeps_clean_run (env : Env) (reddit : Reddit) (self : Totes.t) :
  keeps clean (Totes.run env reddit self).
Proof.
  unfold Totes.run, log_info. cleans;
    first [ apply keeps_clean_process | apply keeps_clean_notify
          | apply keeps_clean_snitch ].
Qed.

(** X10: every write is committed before anything else can fail.  When
    nothing is pending at the start (the cursor sees what is committed),
    nothing is pending when a pass of the first loop, a notification, a
    whole [run] or the whole script ends, whether it ends normally or by
    an exception of any kind; so each [db.rollback()] in the handlers has
    nothing to undo. *)
Theorem X10_nothing_pending (env : Env) (reddit : Reddit) :
  (forall sources submission,
      keeps clean (Totes.process env reddit sources submission)) /\
  (forall source, keeps clean (Totes.notify env reddit tt source)) /\
  (forall self, keeps clean (Totes.run env reddit self)) /\
  (forall limit snitch_url cycles,
      keeps clean (main env limit snitch_url cycles)).
Proof.
  repeat split.
  - intros. apply keeps_clean_process.
  - intros. apply keeps_clean_notify.
  - intros. apply keeps_clean_run.
  - intros. unfold main, main_loop, Totes.setup, Totes.quit, log_info,
      log_error, log_err. cleans; try apply keeps_clean_run.
Qed.

Lemma X10_nothing_pending_witness :
  clean (snd (Totes.run Scenario.env (Scenario.reddit [Scenario.second_post])
                Scenario.totes (Scenario.at_start Scenario.no_tables))).
Proof.
  apply (proj1 (proj2 (proj2 (X10_nothing_pending Scenario.env
                                (Scenario.reddit [Scenario.second_post]))))
           Scenario.totes (Scenario.at_start Scenario.no_tables)
           (fst (Totes.run Scenario.env
                   (Scenario.reddit [Scenario.second_post])
                   Scenario.totes (Scenario.at_start Scenario.no_tables)))).
  - reflexivity.
  - apply surjective_pairing.
Defined.

(** ** The batch of a cycle *)

Lemma log_debug_val (env : Env) (msg : string) (w w' : world) (u : unit) :
  log_debug env msg w = (Val u, w') ->
  db_live w' = db_live w /\ db_durable w' = db_durable w /\
  ticks w' = ticks w.
Proof.
  unfold log_debug. destruct (DEBUG env); run_M;
    intros E; injection E as <- <-; auto.
Qed.

(** What a pass of the first loop can do to the batch. *)
Lemma process_outcome (env : Env) (reddit : Reddit)
      (sources sources' : list Source.t) (submission : Submission)
      (w w' : world) :
  Totes.process env reddit sources submission w = (Val sources', w') ->
  sources' = sources \/
  exists source link w1 w2,
    db_live w1 = db_live w /\ db_durable w1 = db_durable w /\
    Totes.resolve env reddit submission w1 = (Val (Some (source, link)), w2) /\
    sources' = Totes.set_add source sources /\
    Totes.any_new source link = true /\
    Totes.skip_any source link = false.
Proof.
  unfold Totes.process. intros H.
  apply bind_val in H. destruct H as (now & w1 & C & H).
  destruct (@reads_only_read_clock env _ _ _ C) as [L1 D1].
  destruct (Qlt_le_dec _ _).
  - apply bind_val in H. destruct H as (u & w2 & _ & H).
    left. unfold ret in H. congruence.
  - apply bind_val in H. destruct H as (r & w2 & R & H).
    destruct r as [[source link]|]; [|left; unfold ret in H; congruence].
    apply bind_val in H. destruct H as (u1 & w3 & _ & H).
    apply bind_val in H. destruct H as (u2 & w4 & _ & H).
    destruct (Totes.any_new source link) eqn:N; simpl in H;
      [|left; unfold ret in H; congruence].
    destruct (Totes.skip_any source link) eqn:K; simpl in H;
      [left; unfold ret in H; congruence|].
    right. unfold ret in H. injection H as <- <-.
    exists source, link, w1, w2. repeat split; auto.
Qed.

Lemma set_add_ids (source : Source.t) (sources : list Source.t) :
  NoDup (map Source.id sources) ->
  NoDup (map Source.id (Totes.set_add source sources)).
Proof.
  intros D. unfold Totes.set_add.
  destruct (existsb (Source.__eq__ source) sources) eqn:E; [assumption|].
  rewrite map_app. simpl. apply NoDup_snoc; [assumption|].
  intros I. apply in_map_iff in I. destruct I as (x & Ex & I).
  assert (existsb (Source.__eq__ source) sources = true) as T.
  { apply existsb_exists. exists x. split; [assumption|].
    unfold Source.__eq__. rewrite Ex. apply String.eqb_refl. }
  congruence.
Qed.

Lemma set_add_incl (source : Source.t) (sources : list Source.t) :
  incl sources (Totes.set_add source sources) /\
  length (Totes.set_add source sources) <= S (length sources).
Proof.
  unfold Totes.set_add.
  destruct (existsb (Source.__eq__ source) sources).
  - split; [apply incl_refl | lia].
  - split; [apply incl_appl, incl_refl|]. rewrite length_app. simpl. lia.
Qed.

(** X11: the batch of a cycle never holds two Sources of the same id.
    The first loop only ever adds to the batch, at most one Source per
    submission, and a Source whose id is already in the batch is not added
    again; so the second loop makes at most one Notification per Source
    id in a cycle, however many submissions link to it. *)
Theorem X11_batch_distinct
        (env : Env) (reddit : Reddit) (submissions : list Submission)
        (batch sources : list Source.t) (w w' : world) :
  Totes.for_each (Totes.process env reddit) batch submissions w
  = (Val sources, w') ->
  NoDup (map Source.id batch) ->
  NoDup (map Source.id sources) /\
  incl batch sources /\
  length sources <= length batch + length submissions.
Proof.
  revert batch w. induction submissions as [|x rest IH]; intros batch w H D.
  - unfold Totes.for_each, ret in H. injection H as <- <-.
    repeat split; [assumption | apply incl_refl | simpl; lia].
  - simpl in H. apply bind_val in H. destruct H as (mid & w1 & P & H).
    assert (NoDup (map Source.id mid) /\ incl batch mid /\
            length mid <= S (length batch)) as (Dm & Im & Lm).
    { apply process_outcome in P.
      destruct P as [->|(source & link & _ & _ & _ & _ & _ & -> & _)].
      - repeat split; [assumption | apply incl_refl | lia].
      - destruct (set_add_incl source batch).
        repeat split; auto. now apply set_add_ids. }
    destruct (IH _ _ H Dm) as (Ds & Is & Ls).
    repeat split; [assumption | eapply incl_tran; eauto | simpl; lia].
Qed.

Lemma X11_batch_distinct_witness :
  let out := Totes.for_each (Totes.process Scenario.env (Scenario.reddit []))
               [] [Scenario.post_in_other; Scenario.second_post]
               (Scenario.at_start Scenario.no_tables) in
  fst out = Val [Scenario.source] /\
  (NoDup (map Source.id [Scenario.source]) /\
   incl [] [Scenario.source] /\
   length [Scenario.source] <= length (@nil Source.t) + 2).
Proof.
  intros out. split; [vm_compute; reflexivity|].
  apply (@X11_batch_distinct Scenario.env (Scenario.reddit [])
           [Scenario.post_in_other; Scenario.second_post] []
           [Scenario.source] (Scenario.at_start Scenario.no_tables)
           (snd out)).
  - vm_compute. reflexivity.
  - constructor.
Defined.

(** ** A link whose author is gone *)

Lemma abandon_none (A : Type) (env : Env) (stacktrace : bool)
      (what name : string) (e : exn) (w w' : world) (x : option A) :
  Totes.abandon env stacktrace what name e w = (Val x, w') -> x = None.
Proof.
  unfold Totes.abandon. intros H.
  apply bind_val in H. destruct H as (u1 & w1 & _ & H).
  apply bind_val in H. destruct H as (u2 & w2 & _ & H).
  apply bind_val in H. destruct H as (u3 & w3 & _ & H).
  unfold ret in H. congruence.
Qed.

(** The Link of a pass that reached the end of [resolve] is the one the
    constructor made, checked and saved, when the store had no row for
    it. *)
Lemma resolve_new_link (env : Env) (reddit : Reddit)
      (submission : Submission) (source : Source.t) (link : Link.t)
      (w w' : world) :
  Totes.resolve env reddit submission w = (Val (Some (source, link)), w') ->
  Db.find_link (s_name submission) (db_live w) = None ->
  exists (b : bool) (w1 w2 : world),
    Link.check_skip (Link.__init__ submission (Source.id source)) w1
    = (Val (b, link), w2) /\
    exists w3, Link.save env link w2 = (Val tt, w3) /\
               db_live w' = db_live w3.
Proof.
  unfold Totes.resolve. intros H F.
  apply bind_val in H. destruct H as (r & w1 & T & H).
  apply try_except_val in T.
  destruct T as [T|(e & w0 & _ & _ & T)];
    [|apply abandon_none in T; subst r; unfold ret in H; discriminate].
  apply bind_val in T. destruct T as (s0 & wa & I & T).
  apply bind_val in T. destruct T as (s1 & wb & L & T).
  unfold ret in T. injection T as <- <-.
  destruct (@reads_only_Source_init env _ _ _ _ I) as [I1 _].
  destruct (@reads_only_Source_load reddit _ _ _ _ L) as [L1 _].
  apply bind_val in H. destruct H as (u1 & w2 & G1 & H).
  apply log_debug_val in G1. destruct G1 as (G1 & _).
  apply bind_val in H. destruct H as ([b0 s2] & w3 & K & H).
  destruct (@reads_only_Source_check_skip reddit _ _ _ _ K) as [K1 _].
  apply bind_val in H. destruct H as (u2 & w4 & V & H).
  destruct (Source_save_frame _ _ _ V) as (_ & _ & V1 & _).
  apply bind_val in H. destruct H as (r2 & w5 & T & H).
  apply try_except_val in T.
  destruct T as [T|(e & w0 & _ & _ & T)];
    [|apply abandon_none in T; subst r2; unfold ret in H; discriminate].
  apply bind_val in T. destruct T as (l0 & wc & LL & T).
  unfold ret in T. injection T as <- <-.
  assert (Db.find_link (s_name submission) (db_live w4) = None) as F4.
  { unfold Db.find_link in *. rewrite V1, K1, G1, L1, I1. exact F. }
  unfold Link.load in LL. run_M. rewrite F4 in LL.
  injection LL as <- <-.
  apply bind_val in H. destruct H as (u3 & w6 & _ & H).
  apply bind_val in H. destruct H as ([b l1] & w7 & C & H).
  apply bind_val in H. destruct H as (u4 & w8 & S & H).
  unfold ret in H. injection H as <- <- <-. destruct u4.
  exists b, w6, w7. split; [exact C|]. exists w8.
  split; [exact S|reflexivity].
Qed.

Lemma resolve_deleted_author (env : Env) (reddit : Reddit)
      (submission : Submission) (source : Source.t) (link : Link.t)
      (w w' : world) :
  s_author submission = None ->
  Db.find_link (s_name submission) (db_live w) = None ->
  Totes.resolve env reddit submission w = (Val (Some (source, link)), w') ->
  Link.skip link = true /\
  exists row,
    Db.find_link (s_name submission) (db_live w') = Some row /\
    Db.lr_skip row = true.
Proof.
  intros A F R.
  apply resolve_new_link in R; [|assumption].
  destruct R as (b & wa & wb & C & wc & V & E).
  assert (Link.skip (Link.__init__ submission (Source.id source)) = true)
    as K by (simpl; now rewrite A).
  rewrite (@Link_check_skip_latched _ wa K) in C.
  injection C as <- <- <-.
  split; [exact K|].
  destruct (Link_save_row env (Link.__init__ submission (Source.id source))
                          wa)
    as (wd & row & V' & F' & _ & _ & _ & _ & S' & _).
  rewrite V in V'. injection V' as <-.
  exists row. rewrite E. split; [exact F'|]. rewrite S'. exact K.
Qed.

(** X12: a link whose author is gone never queues a Source when the link
    is seen for the first time.  The constructor marks such a Link as
    skipped, so when the store has no row for it, a pass of the first loop
    leaves the batch as it was; and when the pass gets to the end of
    [resolve], the row it has stored for the Link has [skip] set, which
    keeps the link out of every notification list. *)
Theorem X12_deleted_author_link
        (env : Env) (reddit : Reddit) (submission : Submission) (w : world) :
  s_author submission = None ->
  Db.find_link (s_name submission) (db_live w) = None ->
  (forall sources sources' w',
      Totes.process env reddit sources submission w = (Val sources', w') ->
      sources' = sources) /\
  (forall source link w',
      Totes.resolve env reddit submission w
      = (Val (Some (source, link)), w') ->
      Link.skip link = true /\
      exists row,
        Db.find_link (s_name submission) (db_live w') = Some row /\
        Db.lr_skip row = true).
Proof.
  intros A F. split.
  - intros sources sources' w' H. apply process_outcome in H.
    destruct H as [H|(source & link & w1 & w2 & L & _ & R & _ & _ & K)];
      [assumption|].
    apply resolve_deleted_author in R;
      [|assumption|unfold Db.find_link in *; now rewrite L].
    destruct R as [S _]. unfold Totes.skip_any in K.
    rewrite S, orb_true_r in K. now destruct (_ && _).
  - intros source link w' R. eapply resolve_deleted_author; eauto.
Qed.

Lemma X12_deleted_author_link_witness :
  (forall sources sources' w',
      Totes.process Scenario.env (Scenario.reddit [])
        sources Scenario.deleted_post (Scenario.at_start Scenario.no_tables)
      = (Val sources', w') ->
      sources' = sources) /\
  (forall source link w',
      Totes.resolve Scenario.env (Scenario.reddit []) Scenario.deleted_post
        (Scenario.at_start Scenario.no_tables)
      = (Val (Some (source, link)), w') ->
      Link.skip link = true /\
      exists row,
        Db.find_link (s_name Scenario.deleted_post) (db_live w') = Some row /\
        Db.lr_skip row = true).
Proof.
  apply (@X12_deleted_author_link Scenario.env (Scenario.reddit [])
           Scenario.deleted_post (Scenario.at_start Scenario.no_tables));
    reflexivity.
Defined.

(** ** A cycle with nothing to do *)

Lemma quietly_refl (w : world) : quietly w w.
Proof.
  repeat split. exists []. split; [now rewrite app_nil_r | constructor].
Qed.

Lemma quietly_trans (w1 w2 w3 : world) :
  quietly w1 w2 -> quietly w2 w3 -> quietly w1 w3.
Proof.
  intros (L1 & D1 & e1 & T1 & F1) (L2 & D2 & e2 & T2 & F2).
  split; [congruence|]. split; [congruence|].
  exists (e1 ++ e2)%list. split.
  - now rewrite T2, T1, app_assoc.
  - now apply Forall_app.
Qed.

Lemma quietly_emit (e : event) (w : world) :
  chatter e -> exists w', emit e w = (Val tt, w') /\ quietly w w'.
Proof.
  intros C. eexists. split; [reflexivity|]. repeat split.
  exists [e]. split; [reflexivity | now constructor].
Qed.

Lemma quietly_log_debug (env : Env) (msg : string) (w : world) :
  exists w', log_debug env msg w = (Val tt, w') /\ quietly w w'.
Proof.
  unfold log_debug. destruct (DEBUG env).
  - now apply quietly_emit.
  - exists w. split; [reflexivity | apply quietly_refl].
Qed.

Lemma quietly_read_clock (env : Env) (w : world) :
  exists w', read_clock env w = (Val (clock env (ticks w)), w') /\
             quietly w w'.
Proof.
  eexists. split; [reflexivity|]. repeat split.
  exists []. split; [simpl; now rewrite app_nil_r | constructor].
Qed.

Lemma process_too_new (env : Env) (reddit : Reddit)
      (sources : list Source.t) (submission : Submission) (w : world) :
  (clock env (ticks w) - s_created_utc submission < POST_TIME)%Q ->
  exists w',
    Totes.process env reddit sources submission w = (Val sources, w') /\
    quietly w w'.
Proof.
  intros Hnew. unfold Totes.process.
  destruct (quietly_read_clock env w) as (w1 & C & Q1).
  unfold bind at 1. rewrite C.
  destruct (Qlt_le_dec _ _) as [_|Hold];
    [|exfalso; exact (Qlt_not_le _ _ Hnew Hold)].
  destruct (quietly_log_debug env "Skipping, too new" w1) as (w2 & G & Q2).
  unfold bind. rewrite G. exists w2. split; [reflexivity|].
  eapply quietly_trans; eauto.
Qed.

Lemma for_each_too_new (env : Env) (reddit : Reddit)
      (submissions : list Submission) (sources : list Source.t) (w : world) :
  (forall submission n,
      In submission submissions ->
      (clock env n - s_created_utc submission < POST_TIME)%Q) ->
  exists w',
    Totes.for_each (Totes.process env reddit) sources submissions w
    = (Val sources, w') /\
    quietly w w'.
Proof.
  revert w. induction submissions as [|x rest IH]; intros w H; simpl.
  - exists w. split; [reflexivity | apply quietly_refl].
  - destruct (@process_too_new env reddit sources x w) as (w1 & P & Q1);
      [apply H; now left|].
    destruct (IH w1) as (w2 & R & Q2); [intros; apply H; now right|].
    unfold bind. rewrite P. exists w2. split; [exact R|].
    eapply quietly_trans; eauto.
Qed.

Lemma quietly_snitch (env : Env) (self : Totes.t) (w : world) :
  exists w', Totes.snitch env self w = (Val tt, w') /\ quietly w w'.
Proof.
  unfold Totes.snitch. destruct (Py.truthy (Totes.snitch_url self));
    [|exists w; split; [reflexivity | apply quietly_refl]].
  set (url := match Totes.snitch_url self with Some u => u | None => "" end).
  destruct (quietly_emit (Log "INFO" "Snitchin'...") w I) as (w1 & E1 & Q1).
  destruct (quietly_emit (HttpGet url) w1 I) as (w2 & E2 & Q2).
  unfold log_info, bind. rewrite E1, E2.
  destruct (requests_get env url).
  - exists w2. split; [reflexivity | eapply quietly_trans; eauto].
  - destruct (quietly_emit (Log "WARNING" "Couldn't snitch") w2 I)
      as (w3 & E3 & Q3).
    destruct (quietly_emit
                (Log "ERROR" ("Unexpected " ++ class_name RequestException
                              ++ ":")) w3 I) as (w4 & E4 & Q4).
    unfold log_warn, log_error, log_err. rewrite E3, E4.
    exists w4. split; [reflexivity|].
    eapply quietly_trans; [|exact Q4]. eapply quietly_trans; [|exact Q3].
    eapply quietly_trans; eauto.
Qed.

(** X13: a cycle with nothing to do does nothing.  When [run] is set up
    and every submission of the feed (cut at [limit]) is younger than
    [POST_TIME] whenever the clock is read, which covers the empty feed,
    [run] ends normally, both copies of the store are as before, and all
    it leaves in the trace are log lines and the beacon request: no
    SELECT, no write, no fetch, no reply, no edit.  The beacon, when
    configured, is requested all the same, and its failure is only
    logged. *)
Theorem X13_idle_cycle (env : Env) (reddit : Reddit) (self : Totes.t)
        (w : world) :
  Totes._setup self = true ->
  (forall submission n,
      In submission (firstn (Totes.limit self) (domain_new reddit)) ->
      (clock env n - s_created_utc submission < POST_TIME)%Q) ->
  exists w',
    Totes.run env reddit self w = (Val tt, w') /\
    quietly w w' /\
    replies (trace w') = replies (trace w) /\
    edits (trace w') = edits (trace w).
Proof.
  intros S H. unfold Totes.run. rewrite S.
  change (negb true) with false. cbv iota.
  destruct (quietly_emit (Log "INFO" "Running.") w I) as (w1 & E1 & Q1).
  destruct (quietly_log_debug env
              ("Got " ++ Py.str_nat
                 (length (firstn (Totes.limit self) (domain_new reddit)))
               ++ " new submissions") w1) as (w2 & E2 & Q2).
  destruct (@for_each_too_new env reddit
              (firstn (Totes.limit self) (domain_new reddit)) [] w2 H)
    as (w3 & E3 & Q3).
  destruct (quietly_snitch env self w3) as (w4 & E4 & Q4).
  destruct (quietly_emit (Log "INFO" "Done.") w4 I) as (w5 & E5 & Q5).
  unfold log_info, bind. rewrite E1, E2, E3. simpl Totes.for_each.
  unfold ret. rewrite E4, E5.
  assert (quietly w w5) as Q.
  { eapply quietly_trans; [|exact Q5]. eapply quietly_trans; [|exact Q4].
    eapply quietly_trans; [|exact Q3]. eapply quietly_trans; eauto. }
  exists w5. split; [reflexivity|]. split; [exact Q|].
  destruct Q as (_ & _ & events & T & F). rewrite T. traces.
  assert (replies events = [] /\ edits events = []) as [-> ->].
  { clear T. induction F as [|e events C F IH]; [split; reflexivity|].
    destruct IH as [R E]. destruct e; simpl in *; try contradiction; auto. }
  now rewrite !app_nil_r.
Qed.

Lemma X13_idle_cycle_witness :
  exists w',
    Totes.run Scenario.recent (Scenario.reddit [Scenario.fresh_post])
      Scenario.beacon (Scenario.at_start Scenario.seen) = (Val tt, w') /\
    quietly (Scenario.at_start Scenario.seen) w' /\
    replies (trace w') = [] /\
    edits (trace w') = [].
Proof.
  apply (@X13_idle_cycle Scenario.recent
           (Scenario.reddit [Scenario.fresh_post])
           Scenario.beacon (Scenario.at_start Scenario.seen)).
  - reflexivity.
  - intros submission n [<-|[]]. reflexivity.
Defined.

(** ** How the script ends *)

Lemma handler_returns (w : world) (e : exn) :
  exists w', (log_error e;; rollback) w = (Val tt, w').
Proof. run_M. eexists. reflexivity. Qed.

Lemma main_loop_raises (env : Env) (totes : Totes.t) (cycles : list Reddit)
      (w w' : world) (e : exn) :
  main_loop env totes cycles w = (Raise e, w') ->
  RECOVERABLE_EXC e = false.
Proof.
  unfold main_loop. revert w.
  induction cycles as [|reddit cycles IH]; intros w; simpl;
    [discriminate|].
  unfold bind at 1. unfold try_except at 1.
  destruct (Totes.run env reddit totes w) as [[[]|x] w1].
  - apply IH.
  - destruct (RECOVERABLE_EXC x) eqn:R.
    + destruct (handler_returns w1 x) as (w2 & ->). apply IH.
    + intros H. injection H as <- <-. exact R.
Qed.

(** X14: only an exception outside [RECOVERABLE_EXC] ends the script
    early.  The script either gets through all turns of its loop and then
    tears down, its last two effects being the goodbye line and the
    closing of the store, or it dies of an exception that is not
    recoverable; and a turn whose [run] raises a recoverable exception is
    followed by the next turn, after the error is logged and the store
    rolled back. *)
Theorem X14_script_outcome (env : Env) (limit : nat)
        (snitch_url : option string) (cycles : list Reddit) (w : world) :
  match main env limit snitch_url cycles w with
  | (Val _, w') =>
      exists before,
        trace w' = (before ++ [Log "INFO" "Totes goodbye!"; Close])%list
  | (Raise e, _) => RECOVERABLE_EXC e = false
  end /\
  (forall (totes : Totes.t) (reddit : Reddit) (e : exn) (w1 : world),
      Totes.run env reddit totes w = (Raise e, w1) ->
      RECOVERABLE_EXC e = true ->
      main_loop env totes (reddit :: cycles) w
      = main_loop env totes cycles
          (snd ((log_error e;; rollback) w1))).
Proof.
  split.
  - unfold main, Totes.setup, Totes.quit. run_M.
    match goal with
    | |- context [main_loop env ?t cycles ?w0] =>
        destruct (main_loop env t cycles w0) as [[[]|e] w1] eqn:L
    end.
    + eexists. rewrite <- app_assoc. reflexivity.
    + eapply main_loop_raises; eauto.
  - intros totes reddit e w1 R C. unfold main_loop at 1. simpl.
    unfold bind at 1. unfold try_except at 1. rewrite R, C.
    reflexivity.
Qed.

Lemma X14_script_outcome_witness :
  main_loop Scenario.env Scenario.totes
    [Scenario.reddit_gone [Scenario.post_in_other]; Scenario.reddit []]
    (Scenario.at_start Scenario.seen)
  = main_loop Scenario.env Scenario.totes [Scenario.reddit []]
      (snd ((log_error (SubmissionNotFound "t3_abc123");; rollback)
              (snd (Totes.run Scenario.env
                      (Scenario.reddit_gone [Scenario.post_in_other])
                      Scenario.totes (Scenario.at_start Scenario.seen))))).
Proof.
  apply (proj2 (X14_script_outcome Scenario.env 25 None
                  [Scenario.reddit []] (Scenario.at_start Scenario.seen))
           Scenario.totes (Scenario.reddit_gone [Scenario.post_in_other])
           (SubmissionNotFound "t3_abc123")); reflexivity.
Defined.

(** ** Notifications in the module as written *)

(** X15: [_render_comment] needs [np] only when there is a link to show:
    on an empty list it returns the preamble and the footer whatever [np]
    is; with [np] unbound, as the module leaves it, it raises [NameError]
    on every non-empty list.  Hence the body of the second loop of [run]
    never posts or edits a reply in the module as written: for a Source
    without a link to show it does nothing, and for a Source with one it
    dies of [NameError], which the [except] clause lets through, having
    done no more than the SELECT. *)
Theorem X15_notify_unbound_np (env : Env) (reddit : Reddit) :
  (forall n, Notification.links n = [] ->
             Notification._render_comment env n
             = Val (Py.join (nl ++ nl)
                            [Notification.preamble; Notification.footer])) /\
  (np env = None ->
   (forall n, Notification.links n <> [] ->
              Notification._render_comment env n = Raise (NameError "np")) /\
   forall (source : Source.t) (w : world),
     exists w',
       Totes.notify env reddit tt source w
       = (if existsb (Notification.where_ (Source.id source))
                     (Db.links (db_live w))
          then Raise (NameError "np") else Val tt, w') /\
       trace w' = (trace w ++ [Select "links" (Some (Source.id source))])%list /\
       db_live w' = db_live w /\ db_durable w' = db_durable w).
Proof.
  split.
  - intros n E. unfold Notification._render_comment. now rewrite E.
  - intros U. split.
    + intros n N. unfold Notification._render_comment.
      destruct (Notification.links n) as [|row rows]; [congruence|].
      now rewrite bullets_unbound.
    + intros source w. unfold Totes.notify, Notification.should_notify.
      run_M.
      assert (existsb (fun _ => true)
                      (Notification.query (Source.id source) (db_live w))
              = existsb (Notification.where_ (Source.id source))
                        (Db.links (db_live w))) as ->.
      { destruct (query_spec (Source.id source) (db_live w)) as [P _].
        destruct (existsb (Notification.where_ _) _) eqn:X.
        - apply existsb_exists in X. destruct X as (r & I & W).
          apply existsb_always. intros E. rewrite E in P.
          apply Permutation_nil in P.
          assert (In (Notification.selected r)
                     (map Notification.selected
                          (filter (Notification.where_ (Source.id source))
                                  (Db.links (db_live w))))) as J
              by (apply in_map, filter_In; auto).
          rewrite P in J. destruct J.
        - destruct (Notification.query _ _) as [|x l] eqn:Q;
            [reflexivity|]. exfalso.
          assert (In x (map Notification.selected
                            (filter (Notification.where_ (Source.id source))
                                    (Db.links (db_live w))))) as J
              by (eapply Permutation_in; [exact P | now left]).
          apply in_map_iff in J. destruct J as (r & _ & J).
          apply filter_In in J. destruct J as [J W].
          assert (existsb (Notification.where_ (Source.id source))
                          (Db.links (db_live w)) = true) as T
              by (apply existsb_exists; eauto).
          congruence. }
      destruct (existsb (Notification.where_ _) _) eqn:X.
      * unfold Notification.post_reply, Notification._render_comment.
        simpl.
        destruct (Notification.query (Source.id source) (db_live w))
          as [|row rows] eqn:Q.
        -- exfalso.
           destruct (query_spec (Source.id source) (db_live w)) as [P _].
           rewrite Q in P. apply Permutation_nil in P.
           apply existsb_exists in X. destruct X as (r & I & W).
           assert (In (Notification.selected r)
                      (map Notification.selected
                           (filter (Notification.where_ (Source.id source))
                                   (Db.links (db_live w))))) as J
               by (apply in_map, filter_In; auto).
           rewrite P in J. destruct J.
        -- rewrite bullets_unbound by assumption. run_M.
           eexists. repeat split.
      * eexists. repeat split.
Qed.

Lemma X15_notify_unbound_np_witness :
  exists w',
    Totes.notify Scenario.env (Scenario.reddit []) tt Scenario.source
      (Scenario.at_start Scenario.links_one_way)
    = (Raise (NameError "np"), w') /\
    trace w' = [Select "links" (Some "t3_abc123")] /\
    db_live w' = Scenario.links_one_way /\
    db_durable w' = Scenario.links_one_way.
Proof.
  apply (proj2 (proj2 (X15_notify_unbound_np Scenario.env (Scenario.reddit []))
                      eq_refl)
           Scenario.source (Scenario.at_start Scenario.links_one_way)).
Defined.

(** ** Failures the first [try] contains *)

Lemma Source_init_anywhere (env : Env) (url : string) (s : Source.t)
      (w w0 w2 : world) :
  Source.__init__ env url w = (Val s, w0) ->
  Source.__init__ env url w2 = (Val s, w2).
Proof.
  unfold Source.__init__. run_M.
  destruct (_parse_path _) as [[id subreddit]|e]; [|discriminate].
  intros H. injection H as <- _. reflexivity.
Qed.

Lemma Source_init_raises (env : Env) (url : string) (e : exn)
      (w w0 : world) :
  Source.__init__ env url w = (Raise e, w0) ->
  RECOVERABLE_EXC e = true /\
  forall w2, Source.__init__ env url w2 = (Raise e, w2).
Proof.
  unfold Source.__init__, _parse_path. run_M.
  destruct (PATH_REGEX_match _) as [[[sub post] oc]|]; [discriminate|].
  intros H. injection H as <- _. split; reflexivity.
Qed.

Lemma abandon_runs (A : Type) (env : Env) (stacktrace : bool)
      (what name : string) (e : exn) (w : world) :
  exists w',
    @Totes.abandon A env stacktrace what name e w = (Val None, w') /\
    db_live w' = db_durable w /\ db_durable w' = db_durable w /\
    replies (trace w') = replies (trace w) /\
    edits (trace w') = edits (trace w).
Proof.
  unfold Totes.abandon, log_debug.
  destruct stacktrace, (DEBUG env); run_M; eexists;
    (split; [reflexivity|]); simpl; traces; repeat split.
Qed.

(** X16: a submission whose Source cannot be made is passed over.  When
    the URL is not a thread or comment ([NotAComment]), or when the Source
    is new to the store and its thread no longer resolves
    ([SubmissionNotFound] out of [load]), a pass of the first loop ends
    normally with the batch as it was: nothing is written or committed,
    no reply is created or edited, and the next submission is looked
    at. *)
Theorem X16_source_failure_contained
        (env : Env) (reddit : Reddit) (sources : list Source.t)
        (submission : Submission) (w : world) :
  (exists e w0,
      Source.__init__ env (s_url submission) w = (Raise e, w0)) \/
  (exists s w0,
      Source.__init__ env (s_url submission) w = (Val s, w0) /\
      Db.find_source (Source.id s) (db_live w) = None /\
      Source.lookup reddit s = None) ->
  exists w',
    Totes.process env reddit sources submission w = (Val sources, w') /\
    db_durable w' = db_durable w /\
    (db_live w' = db_live w \/ db_live w' = db_durable w) /\
    replies (trace w') = replies (trace w) /\
    edits (trace w') = edits (trace w).
Proof.
  intros H. unfold Totes.process.
  unfold bind at 1. unfold read_clock at 1.
  set (w1 := {| db_live := db_live w; db_durable := db_durable w;
                trace := trace w; ticks := S (ticks w) |}).
  destruct (Qlt_le_dec _ _).
  - unfold log_debug. destruct (DEBUG env); run_M; eexists;
      (split; [reflexivity|]); simpl; traces; repeat split; auto.
  - assert (exists e w2,
               (source <- Source.__init__ env (s_url submission);;
                source <- Source.load reddit source;;
                ret (Some source)) w1 = (Raise e, w2) /\
               RECOVERABLE_EXC e = true /\
               db_durable w2 = db_durable w /\
               replies (trace w2) = replies (trace w) /\
               edits (trace w2) = edits (trace w)) as (e & w2 & T & R & D & Tr & Te).
    { destruct H as [(e & w0 & I)|(s & w0 & I & F & L)].
      - destruct (@Source_init_raises _ _ _ _ _ I) as [R Any].
        exists e, w1. unfold bind at 1. rewrite (Any w1). auto.
      - pose proof (@Source_init_fresh _ _ _ _ _ I) as (_ & C & A & _).
        exists (SubmissionNotFound (Source.id s)).
        unfold bind at 1. rewrite (@Source_init_anywhere _ _ _ _ _ w1 I).
        unfold Source.load. run_M.
        rewrite F, A. simpl. rewrite Source_thing_cases, C, L.
        eexists. split; [reflexivity|]. simpl. traces. auto. }
    unfold Totes.resolve. unfold bind at 1. unfold bind at 1.
    unfold try_except at 1. rewrite T, R.
    destruct (@abandon_runs Source.t env (DEBUG env) "source"
                (s_name submission) e w2) as (w3 & Ab & L3 & D3 & R3 & E3).
    rewrite Ab. exists w3. unfold ret. split; [reflexivity|].
    repeat split; try congruence. right. congruence.
Qed.

Lemma X16_source_failure_contained_witness :
  exists w',
    Totes.process Scenario.env (Scenario.reddit_gone []) []
      Scenario.post_in_other (Scenario.at_start Scenario.no_tables)
    = (Val [], w') /\
    db_durable w' = Scenario.no_tables /\
    (db_live w' = Scenario.no_tables \/ db_live w' = Scenario.no_tables) /\
    replies (trace w') = [] /\
    edits (trace w') = [].
Proof.
  apply (@X16_source_failure_contained Scenario.env (Scenario.reddit_gone [])
           [] Scenario.post_in_other (Scenario.at_start Scenario.no_tables)).
  right. exists Scenario.fresh_source, (Scenario.at_start Scenario.no_tables).
  repeat split.
Defined.

(** ** The cached thing *)

Lemma Source_thing_cached (reddit : Reddit) (s s' : Source.t)
      (thing : Thing) (w w' : world) :
  Source.thing reddit s w = (Val (thing, s'), w') ->
  Source._submission s' = Some (Fetched thing).
Proof.
  rewrite Source_thing_cases.
  destruct (Source._submission s) as [[t|]|] eqn:C.
  - intros H. injection H as <- <- <-. exact C.
  - destruct (Source.lookup reddit s); [|discriminate].
    intros H. injection H as <- <- <-. reflexivity.
  - destruct (Source.lookup reddit s); [|discriminate].
    intros H. injection H as <- <- <-. reflexivity.
Qed.

Lemma Source_submission_cached (reddit : Reddit) (s s' : Source.t)
      (handle : Handle) (w w' : world) :
  Source.submission reddit s w = (Val (handle, s'), w') ->
  Source._submission s' = Some handle /\
  (Source._submission s = None -> exists thing, handle = Fetched thing).
Proof.
  unfold Source.submission, Source.unloaded.
  destruct (Source._submission s) as [h|] eqn:C.
  - unfold ret. intros H. injection H as <- <- <-.
    split; [exact C | discriminate].
  - unfold bind, emit, ret, raise. cbv beta iota.
    destruct (Source.lookup reddit _) as [thing|]; [|discriminate].
    intros H. injection H as <- <- <-. split; [reflexivity|eauto].
Qed.

Lemma Source_load_cached (reddit : Reddit) (s s' : Source.t) (w w' : world) :
  Db.find_source (Source.id s) (db_live w) = None ->
  Source.load reddit s w = (Val s', w') ->
  exists thing, Source._submission s' = Some (Fetched thing).
Proof.
  intros F. unfold Source.load. intros H.
  apply bind_val in H. destruct H as (u & w1 & E & H).
  injection E as <- <-.
  apply bind_val in H. destruct H as (db & w2 & E & H).
  injection E as <- <-. simpl in H. rewrite F in H.
  apply bind_val in H. destruct H as (s1 & w3 & _ & H).
  apply bind_val in H. destruct H as ([thing s2] & w4 & S & H).
  apply Source_thing_cached in S.
  exists thing. destruct (thing_title thing);
    unfold ret in H; injection H as <- <-; exact S.
Qed.

(** X17: a Source object asks reddit for its thing at most once.  Once a
    read of [self.submission.<attribute>] has returned, the loaded thing
    is cached on the object, and the property, when it makes the handle
    and returns, returns it loaded: reading the property or an attribute
    again returns the same thing and does nothing, and [check_skip] on the
    object cannot raise and does nothing but SELECT.  [load] of a Source
    without a row leaves the object in that state, so for a Source new to
    the store the [check_skip] that follows [load] in [run] never fetches
    and never raises. *)
Theorem X17_thing_fetched_once (reddit : Reddit) (s : Source.t) (w : world) :
  (forall thing s' w',
      Source.thing reddit s w = (Val (thing, s'), w') ->
      Source._submission s' = Some (Fetched thing)) /\
  (forall handle s' w',
      Source.submission reddit s w = (Val (handle, s'), w') ->
      Source._submission s' = Some handle /\
      (Source._submission s = None -> exists thing, handle = Fetched thing)) /\
  (forall s' w',
      Db.find_source (Source.id s) (db_live w) = None ->
      Source.load reddit s w = (Val s', w') ->
      exists thing, Source._submission s' = Some (Fetched thing)) /\
  (forall thing,
      Source._submission s = Some (Fetched thing) ->
      Source.submission reddit s w = (Val (Fetched thing, s), w) /\
      Source.thing reddit s w = (Val (thing, s), w) /\
      exists b s' w' selects,
        Source.check_skip reddit s w = (Val (b, s'), w') /\
        trace w' = (trace w ++ selects)%list /\
        (forall e, In e selects -> exists table key, e = Select table key)).
Proof.
  split; [intros; eapply Source_thing_cached; eauto|].
  split; [intros; eapply Source_submission_cached; eauto|].
  split; [intros; eapply Source_load_cached; eauto|].
  intros thing C. split; [unfold Source.submission; now rewrite C|].
  split; [rewrite Source_thing_cases; now rewrite C|].
  unfold Source.check_skip.
  destruct (Source.skip s).
  - exists true, s, w, []. unfold ret. rewrite app_nil_r.
    repeat split. intros e [].
  - unfold bind at 1. unfold emit at 1. unfold bind at 1.
    unfold read_db at 1. cbn [db_live].
    destruct (Db.flagged Db.p_skip_source (Source.author s) _).
    + eexists. eexists. eexists. exists [Select "users" (Source.author s)].
      unfold ret. repeat split. intros e [<-|[]]. eauto.
    + unfold bind at 1. unfold emit at 1. unfold bind at 1.
      unfold read_db at 1. cbn [db_live].
      destruct (Db.flagged Db.p_skip_source (Some (Source.subreddit s)) _).
      * eexists. eexists. eexists.
        exists [Select "users" (Source.author s);
                Select "subreddits" (Some (Source.subreddit s))].
        unfold ret. cbn [trace]. rewrite <- app_assoc. repeat split.
        intros e [<-|[<-|[]]]; eauto.
      * unfold bind at 1. rewrite Source_thing_cases, C.
        unfold ret. destruct (thing_archived thing);
          eexists; eexists; eexists;
          exists [Select "users" (Source.author s);
                  Select "subreddits" (Some (Source.subreddit s))];
          cbn [trace]; rewrite <- app_assoc; repeat split;
          intros e [<-|[<-|[]]]; eauto.
Qed.

Lemma X17_thing_fetched_once_witness :
  Source.submission (Scenario.reddit_gone []) Scenario.source
    (Scenario.at_start Scenario.no_tables)
  = (Val (Fetched (TSubmission Scenario.thread), Scenario.source),
     Scenario.at_start Scenario.no_tables) /\
  Source.thing (Scenario.reddit_gone []) Scenario.source
    (Scenario.at_start Scenario.no_tables)
  = (Val (TSubmission Scenario.thread, Scenario.source),
     Scenario.at_start Scenario.no_tables) /\
  exists b s' w' selects,
    Source.check_skip (Scenario.reddit_gone []) Scenario.source
      (Scenario.at_start Scenario.no_tables) = (Val (b, s'), w') /\
    trace w' = (trace (Scenario.at_start Scenario.no_tables) ++ selects)%list /\
    (forall e, In e selects -> exists table key, e = Select table key).
Proof.
  apply (proj2 (proj2 (proj2 (X17_thing_fetched_once (Scenario.reddit_gone [])
                                Scenario.source
                                (Scenario.at_start Scenario.no_tables))))
           (TSubmission Scenario.thread)).
  reflexivity.
Defined.

(** ** [load] on a Source that already has an author *)

(** X18: [load] looks at the thing's author only while the object has no
    author of its own.  On a Source without a row whose [author] is already
    set (as after an earlier [load] that was not followed by [save]), the
    test [not self.author and ...] fails and the [else] branch runs: the
    author becomes ["[deleted]"] whatever the thing's author is, while the
    title is taken from the thing as usual. *)
Theorem X18_load_keeps_no_author
        (reddit : Reddit) (s : Source.t) (w : world)
        (author : string) (thing : Thing) :
  Source.author s = Some author -> author <> "" ->
  Db.find_source (Source.id s) (db_live w) = None ->
  resolved reddit s = Some thing ->
  exists s' w',
    Source.load reddit s w = (Val s', w') /\
    Source.author s' = Some "[deleted]" /\
    Source.title s' = Some (load_title thing) /\
    Source.is_new s' = Source.is_new s.
Proof.
  intros A N F R. unfold Source.load.
  unfold bind at 1. unfold emit at 1.
  unfold bind at 1. unfold read_db at 1. cbn [db_live]. rewrite F, A.
  assert (Py.truthy (Some author) = true) as ->
      by (destruct author; [congruence | reflexivity]).
  cbn [negb]. unfold bind at 1. unfold bind at 1. unfold ret at 1.
  cbv beta iota.
  match goal with
  | |- context [Source.thing reddit ?s1 ?w1] =>
      destruct (@Source_thing_resolved reddit s1 w1 thing R)
        as (w2 & T & _)
  end.
  rewrite T.
  destruct thing; eexists; eexists; repeat split.
Qed.

Lemma X18_load_keeps_no_author_witness :
  exists s' w',
    Source.load (Scenario.reddit []) Scenario.source
      (Scenario.at_start Scenario.no_tables) = (Val s', w') /\
    Source.author s' = Some "[deleted]" /\
    Source.title s' = Some "Help" /\
    Source.is_new s' = true.
Proof.
  apply (@X18_load_keeps_no_author (Scenario.reddit []) Scenario.source
           (Scenario.at_start Scenario.no_tables) "bob"
           (TSubmission Scenario.thread)).
  - reflexivity.
  - discriminate.
  - reflexivity.
  - reflexivity.
Defined.

(** ** When [post_reply] fails *)

Lemma Source_save_raises (env : Env) (s : Source.t) (w w' : world) (e : exn) :
  Source.save env s w = (Raise e, w') ->
  e = IntegrityError /\
  Db.reply_taken (Source.id s) (Source.reply s) (db_live w) = true /\
  db_live w' = db_live w /\ db_durable w' = db_durable w /\
  replies (trace w') = replies (trace w) /\
  edits (trace w') = edits (trace w).
Proof.
  unfold Source.save. run_M.
  destruct (Db.reply_taken _ _ _) eqn:T.
  - intros H. injection H as <- <-. simpl. traces. repeat split.
  - destruct (Db.find_source _ _); discriminate.
Qed.

(** X19: a [post_reply] that raises has stored nothing: both copies of the
    store are as before and nothing was edited.  It has created a reply
    only in one case: the reply was posted and the [save] of the Source
    that follows was refused with [IntegrityError]; then the new reply
    exists on reddit but its identifier is not in the store.  In every other
    failure (rendering, fetching the thing, reddit refusing the reply or
    the edit) no reply was created, so the reply identifier is still unset
    and a later cycle starts over. *)
Theorem X19_post_reply_failure
        (env : Env) (reddit : Reddit) (n : Notification.t)
        (w w' : world) (e : exn) :
  Notification.post_reply env reddit n w = (Raise e, w') ->
  db_live w' = db_live w /\ db_durable w' = db_durable w /\
  edits (trace w') = edits (trace w) /\
  (replies (trace w') = replies (trace w) \/
   e = IntegrityError /\
   exists name, replies (trace w') = (replies (trace w) ++ [name])%list).
Proof.
  unfold Notification.post_reply.
  unfold bind at 1. unfold lift at 1.
  destruct (Notification._render_comment env n) as [body|x].
  - destruct (TEST env).
    + unfold log_debug. destruct (DEBUG env); run_M; discriminate.
    + destruct (Py.truthy (Notification.reply n)).
      * run_M. destruct (edit_comment reddit _ _ body); [discriminate|].
        intros H. injection H as <- <-. auto.
      * unfold bind at 1.
        destruct (Source.submission reddit (Notification.source n) w)
          as [[[thing src]|x] w1] eqn:S.
        -- apply Source_submission_effect in S.
           destruct S as (S1 & S2 & S3 & S4 & _).
           unfold bind at 1. unfold history at 1.
           unfold bind at 1. unfold lift at 1.
           destruct (reply_to reddit (trace w1) (Source.fullname src) body)
             as [name|x].
           ++ unfold bind at 1. unfold emit at 1. unfold bind at 1.
              match goal with
              | |- context [Source.save env ?s ?w2] =>
                  destruct (Source.save env s w2) as [[[]|x] w3] eqn:V
              end; [discriminate|].
              apply Source_save_raises in V. simpl in V.
              destruct V as (-> & _ & V1 & V2 & V3 & V4).
              intros H. injection H as <- <-.
              rewrite V1, V2, V3, V4. traces.
              repeat split; try congruence.
              right. split; [reflexivity|]. exists name. congruence.
           ++ intros H. injection H as <- <-. repeat split; auto.
        -- intros H. injection H as <- <-.
           unfold Source.submission in S.
           destruct (Source._submission (Notification.source n));
             [discriminate|].
           unfold bind, emit, ret, raise in S. cbv beta iota in S.
           destruct (Source.lookup reddit _); [discriminate|].
           injection S as _ <-. simpl. traces. auto.
  - intros H. injection H as <- <-. auto.
Qed.

Lemma X19_post_reply_failure_witness :
  let out := Notification.post_reply Scenario.env (Scenario.reddit [])
               (Scenario.notification Scenario.one_link)
               (Scenario.at_start Scenario.seen) in
  db_live (snd out) = Scenario.seen /\
  db_durable (snd out) = Scenario.seen /\
  edits (trace (snd out)) = [] /\
  (replies (trace (snd out)) = [] \/
   NameError "np" = IntegrityError /\
   exists name, replies (trace (snd out)) = ([] ++ [name])%list).
Proof.
  intros out.
  apply (@X19_post_reply_failure Scenario.env (Scenario.reddit [])
           (Scenario.notification Scenario.one_link)
           (Scenario.at_start Scenario.seen) (snd out) (NameError "np")).
  reflexivity.
Defined.

(** ** A saved link in the notification list *)

(** X20: a Link saved unskipped is in the next notification of its Source.
    After [Link.save] of a Link whose [skip] is false, [should_notify] on
    a Notification made for a Source whose id is the Link's [source]
    answers true, and the Link's subreddit, title and permalink are in the
    list. *)
Theorem X20_saved_link_is_listed
        (env : Env) (l : Link.t) (s : Source.t) (w : world) :
  Link.skip l = false ->
  Link.source l = Source.id s ->
  exists w1 n w2,
    Link.save env l w = (Val tt, w1) /\
    Notification.should_notify (Notification.__init__ s) w1
    = (Val (true, n), w2) /\
    In (Link.subreddit l, Link.title l, Link.permalink l)
       (Notification.links n).
Proof.
  intros K E.
  destruct (Link_save_row env l w)
    as (w1 & row & V & F & R1 & R2 & R3 & R4 & R5 & R6 & R7 & _).
  exists w1. unfold Notification.should_notify. run_M.
  assert (In (Link.subreddit l, Link.title l, Link.permalink l)
             (Notification.query (Source.id s) (db_live w1))) as I.
  { destruct (query_spec (Source.id s) (db_live w1)) as [P _].
    apply (Permutation_in _ (Permutation_sym P)).
    apply in_map_iff. exists row. split.
    - unfold Notification.selected. congruence.
    - apply filter_In. split.
      + unfold Db.find_link in F. now apply find_some in F.
      + apply where_spec. split; congruence. }
  destruct (Notification.query (Source.id s) (db_live w1)) as [|x rest];
    [destruct I|].
  eexists. eexists. split; [exact V|]. split; [reflexivity|]. exact I.
Qed.

Lemma X20_saved_link_is_listed_witness :
  exists w1 n w2,
    Link.save Scenario.env Scenario.link
      (Scenario.at_start Scenario.no_tables) = (Val tt, w1) /\
    Notification.should_notify (Notification.__init__ Scenario.source) w1
    = (Val (true, n), w2) /\
    In (Link.subreddit Scenario.link, Link.title Scenario.link,
        Link.permalink Scenario.link)
       (Notification.links n).
Proof.
  apply (@X20_saved_link_is_listed Scenario.env Scenario.link
           Scenario.source (Scenario.at_start Scenario.no_tables));
    reflexivity.
Defined.
